(** * SupplyChainTrackingChaincode: the transfer protocol of [TransFer.go]
      and the queries of [Quires.go], embedded over finite maps.

    Go strings and byte slices are [string]s (sequences of 8-bit
    characters).  The library functions the contract calls are modelled
    first (crypto/sha256, encoding/hex, encoding/json, the composite keys of
    the Fabric shim, the timestamps of ptypes), then the ledger stub as a
    state-and-error monad, then every entry point of the contract. *)

From Stdlib Require Import ZArith NArith String Ascii List Lia Bool.
From stdpp Require Import base option list gmap strings pretty sorting.

Local Open Scope string_scope.
Local Open Scope Z_scope.

(** Byte slices. *)
Abbreviation bytes := string.

(* ===================================================================== *)
(** ** Bytes and encoding/hex *)
(* ===================================================================== *)

Module Bytes.

Definition to_Z (c : ascii) : Z := Z.of_N (N_of_ascii c).
Definition of_Z (z : Z) : ascii := ascii_of_N (Z.to_N (z mod 256)).

Definition to_list (s : string) : list Z := map to_Z (list_ascii_of_string s).
Definition of_list (l : list Z) : string := string_of_list_ascii (map of_Z l).

(** One hexadecimal digit of [hex.EncodeToString]'s table
    ["0123456789abcdef"], from the four bits of a nibble (least
    significant first). *)
Definition hexdigit (b0 b1 b2 b3 : bool) : ascii :=
  match b3, b2, b1, b0 with
  | false, false, false, false => "0"
  | false, false, false, true => "1"
  | false, false, true, false => "2"
  | false, false, true, true => "3"
  | false, true, false, false => "4"
  | false, true, false, true => "5"
  | false, true, true, false => "6"
  | false, true, true, true => "7"
  | true, false, false, false => "8"
  | true, false, false, true => "9"
  | true, false, true, false => "a"
  | true, false, true, true => "b"
  | true, true, false, false => "c"
  | true, true, false, true => "d"
  | true, true, true, false => "e"
  | true, true, true, true => "f"
  end%char.

(** The double quote, and a text in which every apostrophe stands for a
    double quote: JSON texts are written with apostrophes below. *)
Definition dquote : ascii := "034"%char.

Fixpoint requote (s : string) : string :=
  match s with
  | EmptyString => EmptyString
  | String c r => String (if Ascii.eqb c "'" then dquote else c) (requote r)
  end.

(** [hex.EncodeToString]: two lower-case digits per byte, high nibble
    first. *)
Fixpoint hex_EncodeToString (src : bytes) : string :=
  match src with
  | EmptyString => EmptyString
  | String (Ascii b0 b1 b2 b3 b4 b5 b6 b7) rest =>
      String (hexdigit b4 b5 b6 b7)
        (String (hexdigit b0 b1 b2 b3) (hex_EncodeToString rest))
  end.

End Bytes.

(* ===================================================================== *)
(** ** crypto/sha256 (FIPS 180-4), on 32-bit words kept in [Z] *)
(* ===================================================================== *)

Module SHA256.

Definition mask32 : Z := 0xffffffff.
Definition add32 (a b : Z) : Z := Z.land (a + b) mask32.
Definition rotr (n x : Z) : Z :=
  Z.lor (Z.shiftr x n) (Z.land (Z.shiftl x (32 - n)) mask32).
Definition xor3 (a b c : Z) : Z := Z.lxor (Z.lxor a b) c.

Definition Ch (x y z : Z) : Z :=
  Z.lxor (Z.land x y) (Z.land (Z.lxor x mask32) z).
Definition Maj (x y z : Z) : Z :=
  xor3 (Z.land x y) (Z.land x z) (Z.land y z).
Definition bsig0 (x : Z) : Z := xor3 (rotr 2 x) (rotr 13 x) (rotr 22 x).
Definition bsig1 (x : Z) : Z := xor3 (rotr 6 x) (rotr 11 x) (rotr 25 x).
Definition ssig0 (x : Z) : Z := xor3 (rotr 7 x) (rotr 18 x) (Z.shiftr x 3).
Definition ssig1 (x : Z) : Z := xor3 (rotr 17 x) (rotr 19 x) (Z.shiftr x 10).

(** The constants of FIPS 180-4, computed as the standard defines them:
    the first 32 bits of the fractional parts of the cube roots of the first
    64 primes, and of the square roots of the first 8 primes for the initial
    hash value. *)
Definition is_prime (n : Z) : bool :=
  forallb (fun d => negb (n mod Z.of_nat d =? 0)) (seq 2 (Z.to_nat n - 2)).

Definition primes : list Z :=
  filter (fun n => is_prime n = true) (map Z.of_nat (seq 2 310)).

(** The largest [r] below [2 ^ bits] with [r ^ k <= n], one bit after the
    other. *)
Fixpoint iroot (k : Z) (n : Z) (bits : nat) (acc : Z) : Z :=
  match bits with
  | O => acc
  | S b =>
      let try := acc + 2 ^ Z.of_nat b in
      iroot k n b (if try ^ k <=? n then try else acc)
  end.

Definition frac_root (k : Z) (p : Z) : Z :=
  iroot k (p * 2 ^ (32 * k)) 40 0 mod 2 ^ 32.

Definition K : list Z := Eval vm_compute in map (frac_root 3) primes.

Definition H0 : list Z := Eval vm_compute in map (frac_root 2) (firstn 8 primes).

(** Padding: the byte 0x80, zeros up to 56 mod 64, the bit length on
    eight bytes, big-endian. *)
Definition be_bytes (n : nat) (z : Z) : list Z :=
  map (fun i => Z.land (Z.shiftr z (8 * Z.of_nat i)) 255) (rev (seq 0 n)).

Definition pad (msg : list Z) : list Z :=
  let len := Z.of_nat (length msg) in
  let zeros := Z.to_nat ((55 - len) mod 64) in
  msg ++ [128] ++ repeat 0 zeros ++ be_bytes 8 (8 * len).

Fixpoint be_words (fuel : nat) (bs : list Z) : list Z :=
  match fuel, bs with
  | S fuel', a :: b :: c :: d :: rest =>
      (Z.shiftl a 24 + Z.shiftl b 16 + Z.shiftl c 8 + d)
        :: be_words fuel' rest
  | _, _ => []
  end.

(** The message schedule: [w] is the window W[t-16..t-1]. *)
Fixpoint schedule (n : nat) (w : list Z) : list Z :=
  match n, w with
  | S n', w0 :: rest =>
      let next :=
        add32 (add32 (ssig1 (nth 13 rest 0)) (nth 8 rest 0))
              (add32 (ssig0 (nth 0 rest 0)) w0) in
      w0 :: schedule n' (rest ++ [next])
  | _, _ => []
  end.

Definition round (st : list Z) (kw : Z * Z) : list Z :=
  match st with
  | [a; b; c; d; e; f; g; h] =>
      let t1 := add32 (add32 (add32 h (bsig1 e)) (Ch e f g))
                      (add32 (fst kw) (snd kw)) in
      let t2 := add32 (bsig0 a) (Maj a b c) in
      [add32 t1 t2; a; b; c; add32 d t1; e; f; g]
  | _ => st
  end.

Definition compress (st : list Z) (block : list Z) : list Z :=
  let w := schedule 64 block in
  let st' := fold_left round (combine K w) st in
  map (fun p => add32 (fst p) (snd p)) (combine st st').

Fixpoint blocks (fuel : nat) (st : list Z) (ws : list Z) : list Z :=
  match fuel with
  | O => st
  | S fuel' =>
      match ws with
      | [] => st
      | _ => blocks fuel' (compress st (firstn 16 ws)) (skipn 16 ws)
      end
  end.

Definition digest (msg : list Z) : list Z :=
  let p := pad msg in
  let ws := be_words (length p) p in
  concat (map (be_bytes 4) (blocks (length ws) H0 ws)).

(** [sha256.New(); Write(data); Sum(nil)]. *)
Definition Sum256 (data : bytes) : bytes :=
  Bytes.of_list (digest (Bytes.to_list data)).

End SHA256.

(* ===================================================================== *)
(** ** unicode/utf8 and the composite keys of the Fabric shim *)
(* ===================================================================== *)

Module UTF8.

Definition between (lo hi b : Z) : bool := (lo <=? b) && (b <=? hi).
Definition cont (b : Z) : bool := between 0x80 0xBF b.
Definition low6 (b : Z) : Z := Z.land b 0x3F.

(** The runes of a byte sequence, [None] when it is not valid UTF-8
    (the ranges are those of [utf8.ValidString]: no overlong forms, no
    surrogates, nothing above U+10FFFF). *)
Fixpoint decode (bs : list Z) : option (list Z) :=
  match bs with
  | [] => Some []
  | b0 :: r0 =>
      if b0 <? 0x80 then cons b0 <$> decode r0
      else if between 0xC2 0xDF b0 then
        match r0 with
        | b1 :: r1 =>
            if cont b1
            then cons (Z.shiftl (Z.land b0 0x1F) 6 + low6 b1) <$> decode r1
            else None
        | _ => None
        end
      else if between 0xE0 0xEF b0 then
        match r0 with
        | b1 :: b2 :: r2 =>
            if between (if b0 =? 0xE0 then 0xA0 else 0x80)
                       (if b0 =? 0xED then 0x9F else 0xBF) b1 && cont b2
            then cons (Z.shiftl (Z.land b0 0x0F) 12
                       + Z.shiftl (low6 b1) 6 + low6 b2) <$> decode r2
            else None
        | _ => None
        end
      else if between 0xF0 0xF4 b0 then
        match r0 with
        | b1 :: b2 :: b3 :: r3 =>
            if between (if b0 =? 0xF0 then 0x90 else 0x80)
                       (if b0 =? 0xF4 then 0x8F else 0xBF) b1
               && cont b2 && cont b3
            then cons (Z.shiftl (Z.land b0 0x07) 18 + Z.shiftl (low6 b1) 12
                       + Z.shiftl (low6 b2) 6 + low6 b3) <$> decode r3
            else None
        | _ => None
        end
      else None
  end.

(** [utf8.AppendRune] for a valid rune. *)
Definition encode (r : Z) : list Z :=
  if r <? 0x80 then [r]
  else if r <? 0x800 then [0xC0 + Z.shiftr r 6; 0x80 + low6 r]
  else if r <? 0x10000 then
    [0xE0 + Z.shiftr r 12; 0x80 + low6 (Z.shiftr r 6); 0x80 + low6 r]
  else
    [0xF0 + Z.shiftr r 18; 0x80 + low6 (Z.shiftr r 12);
     0x80 + low6 (Z.shiftr r 6); 0x80 + low6 r].

End UTF8.

Module Shim.

Definition minUnicodeRuneValue : Z := 0.
Definition maxUnicodeRuneValue : Z := 0x10FFFF.
Definition compositeKeyNamespace : string := String "000" "".

(** [validateCompositeKeyAttribute]: valid UTF-8 holding neither U+0000
    nor U+10FFFF. *)
Definition validateCompositeKeyAttribute (str : string) : bool :=
  match UTF8.decode (Bytes.to_list str) with
  | None => false
  | Some runes =>
      forallb (fun r => negb (r =? minUnicodeRuneValue)
                        && negb (r =? maxUnicodeRuneValue)) runes
  end.

Fixpoint appendAttributes (ck : string) (attributes : list string)
  : option string :=
  match attributes with
  | [] => Some ck
  | att :: rest =>
      if validateCompositeKeyAttribute att
      then appendAttributes (ck +:+ att +:+ String "000" "") rest
      else None
  end.

(** [CreateCompositeKey]: namespace, object type and each attribute, every
    part closed by U+0000. *)
Definition CreateCompositeKey (objectType : string)
    (attributes : list string) : option string :=
  if validateCompositeKeyAttribute objectType
  then appendAttributes
         (compositeKeyNamespace +:+ objectType +:+ String "000" "")
         attributes
  else None.

End Shim.

(* ===================================================================== *)
(** ** encoding/json *)
(* ===================================================================== *)

Set Warnings "-register-all".

(** A JSON document.  A number keeps its literal, as the decoder of
    encoding/json does until it knows the Go type it is stored in. *)
Inductive json : Type :=
| JNull
| JBool (b : bool)
| JNumber (lit : string)
| JString (s : string)
| JArray (elems : list json)
| JObject (members : list (string * json)).

Module JSON.

Local Open Scope char_scope.

Definition is_ws (c : ascii) : bool :=
  (c =? " ") || (c =? "009") || (c =? "010") || (c =? "013").
Definition is_digit (c : ascii) : bool :=
  (48 <=? Bytes.to_Z c)%Z && (Bytes.to_Z c <=? 57)%Z.

Fixpoint skip_ws (s : string) : string :=
  match s with
  | String c r => if is_ws c then skip_ws r else s
  | EmptyString => s
  end.

Definition hexval (c : ascii) : option Z :=
  let z := Bytes.to_Z c in
  if is_digit c then Some (z - 48)%Z
  else if UTF8.between 97 102 z then Some (z - 87)%Z
  else if UTF8.between 65 70 z then Some (z - 55)%Z
  else None.

Definition hex4 (a b c d : ascii) : option Z :=
  x3 ← hexval a; x2 ← hexval b; x1 ← hexval c; x0 ← hexval d;
  Some (x3 * 4096 + x2 * 256 + x1 * 16 + x0)%Z.

Definition rune_string (r : Z) : string := Bytes.of_list (UTF8.encode r).
Definition replacement : Z := 0xFFFD.

(** The contents of a string literal after its opening quote, unquoted;
    the rest of the input follows the closing quote.  A surrogate that is
    not half of a pair becomes U+FFFD. *)
Fixpoint string_body (s : string) : option (string * string) :=
  match s with
  | EmptyString => None
  | String c r =>
      if c =? Bytes.dquote then Some (EmptyString, r)
      else if c =? "\" then
        match r with
        | String e r1 =>
            let simple (x : ascii) :=
              '(str, rest) ← string_body r1; Some (String x str, rest) in
            if e =? Bytes.dquote then simple Bytes.dquote
            else if e =? "\" then simple "\"
            else if e =? "/" then simple "/"
            else if e =? "b" then simple "008"
            else if e =? "f" then simple "012"
            else if e =? "n" then simple "010"
            else if e =? "r" then simple "013"
            else if e =? "t" then simple "009"
            else if e =? "u" then
              match r1 with
              | String h3 (String h2 (String h1 (String h0 r5))) =>
                  hi ← hex4 h3 h2 h1 h0;
                  let plain (rune : Z) (tl : string) :=
                    '(str, rest) ← string_body tl;
                    Some (rune_string rune +:+ str, rest) in
                  if UTF8.between 0xD800 0xDBFF hi then
                    match r5 with
                    | String b (String u (String l3 (String l2
                        (String l1 (String l0 r11))))) =>
                        if (b =? "\") && (u =? "u") then
                          match hex4 l3 l2 l1 l0 with
                          | Some lo =>
                              if UTF8.between 0xDC00 0xDFFF lo
                              then plain (0x10000 + (hi - 0xD800) * 1024
                                          + (lo - 0xDC00))%Z r11
                              else plain replacement r5
                          | None => None
                          end
                        else plain replacement r5
                    | _ => plain replacement r5
                    end
                  else if UTF8.between 0xDC00 0xDFFF hi
                  then plain replacement r5
                  else plain hi r5
              | _ => None
              end
            else None
        | EmptyString => None
        end
      else if (Bytes.to_Z c <? 32)%Z then None
      else '(str, rest) ← string_body r; Some (String c str, rest)
  end.

Fixpoint digits (s : string) : string * string :=
  match s with
  | String c r =>
      if is_digit c then let '(d, rest) := digits r in (String c d, rest)
      else (EmptyString, s)
  | EmptyString => (EmptyString, s)
  end.

(** A number literal: an optional minus sign, then 0 or a digit sequence
    without leading zero, then an optional fraction (a dot and digits) and
    an optional exponent (e or E, an optional sign, digits). *)
Definition number (s : string) : option (string * string) :=
  let '(sign, s1) :=
    match s with
    | String c r => if c =? "-" then ("-"%string, r) else (EmptyString, s)
    | _ => (EmptyString, s)
    end in
  '(int, s2) ←
    match s1 with
    | String c r =>
        if c =? "0" then Some ("0"%string, r)
        else if is_digit c then Some (digits s1)
        else None
    | _ => None
    end;
  '(frac, s3) ←
    match s2 with
    | String c r =>
        if c =? "." then
          match digits r with
          | (EmptyString, _) => None
          | (d, rest) => Some (String "." d, rest)
          end
        else Some (EmptyString, s2)
    | _ => Some (EmptyString, s2)
    end;
  '(exp, s4) ←
    match s3 with
    | String c r =>
        if (c =? "e") || (c =? "E") then
          let '(sg, r') :=
            match r with
            | String c' r'' =>
                if (c' =? "+") || (c' =? "-")
                then (String c' EmptyString, r'') else (EmptyString, r)
            | _ => (EmptyString, r)
            end in
          match digits r' with
          | (EmptyString, _) => None
          | (d, rest) => Some (String c (sg +:+ d), rest)
          end
        else Some (EmptyString, s3)
    | _ => Some (EmptyString, s3)
    end;
  Some (sign +:+ int +:+ frac +:+ exp, s4).

Definition literal (word : string) (v : json) (s : string)
  : option (json * string) :=
  if String.prefix word s
  then Some (v, String.substring (String.length word)
                  (String.length s - String.length word) s)
  else None.

(** One value, by recursive descent; [fuel] bounds the nesting and the
    number of elements, the length of the input is always enough. *)
Fixpoint value (fuel : nat) (s : string) : option (json * string) :=
  match fuel with
  | O => None
  | S fuel' =>
      match skip_ws s with
      | EmptyString => None
      | String c r =>
          if c =? "{" then
            match skip_ws r with
            | String c' r' =>
                if c' =? "}" then Some (JObject [], r')
                else members fuel' (skip_ws r) []
            | EmptyString => None
            end
          else if c =? "[" then
            match skip_ws r with
            | String c' r' =>
                if c' =? "]" then Some (JArray [], r')
                else elements fuel' (skip_ws r) []
            | EmptyString => None
            end
          else if c =? Bytes.dquote then
            '(str, rest) ← string_body r; Some (JString str, rest)
          else if c =? "t" then literal "true" (JBool true) (String c r)
          else if c =? "f" then literal "false" (JBool false) (String c r)
          else if c =? "n" then literal "null" JNull (String c r)
          else '(lit, rest) ← number (String c r); Some (JNumber lit, rest)
      end
  end
with elements (fuel : nat) (s : string) (acc : list json)
  : option (json * string) :=
  match fuel with
  | O => None
  | S fuel' =>
      '(v, r) ← value fuel' s;
      match skip_ws r with
      | String c r' =>
          if c =? "," then elements fuel' r' (v :: acc)
          else if c =? "]" then Some (JArray (rev (v :: acc)), r')
          else None
      | EmptyString => None
      end
  end
with members (fuel : nat) (s : string) (acc : list (string * json))
  : option (json * string) :=
  match fuel with
  | O => None
  | S fuel' =>
      match skip_ws s with
      | String q r =>
          if q =? Bytes.dquote then
            '(key, r1) ← string_body r;
            match skip_ws r1 with
            | String c r2 =>
                if c =? ":" then
                  '(v, r3) ← value fuel' r2;
                  match skip_ws r3 with
                  | String c' r4 =>
                      if c' =? ","
                      then members fuel' r4 ((key, v) :: acc)
                      else if c' =? "}"
                      then Some (JObject (rev ((key, v) :: acc)), r4)
                      else None
                  | EmptyString => None
                  end
                else None
            | EmptyString => None
            end
          else None
      | EmptyString => None
      end
  end.

(** The document a byte slice holds: one value between optional white
    space, nothing after it. *)
Definition parse (data : bytes) : option json :=
  '(v, rest) ← value (S (String.length data)) data;
  match skip_ws rest with
  | EmptyString => Some v
  | _ => None
  end.

End JSON.

(* ===================================================================== *)
(** ** Protobuf timestamps and time.Time *)
(* ===================================================================== *)

(** [timestamp.Timestamp] of protobuf: seconds and nanoseconds since the
    Unix epoch. *)
Record pbTimestamp : Type := { seconds : Z; nanos : Z }.

(** [time.Time], in UTC: the same instant once [ptypes.Timestamp] has
    accepted it. *)
Record time_Time : Type := { unix : Z; nsec : Z }.

Module Time.

Definition minValidSeconds : Z := -62135596800.
Definition maxValidSeconds : Z := 253402300800.

(** [ptypes.Timestamp]: the time of a protobuf timestamp, an error when
    it lies outside 0001-01-01 .. 9999-12-31 or its nanoseconds are not
    below one second. *)
Definition ptypes_Timestamp (ts : pbTimestamp) : option time_Time :=
  if (seconds ts <? minValidSeconds) || (maxValidSeconds <=? seconds ts)
     || (nanos ts <? 0) || (1000000000 <=? nanos ts)
  then None else Some {| unix := seconds ts; nsec := nanos ts |}.

(** Year, month and day of a day count since 1970-01-01 (proleptic
    Gregorian calendar). *)
Definition civil (days : Z) : Z * Z * Z :=
  let z := days + 719468 in
  let era := z / 146097 in
  let doe := z - era * 146097 in
  let yoe := (doe - doe / 1460 + doe / 36524 - doe / 146096) / 365 in
  let doy := doe - (365 * yoe + yoe / 4 - yoe / 100) in
  let mp := (5 * doy + 2) / 153 in
  let d := doy - (153 * mp + 2) / 5 + 1 in
  let m := if mp <? 10 then mp + 3 else mp - 9 in
  (yoe + era * 400 + (if m <=? 2 then 1 else 0), m, d).

Definition zero_pad (width : nat) (s : string) : string :=
  string_of_list_ascii (repeat "0"%char (width - String.length s)) +:+ s.
Definition fixed (width : nat) (n : Z) : string := zero_pad width (pretty n).

Fixpoint trim_zeros (fuel : nat) (n : Z) (width : nat) : string :=
  match fuel with
  | O => fixed width n
  | S f => if (n mod 10 =? 0) then trim_zeros f (n / 10) (Nat.pred width)
           else fixed width n
  end.

(** [time.Time.MarshalJSON]: the RFC 3339 text with nanoseconds (trailing
    zeros dropped), quoted; an error outside the years 0..9999. *)
Definition RFC3339Nano (t : time_Time) : option string :=
  let '(y, m, d) := civil (unix t / 86400) in
  let r := unix t mod 86400 in
  if (y <? 0) || (9999 <? y) then None
  else Some (fixed 4 y +:+ "-" +:+ fixed 2 m +:+ "-" +:+ fixed 2 d +:+ "T"
             +:+ fixed 2 (r / 3600) +:+ ":" +:+ fixed 2 (r mod 3600 / 60)
             +:+ ":" +:+ fixed 2 (r mod 60)
             +:+ (if nsec t =? 0 then ""
                  else "." +:+ trim_zeros 9 (nsec t) 9)
             +:+ "Z").

End Time.

(* ===================================================================== *)
(** ** encoding/json over Go structs *)
(* ===================================================================== *)

(** The values the structs of the contract hold. *)
Inductive govalue : Type :=
| GoString (s : string)
| GoInt (n : Z)
| GoTime (t : time_Time).

(** A struct field as reflection shows it to encoding/json: its Go name,
    the key of its [json:"..."] tag when it has one, and its value. *)
Record gofield : Type :=
  { go_name : string; go_tag : option string; go_value : govalue }.

Module GoJSON.

Local Open Scope char_scope.

(** Only exported fields (upper-case first letter) are encoded or
    decoded. *)
Definition exported (f : gofield) : bool :=
  match go_name f with
  | String c _ => UTF8.between 65 90 (Bytes.to_Z c)
  | EmptyString => false
  end.

Definition key (f : gofield) : string := default (go_name f) (go_tag f).

Definition encode_value (v : govalue) : option json :=
  match v with
  | GoString s => Some (JString s)
  | GoInt n => Some (JNumber (pretty n))
  | GoTime t => JString <$> Time.RFC3339Nano t
  end.

(** [json.Marshal] of a struct, as a document: one member per exported
    field, in declaration order. *)
Definition MarshalDocument (fields : list gofield) : option json :=
  JObject <$>
    mapM (fun f => v ← encode_value (go_value f); Some (key f, v))
         (filter (fun f => exported f = true) fields).

Definition hexdigit_of (n : Z) : ascii :=
  Bytes.of_Z (if n <? 10 then 48 + n else 87 + n)%Z.

(** The escapes of a string: the quote and the backslash, the short forms
    of newline, carriage return and tab, [\u00xx] for the other control
    characters and for [<], [>] and [&]; every other byte is copied. *)
Fixpoint escape (s : string) : string :=
  match s with
  | EmptyString => EmptyString
  | String c r =>
      let z := Bytes.to_Z c in
      (if (c =? Bytes.dquote) || (c =? "\") then String "\" (String c "")
       else if c =? "010" then "\n"%string
       else if c =? "013" then "\r"%string
       else if c =? "009" then "\t"%string
       else if (z <? 32)%Z || (c =? "<") || (c =? ">") || (c =? "&")
       then "\u00"%string
            +:+ String (hexdigit_of (z / 16)) (String (hexdigit_of (z mod 16)) "")
       else String c "") +:+ escape r
  end.

Definition join (sep : string) (parts : list string) : string :=
  match parts with
  | [] => EmptyString
  | p :: ps => fold_left (fun acc q => acc +:+ sep +:+ q) ps p
  end.

(** The compact text of a document. *)
Fixpoint render (j : json) : bytes :=
  match j with
  | JNull => "null"
  | JBool true => "true"
  | JBool false => "false"
  | JNumber lit => lit
  | JString s => String Bytes.dquote (escape s) +:+ String Bytes.dquote ""
  | JArray elems => "[" +:+ join "," (map render elems) +:+ "]"
  | JObject members =>
      "{" +:+ join ","
                (map (fun m => String Bytes.dquote (escape (fst m)) +:+ String Bytes.dquote ""
                               +:+ ":" +:+ render (snd m)) members)
      +:+ "}"
  end%string.

(** [json.Marshal] of a struct, as the bytes it returns. *)
Definition Marshal (fields : list gofield) : option bytes :=
  render <$> MarshalDocument fields.

Definition lower (c : ascii) : ascii :=
  let z := Bytes.to_Z c in
  if UTF8.between 65 90 z then Bytes.of_Z (z + 32)%Z else c.

Fixpoint fold_case (s : string) : string :=
  match s with
  | EmptyString => EmptyString
  | String c r => String (lower c) (fold_case r)
  end.

(** The index of the field a key selects: the exported field with exactly
    that key, otherwise the first one equal to it up to the case of its
    ASCII letters. *)
Fixpoint find_index (p : gofield -> bool) (i : nat) (fs : list gofield)
  : option nat :=
  match fs with
  | [] => None
  | f :: rest => if exported f && p f then Some i
                 else find_index p (S i) rest
  end.

Definition field_index (k : string) (fs : list gofield) : option nat :=
  match find_index (fun f => String.eqb (key f) k) 0 fs with
  | Some i => Some i
  | None =>
      find_index (fun f => String.eqb (fold_case (key f)) (fold_case k)) 0 fs
  end.

(** [strconv.ParseInt(lit, 10, 64)]. *)
Fixpoint parse_digits (acc : Z) (s : string) : option Z :=
  match s with
  | EmptyString => Some acc
  | String c r =>
      if JSON.is_digit c
      then parse_digits (10 * acc + (Bytes.to_Z c - 48)) r
      else None
  end.

Definition ParseInt (lit : string) : option Z :=
  n ← match lit with
      | String c r =>
          if c =? "-" then
            match r with
            | EmptyString => None
            | _ => Z.opp <$> parse_digits 0 r
            end
          else parse_digits 0 lit
      | EmptyString => None
      end;
  if ((- 2 ^ 63 <=? n) && (n <? 2 ^ 63))%Z then Some n else None.

(** Storing a document in a field: [None] is an [UnmarshalTypeError];
    [null] leaves the field as it is.  The contract decodes no time. *)
Definition decode_value (old : govalue) (j : json) : option govalue :=
  match j, old with
  | JNull, _ => Some old
  | JString s, GoString _ => Some (GoString s)
  | JNumber lit, GoInt _ => GoInt <$> ParseInt lit
  | _, _ => None
  end.

(** The members of an object, stored one after the other; a member whose
    key selects no field is skipped.  The flag records whether some member
    did not fit its field: decoding goes on, and fails at the end. *)
Fixpoint decode_members (ms : list (string * json)) (fs : list gofield)
  (ok : bool) : list gofield * bool :=
  match ms with
  | [] => (fs, ok)
  | (k, j) :: rest =>
      match field_index k fs with
      | None => decode_members rest fs ok
      | Some i =>
          match fs !! i with
          | None => decode_members rest fs ok
          | Some f =>
              match decode_value (go_value f) j with
              | Some v =>
                  decode_members rest
                    (<[i := {| go_name := go_name f; go_tag := go_tag f;
                               go_value := v |}]> fs) ok
              | None => decode_members rest fs false
              end
          end
      end
  end.

(** [json.Unmarshal] of a document into a struct: [Some None] for [null]
    (the target is left alone, a pointer target becomes nil),
    [Some (Some fields)] for an object that fits, [None] for an error. *)
Definition Unmarshal (j : json) (zero : list gofield)
  : option (option (list gofield)) :=
  match j with
  | JNull => Some None
  | JObject ms =>
      match decode_members ms zero true with
      | (fs, true) => Some (Some fs)
      | (_, false) => None
      end
  | _ => None
  end.

End GoJSON.

(* ===================================================================== *)
(** ** Errors *)
(* ===================================================================== *)

(** The errors of the contract, one constructor per [fmt.Errorf] of the
    source; [Wrapf prefix e] is [fmt.Errorf("<prefix>: %v", e)]. *)
Inductive error : Type :=
| ErrTransientKeyNotFound (key : string)
    (* "commodity_properties key not found in the transient map",
       "commodity_transferKey not found in the transient map",
       "commodity_transferKey key not found in the transient map";
       [key] is the key that was looked up *)
| ErrPeerMSPIDNotSet
    (* "failed getting peer's orgID: 'CORE_PEER_LOCALMSPID' is not set" *)
| ErrClientNotPeerOrg (clientOrgID peerOrgID : string)
    (* "client from org %s is not authorized to read or write private data
       from an org %s peer" *)
| ErrDoesNotExist (commodityID : string)
    (* "%s does not exist" *)
| ErrJSON
    (* an error of encoding/json *)
| ErrCannotUpdateDescription (clientOrgID ownerOrg : string)
    (* "a client from %s cannot update the description of a commodity owned
       by %s" *)
| ErrCannotUpdate (clientOrgID ownerOrg : string)
    (* "a client from %s cannot update a commodity owned by %s" *)
| ErrCannotTransfer (clientOrgID ownerOrg : string)
    (* "a client from %s cannot transfer a commodity owned by %s" *)
| ErrCompositeKey
    (* an error of CreateCompositeKey *)
| ErrPropertiesHashDoesNotExist (commodityID : string)
    (* "commodity private properties hash does not exist: %s" *)
| ErrPropertiesHashMismatch (calculated properties onChain : bytes)
    (* "hash %x for passed immutable properties %s does not match on-chain
       hash %x" *)
| ErrAltered (calculated properties onChain : bytes) (commodityID : string)
    (* "hash %x for passed immutable properties %s does match on-chain hash
       %x but do not match commodityID %s: commodity was altered from its
       initial form" *)
| ErrSellerBuyerHashMismatch (owner getter : bytes)
    (* "on chain hash of seller %x does not match on-chain hash of buyer
       %x" *)
| ErrUpstreamKeyDoesNotExist (commodityID : string)
    (* "upstream company's transferKay for %s does not exist" *)
| ErrDownstreamKeyDoesNotExist (commodityID : string)
    (* "downstream company's transferKay for %s does not exist" *)
| ErrUpstreamKeyMismatch (calculated key onChain : bytes)
    (* "hash %x for passed key JSON %s does not match on-chain hash %x,
       wrong trade id and tranferKey with upstream company's" *)
| ErrDownstreamKeyMismatch (calculated key onChain : bytes)
    (* "hash %x for passed key JSON %s does not match on-chain hash %x,
       wrong trade id and tranferKey with downstream company's" *)
| ErrTimestamp
    (* an error of ptypes.Timestamp *)
| ErrPrivateDetailsDoNotExist (commodityID : string)
    (* "commodity private details does not exist in client org's
       collection: %s" *)
| ErrKeyDoesNotExist (commodityID : string)
    (* "commodity key does not exist: %s" *)
| ErrNoSuchCommodity
    (* "commodity properies provided do not correpond to any on chain
       commodity" *)
| PanicNilPointer
    (* a field of a nil *Commodity is read *)
| Wrapf (prefix : string) (e : error).

Inductive result (A : Type) : Type :=
| Ok (a : A)
| Err (e : error).
Arguments Ok {A} a.
Arguments Err {A} e.

(* ===================================================================== *)
(** ** The ledger behind the chaincode stub *)
(* ===================================================================== *)

(** A write issued through the stub. *)
Inductive Write : Type :=
| WPutState (key : string) (value : json)
| WSetStateValidationParameter (key : string) (orgs : gset string)
| WPutPrivateData (collection key : string) (value : bytes)
| WDelPrivateData (collection key : string).

(** One version of a key, as [GetHistoryForKey] reports it. *)
Record KeyModification : Type :=
  { km_TxId : string; km_Timestamp : pbTimestamp; km_Value : json }.

(** The ledger: the world state (public records are JSON documents, kept
    as documents: [PutState] receives what [json.Marshal] builds and
    [GetState] hands it to [json.Unmarshal]), the state-based endorsement
    policy of each key (the organizations whose peers must endorse), the
    private data of every collection (byte slices, of which the ledger
    exposes the SHA-256 digest), the versions of each key, and the writes
    issued so far. *)
Record Ledger : Type :=
  { world : gmap string json;
    policies : gmap string (gset string);
    private : gmap (string * string) bytes;
    versions : gmap string (list KeyModification);
    writes : list Write }.

(** What a call sees of its transaction: the MSP id of the client
    ([ctx.GetClientIdentity().GetMSPID()]), the MSP id of the peer
    ([shim.GetMSPID()], the variable CORE_PEER_LOCALMSPID), the transient
    map, the transaction id and the transaction timestamp. *)
Record TransactionContext : Type :=
  { clientMSPID : string;
    peerMSPID : string;
    GetTransient : gmap string bytes;
    GetTxID : string;
    GetTxTimestamp : pbTimestamp }.

(** A call reads and writes the ledger and returns a value or an error;
    the ledger it leaves is returned in both cases, so that what a failing
    call has written can be stated. *)
Definition M (A : Type) : Type := Ledger -> result A * Ledger.

Definition ret {A} (a : A) : M A := fun l => (Ok a, l).
Definition throw {A} (e : error) : M A := fun l => (Err e, l).
Definition bind {A B} (m : M A) (k : A -> M B) : M B :=
  fun l => match m l with
           | (Ok a, l') => k a l'
           | (Err e, l') => (Err e, l')
           end.

Notation "x <- c1 ;; c2" := (bind c1 (fun x => c2))
  (at level 100, c1 at next level, right associativity).

(** [if !ok { return ..., err }] after a lookup. *)
Definition orError {A} (o : option A) (e : error) : M A :=
  match o with
  | Some a => ret a
  | None => throw e
  end.

(** [if err != nil { return fmt.Errorf("<prefix>: %v", err) }]. *)
Definition wrapf {A} (prefix : string) (m : M A) : M A :=
  fun l => match m l with
           | (Ok a, l') => (Ok a, l')
           | (Err e, l') => (Err (Wrapf prefix e), l')
           end.

(** The order in which a range query returns its entries: by key. *)
Definition key_le (a b : string * bytes) : Prop := String.leb a.1 b.1 = true.

#[global] Instance key_le_dec : RelDecision key_le :=
  fun a b => decide (String.leb a.1 b.1 = true).

Module Stub.

Definition GetState (key : string) : M (option json) :=
  fun l => (Ok (world l !! key), l).

Definition PutState (ctx : TransactionContext) (key : string) (value : json)
  : M unit :=
  fun l =>
    (Ok (),
     {| world := <[key := value]> (world l);
        policies := policies l;
        private := private l;
        versions :=
          <[key := (default [] (versions l !! key)
                    ++ [ {| km_TxId := GetTxID ctx;
                              km_Timestamp := GetTxTimestamp ctx;
                              km_Value := value |} ])%list ]> (versions l);
        writes := (writes l ++ [WPutState key value])%list |}).

Definition SetStateValidationParameter (key : string) (orgs : gset string)
  : M unit :=
  fun l =>
    (Ok (),
     {| world := world l;
        policies := <[key := orgs]> (policies l);
        private := private l;
        versions := versions l;
        writes := (writes l ++ [WSetStateValidationParameter key orgs])%list |}).

Definition GetPrivateData (collection key : string) : M (option bytes) :=
  fun l => (Ok (private l !! (collection, key)), l).

(** The digest the ledger keeps of a private value. *)
Definition GetPrivateDataHash (collection key : string) : M (option bytes) :=
  fun l => (Ok (SHA256.Sum256 <$> private l !! (collection, key)), l).

Definition PutPrivateData (collection key : string) (value : bytes)
  : M unit :=
  fun l =>
    (Ok (),
     {| world := world l;
        policies := policies l;
        private := <[(collection, key) := value]> (private l);
        versions := versions l;
        writes := (writes l ++ [WPutPrivateData collection key value])%list |}).

Definition DelPrivateData (collection key : string) : M unit :=
  fun l =>
    (Ok (),
     {| world := world l;
        policies := policies l;
        private := delete (collection, key) (private l);
        versions := versions l;
        writes := (writes l ++ [WDelPrivateData collection key])%list |}).

(** The entries of a collection whose key is a composite key of the given
    object type, in key order. *)
Definition GetPrivateDataByPartialCompositeKey (collection : string)
    (objectType : string) : M (list (string * bytes)) :=
  fun l =>
    let prefix := Shim.compositeKeyNamespace +:+ objectType
                  +:+ String "000" "" in
    (Ok (merge_sort key_le
           (omap (fun e => let '((c, k), v) := e in
                           if String.eqb c collection && String.prefix prefix k
                           then Some (k, v) else None)
                 (map_to_list (private l)))),
     l).

Definition GetHistoryForKey (key : string) : M (list KeyModification) :=
  fun l => (Ok (default [] (versions l !! key)), l).

Definition CreateCompositeKey (objectType : string)
    (attributes : list string) : M string :=
  orError (Shim.CreateCompositeKey objectType attributes) ErrCompositeKey.

End Stub.

(* ===================================================================== *)
(** ** The data of the contract (TransFer.go, Quires.go) *)
(* ===================================================================== *)

Definition typeCommodityForTransfer : string := "T".
Definition typeCommodityKey : string := "K".
Definition typeCommodityPutReceipt : string := "PR".
Definition typeCommodityGetReceipt : string := "GR".

Record Commodity : Type :=
  { ObjectType : string;
    ID : string;
    OwnerOrg : string;
    Source : string;
    Target : string;
    PublicDescription : string;
    DetailedInformation : string }.

Record receipt : Type :=
  { transferKey : Z;
    timestamp : time_Time }.

Record Agreement : Type :=
  { Agreement_ID : string;
    TransferKey : Z;
    TransferID : string }.

Record QueryResult : Type :=
  { Record_ : option Commodity;
    TxId : string;
    Timestamp : time_Time }.

Definition field (name : string) (tag : option string) (v : govalue) : gofield :=
  {| go_name := name; go_tag := tag; go_value := v |}.

(** The fields of [Commodity] with their [json] tags. *)
Definition Commodity_fields (c : Commodity) : list gofield :=
  [ field "ObjectType" (Some "objectType") (GoString (ObjectType c));
    field "ID" (Some "commodityID") (GoString (ID c));
    field "OwnerOrg" (Some "ownerCompany") (GoString (OwnerOrg c));
    field "Source" (Some "source") (GoString (Source c));
    field "Target" (Some "target") (GoString (Target c));
    field "PublicDescription" (Some "publicDescription")
      (GoString (PublicDescription c));
    field "DetailedInformation" (Some "detailedInformation")
      (GoString (DetailedInformation c)) ].

(** The fields of [receipt]: lower-case names, no tags. *)
Definition receipt_fields (r : receipt) : list gofield :=
  [ field "transferKey" None (GoInt (transferKey r));
    field "timestamp" None (GoTime (timestamp r)) ].

(** The fields of [Agreement] with their [json] tags. *)
Definition Agreement_fields (a : Agreement) : list gofield :=
  [ field "ID" (Some "commodity") (GoString (Agreement_ID a));
    field "TransferKey" (Some "transferKey") (GoInt (TransferKey a));
    field "TransferID" (Some "transfer_id") (GoString (TransferID a)) ].

Definition string_at (fs : list gofield) (i : nat) : string :=
  match go_value <$> fs !! i with
  | Some (GoString s) => s
  | _ => ""
  end.

Definition int_at (fs : list gofield) (i : nat) : Z :=
  match go_value <$> fs !! i with
  | Some (GoInt n) => n
  | _ => 0
  end.

Definition Commodity_of_fields (fs : list gofield) : Commodity :=
  {| ObjectType := string_at fs 0;
     ID := string_at fs 1;
     OwnerOrg := string_at fs 2;
     Source := string_at fs 3;
     Target := string_at fs 4;
     PublicDescription := string_at fs 5;
     DetailedInformation := string_at fs 6 |}.

Definition Agreement_of_fields (fs : list gofield) : Agreement :=
  {| Agreement_ID := string_at fs 0;
     TransferKey := int_at fs 1;
     TransferID := string_at fs 2 |}.

Definition zero_Commodity : Commodity :=
  {| ObjectType := ""; ID := ""; OwnerOrg := ""; Source := ""; Target := "";
     PublicDescription := ""; DetailedInformation := "" |}.

Definition zero_Agreement : Agreement :=
  {| Agreement_ID := ""; TransferKey := 0; TransferID := "" |}.

(** The document [json.Marshal] builds of a commodity. *)
Definition Commodity_doc (c : Commodity) : json :=
  JObject
    [ ("objectType", JString (ObjectType c));
      ("commodityID", JString (ID c));
      ("ownerCompany", JString (OwnerOrg c));
      ("source", JString (Source c));
      ("target", JString (Target c));
      ("publicDescription", JString (PublicDescription c));
      ("detailedInformation", JString (DetailedInformation c)) ].

(** [json.Marshal(commodity)], the document put in the world state. *)
Definition Marshal_Commodity (c : Commodity) : M json :=
  orError (GoJSON.MarshalDocument (Commodity_fields c)) ErrJSON.

(** What [json.Unmarshal] stores through a [**Commodity]: [Some None] is
    the nil pointer that [null] leaves. *)
Definition decode_Commodity (j : json) : option (option Commodity) :=
  match GoJSON.Unmarshal j (Commodity_fields zero_Commodity) with
  | Some fs => Some (Commodity_of_fields <$> fs)
  | None => None
  end.

(** [var commodity *Commodity; json.Unmarshal(commodityJSON, &commodity)]. *)
Definition Unmarshal_Commodity (j : json) : M (option Commodity) :=
  orError (decode_Commodity j) ErrJSON.

(** What [json.Unmarshal] stores in an [Agreement] that starts as the zero
    value; [null] leaves it so. *)
Definition decode_Agreement (data : bytes) : option Agreement :=
  match JSON.parse data with
  | Some j =>
      match GoJSON.Unmarshal j (Agreement_fields zero_Agreement) with
      | Some fs => Some (default zero_Agreement (Agreement_of_fields <$> fs))
      | None => None
      end
  | None => None
  end.

(** [var agreement Agreement; json.Unmarshal(data, &agreement)]. *)
Definition Unmarshal_Agreement (data : bytes) : M Agreement :=
  orError (decode_Agreement data) ErrJSON.

(** Reading a field through a [*Commodity]. *)
Definition deref (p : option Commodity) : M Commodity :=
  orError p PanicNilPointer.

(* ===================================================================== *)
(** ** Helpers of TransFer.go *)
(* ===================================================================== *)

(** [getClientOrgID]. *)
Definition getClientOrgID (ctx : TransactionContext) : M string :=
  ret (clientMSPID ctx).

(** [verifyClientOrgMatchesPeerOrg]; [shim.GetMSPID] fails when the
    variable is empty. *)
Definition verifyClientOrgMatchesPeerOrg (ctx : TransactionContext)
    (clientOrgID : string) : M unit :=
  peerOrgID <- (if String.eqb (peerMSPID ctx) ""
                then throw (Wrapf "failed getting peer's orgID" ErrPeerMSPIDNotSet)
                else ret (peerMSPID ctx)) ;;
  if negb (String.eqb clientOrgID peerOrgID)
  then throw (ErrClientNotPeerOrg clientOrgID peerOrgID)
  else ret ().

(** [buildCollectionName]. *)
Definition buildCollectionName (clientOrgID : string) : string :=
  "_implicit_org_" +:+ clientOrgID.

(** [getClientImplicitCollectionNameAndVerifyClientOrg]. *)
Definition getClientImplicitCollectionNameAndVerifyClientOrg
    (ctx : TransactionContext) : M string :=
  clientOrgID <- getClientOrgID ctx ;;
  _ <- verifyClientOrgMatchesPeerOrg ctx clientOrgID ;;
  ret (buildCollectionName clientOrgID).

(** [setCommodityStateBasedEndorsement]: a policy that asks for a peer of
    each of the organizations. *)
Definition setCommodityStateBasedEndorsement (ctx : TransactionContext)
    (assetID : string) (orgesToEndorse : list string) : M unit :=
  let policy : gset string := list_to_set orgesToEndorse in
  wrapf "failed to set validation parameter on asset"
    (Stub.SetStateValidationParameter assetID policy).

(* ===================================================================== *)
(** ** Quires.go *)
(* ===================================================================== *)

(** [ReadCommodity]. *)
Definition ReadCommodity (ctx : TransactionContext) (commodityID : string)
  : M (option Commodity) :=
  commodityJSON <- Stub.GetState commodityID ;;
  match commodityJSON with
  | None => throw (ErrDoesNotExist commodityID)
  | Some j => Unmarshal_Commodity j
  end.

(** [GetCommodityPrivateProperties]. *)
Definition GetCommodityPrivateProperties (ctx : TransactionContext)
    (commodityID : string) : M string :=
  collection <- getClientImplicitCollectionNameAndVerifyClientOrg ctx ;;
  immutableProperties <- Stub.GetPrivateData collection commodityID ;;
  orError immutableProperties (ErrPrivateDetailsDoNotExist commodityID).

(** [getTransferKey]. *)
Definition getTransferKey (ctx : TransactionContext) (commodityID : string)
    (keyType : string) : M string :=
  collection <- getClientImplicitCollectionNameAndVerifyClientOrg ctx ;;
  commodityTransferKey <-
    wrapf "failed to create composite key"
      (Stub.CreateCompositeKey keyType [commodityID]) ;;
  key <- Stub.GetPrivateData collection commodityTransferKey ;;
  orError key (ErrKeyDoesNotExist commodityID).

(** [GetCommodityUpstreamKey]. *)
Definition GetCommodityUpstreamKey (ctx : TransactionContext)
    (commodityID : string) : M string :=
  getTransferKey ctx commodityID typeCommodityForTransfer.

(** [GetCommodityDownstreamKey]. *)
Definition GetCommodityDownstreamKey (ctx : TransactionContext)
    (commodityID : string) : M string :=
  getTransferKey ctx commodityID typeCommodityKey.

(** The loop of [queryAgreementsByType]. *)
Fixpoint decodeAgreements (items : list (string * bytes))
    (agreements : list Agreement) : M (list Agreement) :=
  match items with
  | [] => ret agreements
  | resp :: rest =>
      agreement <- Unmarshal_Agreement resp.2 ;;
      decodeAgreements rest (agreements ++ [agreement])%list
  end.

(** [queryAgreementsByType]. *)
Definition queryAgreementsByType (ctx : TransactionContext)
    (agreeType : string) : M (list Agreement) :=
  collection <- getClientImplicitCollectionNameAndVerifyClientOrg ctx ;;
  agreementsIterator <-
    Stub.GetPrivateDataByPartialCompositeKey collection agreeType ;;
  decodeAgreements agreementsIterator [].

(** [QueryCommodityPutAgreements]. *)
Definition QueryCommodityPutAgreements (ctx : TransactionContext)
  : M (list Agreement) :=
  queryAgreementsByType ctx typeCommodityForTransfer.

(** [QueryCommodityGetAgreements]. *)
Definition QueryCommodityGetAgreements (ctx : TransactionContext)
  : M (list Agreement) :=
  queryAgreementsByType ctx typeCommodityKey.

(** The loop of [QueryCommodityHistory]. *)
Fixpoint decodeHistory (items : list KeyModification)
    (results : list QueryResult) : M (list QueryResult) :=
  match items with
  | [] => ret results
  | response :: rest =>
      commodity <- Unmarshal_Commodity (km_Value response) ;;
      timestamp <- orError (Time.ptypes_Timestamp (km_Timestamp response))
                           ErrTimestamp ;;
      let record := {| TxId := km_TxId response;
                       Timestamp := timestamp;
                       Record_ := commodity |} in
      decodeHistory rest (results ++ [record])%list
  end.

(** [QueryCommodityHistory]. *)
Definition QueryCommodityHistory (ctx : TransactionContext)
    (assetID : string) : M (list QueryResult) :=
  resultsIterator <- Stub.GetHistoryForKey assetID ;;
  decodeHistory resultsIterator [].

(* ===================================================================== *)
(** ** TransFer.go *)
(* ===================================================================== *)

(** [CreateAsset]. *)
Definition CreateAsset (ctx : TransactionContext) (target : string)
    (publicDescription : string) : M string :=
  let transientMap := GetTransient ctx in
  immutablePropertiesJSON <-
    orError (transientMap !! "commodity_properties")
            (ErrTransientKeyNotFound "commodity_properties") ;;
  let commodityID :=
    Bytes.hex_EncodeToString (SHA256.Sum256 immutablePropertiesJSON) in
  clientOrgID <- getClientOrgID ctx ;;
  _ <- verifyClientOrgMatchesPeerOrg ctx clientOrgID ;;
  let commodity :=
    {| ObjectType := "Commodity";
       ID := commodityID;
       OwnerOrg := clientOrgID;
       Source := clientOrgID;
       Target := target;
       PublicDescription := publicDescription;
       DetailedInformation := "" |} in
  commodityBytes <-
    wrapf "failed to create commodity JSON" (Marshal_Commodity commodity) ;;
  _ <- wrapf "failed to put commodity in public data"
         (Stub.PutState ctx commodityID commodityBytes) ;;
  let endorsingOrges := [clientOrgID] in
  _ <- wrapf "failed setting state based endorsement for upstream and downstream companies"
         (setCommodityStateBasedEndorsement ctx (ID commodity) endorsingOrges) ;;
  let collection := buildCollectionName clientOrgID in
  _ <- wrapf "failed to put Commodity private details"
         (Stub.PutPrivateData collection commodityID immutablePropertiesJSON) ;;
  ret commodityID.

(** [ChangePublicDescription]. *)
Definition ChangePublicDescription (ctx : TransactionContext)
    (commodityID : string) (newDescription : string) : M unit :=
  clientOrgID <- getClientOrgID ctx ;;
  p <- wrapf "failed to get commodity" (ReadCommodity ctx commodityID) ;;
  commodity <- deref p ;;
  if negb (String.eqb clientOrgID (OwnerOrg commodity))
  then throw (ErrCannotUpdateDescription clientOrgID (OwnerOrg commodity))
  else
    let commodity :=
      {| ObjectType := ObjectType commodity;
         ID := ID commodity;
         OwnerOrg := OwnerOrg commodity;
         Source := Source commodity;
         Target := Target commodity;
         PublicDescription := newDescription;
         DetailedInformation := DetailedInformation commodity |} in
    updatedAssetJSON <-
      wrapf "failed to marshal commodity" (Marshal_Commodity commodity) ;;
    Stub.PutState ctx commodityID updatedAssetJSON.

(** [agreeToTransfer]. *)
Definition agreeToTransfer (ctx : TransactionContext) (commodityID : string)
    (transferType : string) : M unit :=
  clientOrgID <- getClientOrgID ctx ;;
  let transMap := GetTransient ctx in
  transferKey <-
    orError (transMap !! "commodity_transferKey")
            (ErrTransientKeyNotFound "commodity_transferKey") ;;
  let collection := buildCollectionName clientOrgID in
  commodityPriceKey <-
    wrapf "failed to create composite key"
      (Stub.CreateCompositeKey transferType [commodityID]) ;;
  _ <- wrapf "failed to put transferKey"
         (Stub.PutPrivateData collection commodityPriceKey transferKey) ;;
  ret ().

(** [AgreeToPut]. *)
Definition AgreeToPut (ctx : TransactionContext) (commodityID : string)
  : M unit :=
  asset <- ReadCommodity ctx commodityID ;;
  clientOrgID <- getClientOrgID ctx ;;
  _ <- verifyClientOrgMatchesPeerOrg ctx clientOrgID ;;
  asset <- deref asset ;;
  if negb (String.eqb clientOrgID (OwnerOrg asset))
  then throw (ErrCannotUpdate clientOrgID (OwnerOrg asset))
  else agreeToTransfer ctx commodityID typeCommodityForTransfer.

(** [AgreeToGet]. *)
Definition AgreeToGet (ctx : TransactionContext) (CommodityID : string)
  : M unit :=
  let transientMap := GetTransient ctx in
  clientOrgID <- getClientOrgID ctx ;;
  _ <- verifyClientOrgMatchesPeerOrg ctx clientOrgID ;;
  immutablePropertiesJSON <-
    orError (transientMap !! "Commodity_properties")
            (ErrTransientKeyNotFound "Commodity_properties") ;;
  let collection := buildCollectionName clientOrgID in
  _ <- wrapf "failed to put Asset private details"
         (Stub.PutPrivateData collection CommodityID immutablePropertiesJSON) ;;
  agreeToTransfer ctx CommodityID typeCommodityKey.

(** [VerifyCommodityProperties].  The Go function returns [(false, err)]
    wherever it returns an error: [Err e] stands for that pair. *)
Definition VerifyCommodityProperties (ctx : TransactionContext)
    (commodityID : string) : M bool :=
  let transMap := GetTransient ctx in
  immutablePropertiesJSON <-
    orError (transMap !! "Commodity_properties")
            (ErrTransientKeyNotFound "Commodity_properties") ;;
  p <- wrapf "failed to get commodity" (ReadCommodity ctx commodityID) ;;
  commodity <- deref p ;;
  let collectionOwner := buildCollectionName (OwnerOrg commodity) in
  immutablePropertiesOnChainHash <-
    Stub.GetPrivateDataHash collectionOwner commodityID ;;
  immutablePropertiesOnChainHash <-
    orError immutablePropertiesOnChainHash
            (ErrPropertiesHashDoesNotExist commodityID) ;;
  let calculatedPropertiesHash := SHA256.Sum256 immutablePropertiesJSON in
  if negb (String.eqb immutablePropertiesOnChainHash calculatedPropertiesHash)
  then throw (ErrPropertiesHashMismatch calculatedPropertiesHash
                immutablePropertiesJSON immutablePropertiesOnChainHash)
  else if negb (String.eqb
                  (Bytes.hex_EncodeToString immutablePropertiesOnChainHash)
                  commodityID)
  then throw (ErrAltered calculatedPropertiesHash immutablePropertiesJSON
                immutablePropertiesOnChainHash commodityID)
  else ret true.

(** [verifyTransferConditions].  Its fourth parameter, named
    [upstreamOrgID] in the source, is the organization that receives the
    commodity. *)
Definition verifyTransferConditions (ctx : TransactionContext)
    (p : option Commodity) (clientOrgID : string) (upstreamOrgID : string)
    (transferKayJSON : bytes) : M unit :=
  commodity <- deref p ;;
  (* CHECK1 *)
  if negb (String.eqb clientOrgID (OwnerOrg commodity))
  then throw (ErrCannotTransfer clientOrgID (OwnerOrg commodity))
  else
  (* CHECK2 *)
  let collectionPutter := buildCollectionName clientOrgID in
  let collectionGetter := buildCollectionName upstreamOrgID in
  ownerPropertiesOnChainHash <-
    Stub.GetPrivateDataHash collectionPutter (ID commodity) ;;
  ownerPropertiesOnChainHash <-
    orError ownerPropertiesOnChainHash
            (ErrPropertiesHashDoesNotExist (ID commodity)) ;;
  GetterPropertiesOnChainHash <-
    Stub.GetPrivateDataHash collectionGetter (ID commodity) ;;
  GetterPropertiesOnChainHash <-
    orError GetterPropertiesOnChainHash
            (ErrPropertiesHashDoesNotExist (ID commodity)) ;;
  if negb (String.eqb ownerPropertiesOnChainHash GetterPropertiesOnChainHash)
  then throw (ErrSellerBuyerHashMismatch ownerPropertiesOnChainHash
                GetterPropertiesOnChainHash)
  else
  (* CHECK3 *)
  commodityForPutKey <-
    wrapf "failed to create composite key"
      (Stub.CreateCompositeKey typeCommodityForTransfer [ID commodity]) ;;
  upstreamTransferKeyHash <-
    Stub.GetPrivateDataHash collectionPutter commodityForPutKey ;;
  upstreamTransferKeyHash <-
    orError upstreamTransferKeyHash
            (ErrUpstreamKeyDoesNotExist (ID commodity)) ;;
  commodityForGetKey <-
    wrapf "failed to create composite key"
      (Stub.CreateCompositeKey typeCommodityKey [ID commodity]) ;;
  downstreamTransferKeyHash <-
    Stub.GetPrivateDataHash collectionGetter commodityForGetKey ;;
  downstreamTransferKeyHash <-
    orError downstreamTransferKeyHash
            (ErrDownstreamKeyDoesNotExist (ID commodity)) ;;
  let calculatedKeyHash := SHA256.Sum256 transferKayJSON in
  if negb (String.eqb calculatedKeyHash upstreamTransferKeyHash)
  then throw (ErrUpstreamKeyMismatch calculatedKeyHash transferKayJSON
                upstreamTransferKeyHash)
  else if negb (String.eqb calculatedKeyHash downstreamTransferKeyHash)
  then throw (ErrDownstreamKeyMismatch calculatedKeyHash transferKayJSON
                downstreamTransferKeyHash)
  else ret ().

(** [transferCommodityState]. *)
Definition transferCommodityState (ctx : TransactionContext)
    (p : option Commodity) (clientOrgID : string) (upstreamOrgID : string)
    (transferKey : Z) : M unit :=
  commodity <- deref p ;;
  let commodity :=
    {| ObjectType := ObjectType commodity;
       ID := ID commodity;
       OwnerOrg := upstreamOrgID;
       Source := OwnerOrg commodity;
       Target := Target commodity;
       PublicDescription := PublicDescription commodity;
       DetailedInformation := DetailedInformation commodity |} in
  updatedCommodity <- Marshal_Commodity commodity ;;
  _ <- wrapf "failed to write commodity for upstream"
         (Stub.PutState ctx (ID commodity) updatedCommodity) ;;
  let endorsingOrges := [upstreamOrgID] in
  _ <- wrapf "failed setting state based endorsement for new owner"
         (setCommodityStateBasedEndorsement ctx (ID commodity) endorsingOrges) ;;
  let collectionPutter := buildCollectionName clientOrgID in
  _ <- wrapf "failed to delete commodity private details from upstream"
         (Stub.DelPrivateData collectionPutter (ID commodity)) ;;
  commodityTransferKey <-
    wrapf "failed to create composite key for upstream"
      (Stub.CreateCompositeKey typeCommodityForTransfer [ID commodity]) ;;
  _ <- wrapf "failed to delete commodity transferKey from implicit private data collection for Putter"
         (Stub.DelPrivateData collectionPutter commodityTransferKey) ;;
  let collectionGetter := buildCollectionName upstreamOrgID in
  commodityTransferKey <-
    wrapf "failed to create composite key for Getter"
      (Stub.CreateCompositeKey typeCommodityKey [ID commodity]) ;;
  _ <- wrapf "failed to delete commodity transferKey from implicit private data collection for Getter"
         (Stub.DelPrivateData collectionGetter commodityTransferKey) ;;
  receiptGetKey <-
    wrapf "failed to create composite key for receipt"
      (Stub.CreateCompositeKey typeCommodityGetReceipt
         [ID commodity; GetTxID ctx]) ;;
  let txTimestamp := GetTxTimestamp ctx in
  timestamp <- orError (Time.ptypes_Timestamp txTimestamp) ErrTimestamp ;;
  let commodityReceipt :=
    {| transferKey := transferKey; timestamp := timestamp |} in
  receipt <-
    wrapf "failed to marshal receipt"
      (orError (GoJSON.Marshal (receipt_fields commodityReceipt)) ErrJSON) ;;
  _ <- wrapf "failed to put private commodity receipt for Getter"
         (Stub.PutPrivateData collectionGetter receiptGetKey receipt) ;;
  receiptPutKey <-
    wrapf "failed to create composite key for receipt"
      (Stub.CreateCompositeKey typeCommodityPutReceipt
         [GetTxID ctx; ID commodity]) ;;
  _ <- wrapf "failed to put private commodity receipt for Putter"
         (Stub.PutPrivateData collectionPutter receiptPutKey receipt) ;;
  ret ().

(** [TransferCommodity]. *)
Definition TransferCommodity (ctx : TransactionContext)
    (commodityID : string) (downStreamOrgID : string) : M unit :=
  clientOrgID <- getClientOrgID ctx ;;
  let transMap := GetTransient ctx in
  transferKeyJSON <-
    orError (transMap !! "Commodity_transferKey")
            (ErrTransientKeyNotFound "Commodity_transferKey") ;;
  agreement <-
    wrapf "failed to unmarshal price JSON"
      (Unmarshal_Agreement transferKeyJSON) ;;
  commodity <- wrapf "failed to get commodity" (ReadCommodity ctx commodityID) ;;
  _ <- wrapf "failed transfer verification"
         (verifyTransferConditions ctx commodity clientOrgID downStreamOrgID
            transferKeyJSON) ;;
  _ <- wrapf "failed commodity transfer"
         (transferCommodityState ctx commodity clientOrgID downStreamOrgID
            (TransferKey agreement)) ;;
  ret ().

(** [GetCommodityHashId]. *)
Definition GetCommodityHashId (ctx : TransactionContext) : M string :=
  let transientMap := GetTransient ctx in
  propertiesJSON <-
    orError (transientMap !! "Commodity_properties")
            (ErrTransientKeyNotFound "Commodity_properties") ;;
  let commodityID := Bytes.hex_EncodeToString (SHA256.Sum256 propertiesJSON) in
  p <- wrapf "failed to get commodity" (ReadCommodity ctx commodityID) ;;
  commodity <- deref p ;;
  if negb (String.eqb (ID commodity) commodityID)
  then throw ErrNoSuchCommodity
  else ret (ID commodity).

(* ===================================================================== *)
(** ** The entry points as one transition system *)
(* ===================================================================== *)

(** An invocation of an exported method of [SmartContract]. *)
Inductive Invocation : Type :=
| InvCreateAsset (target publicDescription : string)
| InvChangePublicDescription (commodityID newDescription : string)
| InvAgreeToPut (commodityID : string)
| InvAgreeToGet (commodityID : string)
| InvVerifyCommodityProperties (commodityID : string)
| InvTransferCommodity (commodityID downStreamOrgID : string)
| InvGetCommodityHashId
| InvReadCommodity (commodityID : string)
| InvGetCommodityPrivateProperties (commodityID : string)
| InvGetCommodityUpstreamKey (commodityID : string)
| InvGetCommodityDownstreamKey (commodityID : string)
| InvQueryCommodityPutAgreements
| InvQueryCommodityGetAgreements
| InvQueryCommodityHistory (assetID : string).

(** The outcome of a call, without its return value. *)
Definition outcome {A} (r : result A * Ledger) : option error * Ledger :=
  match r with
  | (Ok _, l) => (None, l)
  | (Err e, l) => (Some e, l)
  end.

Definition invoke (ctx : TransactionContext) (i : Invocation) (l : Ledger)
  : option error * Ledger :=
  match i with
  | InvCreateAsset t d => outcome (CreateAsset ctx t d l)
  | InvChangePublicDescription c d => outcome (ChangePublicDescription ctx c d l)
  | InvAgreeToPut c => outcome (AgreeToPut ctx c l)
  | InvAgreeToGet c => outcome (AgreeToGet ctx c l)
  | InvVerifyCommodityProperties c => outcome (VerifyCommodityProperties ctx c l)
  | InvTransferCommodity c d => outcome (TransferCommodity ctx c d l)
  | InvGetCommodityHashId => outcome (GetCommodityHashId ctx l)
  | InvReadCommodity c => outcome (ReadCommodity ctx c l)
  | InvGetCommodityPrivateProperties c =>
      outcome (GetCommodityPrivateProperties ctx c l)
  | InvGetCommodityUpstreamKey c => outcome (GetCommodityUpstreamKey ctx c l)
  | InvGetCommodityDownstreamKey c => outcome (GetCommodityDownstreamKey ctx c l)
  | InvQueryCommodityPutAgreements => outcome (QueryCommodityPutAgreements ctx l)
  | InvQueryCommodityGetAgreements => outcome (QueryCommodityGetAgreements ctx l)
  | InvQueryCommodityHistory a => outcome (QueryCommodityHistory ctx a l)
  end.

Definition genesis : Ledger :=
  {| world := ∅; policies := ∅; private := ∅; versions := ∅; writes := [] |}.

(** The ledgers the contract can produce: the host commits the writes of a
    call that returns no error, and drops those of a call that fails. *)
Inductive reachable : Ledger -> Prop :=
| reachable_genesis : reachable genesis
| reachable_commit ctx i l l' :
    reachable l -> invoke ctx i l = (None, l') -> reachable l'.

(* ===================================================================== *)
(** ** The vocabulary of the specification *)
(* ===================================================================== *)

(** Modelled from the spec: the error taxonomy of its section 7.  The
    source declares no error types, its errors are messages; each message
    is classified by what the taxonomy says of its cause. *)
Inductive ErrorKind : Type :=
| InputError
| NotFoundError
| AuthorizationError
| ConsistencyError
| AgreementMismatchError
| VerificationError.

Fixpoint error_kind (e : error) : option ErrorKind :=
  match e with
  | ErrTransientKeyNotFound _ => Some InputError
  | ErrJSON => Some InputError
  | ErrClientNotPeerOrg _ _ => Some AuthorizationError
  | ErrCannotUpdateDescription _ _ => Some AuthorizationError
  | ErrCannotUpdate _ _ => Some AuthorizationError
  | ErrCannotTransfer _ _ => Some AuthorizationError
  | ErrDoesNotExist _ => Some NotFoundError
  | ErrPropertiesHashDoesNotExist _ => Some NotFoundError
  | ErrUpstreamKeyDoesNotExist _ => Some NotFoundError
  | ErrDownstreamKeyDoesNotExist _ => Some NotFoundError
  | ErrPrivateDetailsDoNotExist _ => Some NotFoundError
  | ErrKeyDoesNotExist _ => Some NotFoundError
  | ErrNoSuchCommodity => Some NotFoundError
  | ErrSellerBuyerHashMismatch _ _ => Some ConsistencyError
  | ErrUpstreamKeyMismatch _ _ _ => Some AgreementMismatchError
  | ErrDownstreamKeyMismatch _ _ _ => Some AgreementMismatchError
  | ErrPropertiesHashMismatch _ _ _ => Some VerificationError
  | ErrAltered _ _ _ _ => Some VerificationError
  | Wrapf _ e' => error_kind e'
  | ErrPeerMSPIDNotSet | ErrCompositeKey | ErrTimestamp | PanicNilPointer => None
  end.

(** [digestOf(partition, key)] of the specification: the digest the ledger
    exposes of a private record. *)
Definition digestOf (l : Ledger) (collection key : string) : option bytes :=
  SHA256.Sum256 <$> private l !! (collection, key).

(** The composite key of an object type and its attributes, as text. *)
Definition compositeKey (objectType : string) (attributes : list string)
  : string :=
  fold_left (fun ck att => ck +:+ att +:+ String "000" "") attributes
            (Shim.compositeKeyNamespace +:+ objectType +:+ String "000" "").

(** The role-scoped keys of the commitments and of the receipts. *)
Definition forTransferKey (commodityID : string) : string :=
  compositeKey typeCommodityForTransfer [commodityID].
Definition forAcquireKey (commodityID : string) : string :=
  compositeKey typeCommodityKey [commodityID].
Definition getReceiptKey (commodityID txID : string) : string :=
  compositeKey typeCommodityGetReceipt [commodityID; txID].
Definition putReceiptKey (txID commodityID : string) : string :=
  compositeKey typeCommodityPutReceipt [txID; commodityID].

(** The three preconditions of a transfer, in the words of the
    specification (section 4.5), for a caller, a commodity, a recipient and
    a disclosed commitment blob. *)
Definition CHECK1 (callerOrg : string) (c : Commodity) : bool :=
  String.eqb callerOrg (OwnerOrg c).

Definition CHECK2 (l : Ledger) (c : Commodity) (recipientOrg : string) : bool :=
  match digestOf l (buildCollectionName (OwnerOrg c)) (ID c),
        digestOf l (buildCollectionName recipientOrg) (ID c) with
  | Some owner, Some recipient => String.eqb owner recipient
  | _, _ => false
  end.

Definition CHECK3 (l : Ledger) (c : Commodity) (recipientOrg : string)
    (disclosed : bytes) : bool :=
  match digestOf l (buildCollectionName (OwnerOrg c)) (forTransferKey (ID c)),
        digestOf l (buildCollectionName recipientOrg) (forAcquireKey (ID c)) with
  | Some owner, Some recipient =>
      String.eqb (SHA256.Sum256 disclosed) owner
      && String.eqb (SHA256.Sum256 disclosed) recipient
  | _, _ => false
  end.

(** The content-addressing invariant of the world state: every public
    record is the document of a commodity whose id is the key it is stored
    under, and that key can be part of a composite key. *)
Definition consistent (l : Ledger) : Prop :=
  forall k j, world l !! k = Some j ->
    exists c, j = Commodity_doc c /\ ID c = k
              /\ Shim.validateCompositeKeyAttribute k = true.

(** The calls that only read: every entry point but the five that issue
    writes. *)
Definition read_only (i : Invocation) : bool :=
  match i with
  | InvCreateAsset _ _ | InvChangePublicDescription _ _ | InvAgreeToPut _
  | InvAgreeToGet _ | InvTransferCommodity _ _ => false
  | _ => true
  end.

Arguments SHA256.Sum256 : simpl never.
Arguments Bytes.hex_EncodeToString : simpl never.
Arguments JSON.parse : simpl never.
Arguments Shim.validateCompositeKeyAttribute : simpl never.
Arguments decode_Agreement : simpl never.
Arguments compositeKey : simpl never.
Arguments buildCollectionName : simpl never.

(** The record a transfer to [recipientOrg] writes back. *)
Definition handed_over (c : Commodity) (recipientOrg : string) : Commodity :=
  {| ObjectType := ObjectType c;
     ID := ID c;
     OwnerOrg := recipientOrg;
     Source := OwnerOrg c;
     Target := Target c;
     PublicDescription := PublicDescription c;
     DetailedInformation := DetailedInformation c |}.

(** The writes of the mutation of a transfer, in the order of
    [transferCommodityState], with the receipt [r] it puts. *)
Definition transfer_writes (ctx : TransactionContext) (c : Commodity)
    (clientOrgID recipientOrg : string) (r : bytes) : list Write :=
  [ WPutState (ID c) (Commodity_doc (handed_over c recipientOrg));
    WSetStateValidationParameter (ID c) (list_to_set [recipientOrg]);
    WDelPrivateData (buildCollectionName clientOrgID) (ID c);
    WDelPrivateData (buildCollectionName clientOrgID) (forTransferKey (ID c));
    WDelPrivateData (buildCollectionName recipientOrg) (forAcquireKey (ID c));
    WPutPrivateData (buildCollectionName recipientOrg)
      (getReceiptKey (ID c) (GetTxID ctx)) r;
    WPutPrivateData (buildCollectionName clientOrgID)
      (putReceiptKey (GetTxID ctx) (ID c)) r ].

(** The ledger a transfer leaves. *)
Definition after_transfer (ctx : TransactionContext) (c : Commodity)
    (clientOrgID recipientOrg : string) (r : bytes) (l : Ledger) : Ledger :=
  {| world := <[ID c := Commodity_doc (handed_over c recipientOrg)]> (world l);
     policies := <[ID c := list_to_set [recipientOrg]]> (policies l);
     private :=
       <[(buildCollectionName clientOrgID, putReceiptKey (GetTxID ctx) (ID c)) := r]>
         (<[(buildCollectionName recipientOrg,
             getReceiptKey (ID c) (GetTxID ctx)) := r]>
            (delete (buildCollectionName recipientOrg, forAcquireKey (ID c))
               (delete (buildCollectionName clientOrgID, forTransferKey (ID c))
                  (delete (buildCollectionName clientOrgID, ID c)
                     (private l)))));
     versions :=
       <[ID c := (default [] (versions l !! ID c)
                  ++ [ {| km_TxId := GetTxID ctx;
                          km_Timestamp := GetTxTimestamp ctx;
                          km_Value := Commodity_doc (handed_over c recipientOrg) |} ])%list ]>
         (versions l);
     writes := (writes l ++ transfer_writes ctx c clientOrgID recipientOrg r)%list |}.
Arguments GoJSON.MarshalDocument : simpl never.
Arguments GoJSON.Marshal : simpl never.
Arguments GoJSON.Unmarshal : simpl never.
Arguments decode_Commodity : simpl never.
Arguments Commodity_doc : simpl never.
Arguments Time.ptypes_Timestamp : simpl never.

(** The record [CreateAsset] writes for the attribute blob [B]. *)
Definition created (ctx : TransactionContext) (target publicDescription : string)
    (B : bytes) : Commodity :=
  {| ObjectType := "Commodity";
     ID := Bytes.hex_EncodeToString (SHA256.Sum256 B);
     OwnerOrg := clientMSPID ctx;
     Source := clientMSPID ctx;
     Target := target;
     PublicDescription := publicDescription;
     DetailedInformation := "" |}.

(** The ledger [CreateAsset] leaves. *)
Definition after_create (ctx : TransactionContext)
    (target publicDescription : string) (B : bytes) (l : Ledger) : Ledger :=
  let c := created ctx target publicDescription B in
  {| world := <[ID c := Commodity_doc c]> (world l);
     policies := <[ID c := list_to_set [clientMSPID ctx]]> (policies l);
     private := <[(buildCollectionName (clientMSPID ctx), ID c) := B]> (private l);
     versions :=
       <[ID c := (default [] (versions l !! ID c)
                  ++ [ {| km_TxId := GetTxID ctx;
                          km_Timestamp := GetTxTimestamp ctx;
                          km_Value := Commodity_doc c |} ])%list ]>
         (versions l);
     writes :=
       (writes l
        ++ [ WPutState (ID c) (Commodity_doc c);
             WSetStateValidationParameter (ID c) (list_to_set [clientMSPID ctx]);
             WPutPrivateData (buildCollectionName (clientMSPID ctx)) (ID c) B ])%list |}.

(** The record [ChangePublicDescription] writes back. *)
Definition described (c : Commodity) (newDescription : string) : Commodity :=
  {| ObjectType := ObjectType c;
     ID := ID c;
     OwnerOrg := OwnerOrg c;
     Source := Source c;
     Target := Target c;
     PublicDescription := newDescription;
     DetailedInformation := DetailedInformation c |}.

(* ===================================================================== *)
(** ** Concrete transactions *)
(* ===================================================================== *)

(** The scenario of the specification: OrgA creates a commodity from the
    blob [X], agrees to put it with the term [T1], OrgB agrees to get it
    with [X] and [T1], OrgA transfers it to OrgB disclosing [T1]. *)
Module Scenario.

Definition X : bytes := Bytes.requote "{'color':'red','weight':5}".
Definition Y : bytes := Bytes.requote "{'color':'blue','weight':5}".
Definition T1 : bytes :=
  Bytes.requote "{'commodity':'crate','transferKey':1234,'transfer_id':'T1'}".
Definition secret : bytes := "three crates on Monday".

Definition when : pbTimestamp := {| seconds := 1700000000; nanos := 0 |}.

(** A call of a client of [org] on a peer of [org]. *)
Definition call (org : string) (transient : list (string * bytes))
    (tx : string) : TransactionContext :=
  {| clientMSPID := org;
     peerMSPID := org;
     GetTransient := list_to_map transient;
     GetTxID := tx;
     GetTxTimestamp := when |}.

Definition id : string := Bytes.hex_EncodeToString (SHA256.Sum256 X).

Definition after (l : Ledger) (ctx : TransactionContext) (i : Invocation)
  : Ledger := (invoke ctx i l).2.

Definition create_by_A : TransactionContext :=
  call "OrgA" [("commodity_properties", X)] "tx1".
Definition put_by_A : TransactionContext :=
  call "OrgA" [("commodity_transferKey", T1)] "tx2".
Definition get_by_B : TransactionContext :=
  call "OrgB" [("Commodity_properties", X); ("commodity_transferKey", T1)] "tx3".
Definition transfer_by_A : TransactionContext :=
  call "OrgA" [("Commodity_transferKey", T1)] "tx4".
Definition transfer_again : TransactionContext :=
  call "OrgA" [("Commodity_transferKey", T1)] "tx5".

(** The commodity OrgA creates, and the ledger after each step. *)
Definition crate : Commodity := created create_by_A "OrgB" "a crate" X.
Definition l1 : Ledger := after genesis create_by_A (InvCreateAsset "OrgB" "a crate").
Definition l2 : Ledger := after l1 put_by_A (InvAgreeToPut id).
Definition l3 : Ledger := after l2 get_by_B (InvAgreeToGet id).
Definition l4 : Ledger := after l3 transfer_by_A (InvTransferCommodity id "OrgB").

(** The same agreement on a term that is no JSON text. *)
Definition put_secret : TransactionContext :=
  call "OrgA" [("commodity_transferKey", secret)] "tx2".
Definition get_secret : TransactionContext :=
  call "OrgB" [("Commodity_properties", X); ("commodity_transferKey", secret)]
       "tx3".
Definition transfer_secret : TransactionContext :=
  call "OrgA" [("Commodity_transferKey", secret)] "tx4".
Definition m2 : Ledger := after l1 put_secret (InvAgreeToPut id).
Definition m3 : Ledger := after m2 get_secret (InvAgreeToGet id).

(** OrgB creates a commodity from the blob OrgA used. *)
Definition create_by_B : TransactionContext :=
  call "OrgB" [("commodity_properties", X)] "tx2".

(** OrgA replaces its own copy of the attributes by [Y]. *)
Definition get_by_A : TransactionContext :=
  call "OrgA" [("Commodity_properties", Y); ("commodity_transferKey", T1)] "tx2".
Definition k2 : Ledger := after l1 get_by_A (InvAgreeToGet id).

(** Calls that verify attributes, and a call of OrgB on the description. *)
Definition verify_X : TransactionContext :=
  call "OrgB" [("Commodity_properties", X)] "tx9".
Definition verify_Y : TransactionContext :=
  call "OrgB" [("Commodity_properties", Y)] "tx9".
Definition describe_by_B : TransactionContext := call "OrgB" [] "tx9".

End Scenario.

(* ===================================================================== *)
(** ** Vocabulary of the further properties *)
(* ===================================================================== *)

(** The entry points that go through
    [getClientImplicitCollectionNameAndVerifyClientOrg], and [AgreeToGet],
    which checks the peer before anything else. *)
Definition checks_peer_first (i : Invocation) : bool :=
  match i with
  | InvAgreeToGet _ | InvGetCommodityPrivateProperties _
  | InvGetCommodityUpstreamKey _ | InvGetCommodityDownstreamKey _
  | InvQueryCommodityPutAgreements | InvQueryCommodityGetAgreements => true
  | _ => false
  end.

(** The endorsement policy of every public record names its owner. *)
Definition policy_follows_owner (l : Ledger) : Prop :=
  forall k c, world l !! k = Some (Commodity_doc c) ->
    policies l !! k = Some {[ OwnerOrg c ]}.

(** What [GetPrivateDataByPartialCompositeKey] iterates over: the entries
    of a collection under the composite keys of an object type. *)
Definition pending (l : Ledger) (collection objectType : string)
  : list (string * bytes) :=
  merge_sort key_le
    (omap (fun e : string * string * bytes =>
             let '((c, k), v) := e in
             if String.eqb c collection
                && String.prefix (Shim.compositeKeyNamespace +:+ objectType
                                  +:+ String "000" EmptyString) k
             then Some (k, v) else None)
          (map_to_list (private l))).

(** A result of [QueryCommodityHistory] built from a version of the key. *)
Definition history_entry (v : KeyModification) (r : QueryResult) : Prop :=
  TxId r = km_TxId v
  /\ decode_Commodity (km_Value v) = Some (Record_ r)
  /\ Time.ptypes_Timestamp (km_Timestamp v) = Some (Timestamp r).

(** The shape [CreateAsset] gives a public record and the other entry
    points keep: stored under its id, the id a hex SHA-256 digest, the
    object type "Commodity", no detailed information. *)
Definition well_shaped (k : string) (c : Commodity) : Prop :=
  ID c = k
  /\ (exists B, k = Bytes.hex_EncodeToString (SHA256.Sum256 B))
  /\ ObjectType c = "Commodity"
  /\ DetailedInformation c = EmptyString.

Definition content_addressed (l : Ledger) : Prop :=
  forall k j, world l !! k = Some j ->
    exists c, j = Commodity_doc c /\ well_shaped k c.

(** Further transactions on the ledgers of the scenario. *)
Module Cases.

(** A timestamp past the year 9999, which [ptypes.Timestamp] refuses. *)
Definition late : pbTimestamp := {| seconds := 253402300800; nanos := 0 |}.

(** OrgB asks to put a commodity it does not own; OrgA calls without any
    transient field. *)
Definition put_by_B : TransactionContext :=
  Scenario.call "OrgB" [("commodity_transferKey", Scenario.T1)] "tx2".
Definition bare_A : TransactionContext := Scenario.call "OrgA" [] "tx9".

(** A client of OrgB on a peer of OrgA. *)
Definition foreign : TransactionContext :=
  {| clientMSPID := "OrgB";
     peerMSPID := "OrgA";
     GetTransient := list_to_map [("commodity_properties", Scenario.X)];
     GetTxID := "tx2";
     GetTxTimestamp := Scenario.when |}.

(** The transfer and the creation of the scenario, with the late
    timestamp. *)
Definition transfer_late : TransactionContext :=
  {| clientMSPID := "OrgA";
     peerMSPID := "OrgA";
     GetTransient := list_to_map [("Commodity_transferKey", Scenario.T1)];
     GetTxID := "tx4";
     GetTxTimestamp := late |}.
Definition create_late : TransactionContext :=
  {| clientMSPID := "OrgA";
     peerMSPID := "OrgA";
     GetTransient := list_to_map [("commodity_properties", Scenario.X)];
     GetTxID := "tx1";
     GetTxTimestamp := late |}.
Definition late1 : Ledger :=
  Scenario.after genesis create_late (InvCreateAsset "OrgB" "a crate").

(** OrgA agrees to get its own commodity and transfers it to itself. *)
Definition get_own : TransactionContext :=
  Scenario.call "OrgA"
    [("Commodity_properties", Scenario.X); ("commodity_transferKey", Scenario.T1)]
    "tx3".
Definition s3 : Ledger := Scenario.after Scenario.l2 get_own (InvAgreeToGet Scenario.id).
Definition s4 : Ledger :=
  Scenario.after s3 Scenario.transfer_by_A (InvTransferCommodity Scenario.id "OrgA").

(** What the history query returns on the ledger after the transfer. *)
Definition history_l4 : list QueryResult :=
  match (QueryCommodityHistory Scenario.verify_X Scenario.id Scenario.l4).1 with
  | Ok results => results
  | Err _ => []
  end.

(** The agreement OrgA has pending after agreeing to put. *)
Definition agreement_T1 : Agreement :=
  {| Agreement_ID := "crate"; TransferKey := 1234; TransferID := "T1" |}.

End Cases.

(* ===================================================================== *)
(** ** Properties of the library models *)
(* ===================================================================== *)

Lemma MarshalDocument_Commodity c :
  GoJSON.MarshalDocument (Commodity_fields c) = Some (Commodity_doc c).
Proof. reflexivity. Qed.

Lemma decode_Commodity_doc c : decode_Commodity (Commodity_doc c) = Some (Some c).
Proof. destruct c. reflexivity. Qed.

Lemma Marshal_receipt r : GoJSON.Marshal (receipt_fields r) = Some "{}".
Proof. reflexivity. Qed.

Lemma Marshal_Commodity_run c l : Marshal_Commodity c l = (Ok (Commodity_doc c), l).
Proof. reflexivity. Qed.

Lemma validate_NUL s : Shim.validateCompositeKeyAttribute (String "000" s) = false.
Proof.
  unfold Shim.validateCompositeKeyAttribute, Bytes.to_list. cbn [list_ascii_of_string map].
  change (Bytes.to_Z "000") with 0. cbn [UTF8.decode]. 
  change (0 <? 128) with true. cbv iota.
  destruct (UTF8.decode _); reflexivity.
Qed.

Lemma hexdigit_ascii b0 b1 b2 b3 :
  0 < Bytes.to_Z (Bytes.hexdigit b0 b1 b2 b3) < 128.
Proof. destruct b0, b1, b2, b3; vm_compute; split; reflexivity. Qed.

Lemma decode_ascii (l : list Z) :
  Forall (fun z => 0 < z < 128) l -> UTF8.decode l = Some l.
Proof.
  induction 1 as [|z l Hz _ IH]; [reflexivity|].
  cbn [UTF8.decode]. destruct (Z.ltb_spec z 128); [|lia]. rewrite IH. reflexivity.
Qed.

Lemma validate_ascii s :
  Forall (fun z => 0 < z < 128) (Bytes.to_list s) ->
  Shim.validateCompositeKeyAttribute s = true.
Proof.
  intros H. unfold Shim.validateCompositeKeyAttribute. rewrite decode_ascii by done.
  apply forallb_forall. intros z Hz. rewrite Forall_forall in H.
  apply list_elem_of_In, H in Hz. unfold Shim.minUnicodeRuneValue, Shim.maxUnicodeRuneValue.
  destruct (Z.eqb_spec z 0), (Z.eqb_spec z 1114111); simpl; first [lia | reflexivity].
Qed.

Lemma hex_to_list d :
  Forall (fun z => 0 < z < 128) (Bytes.to_list (Bytes.hex_EncodeToString d)).
Proof.
  induction d as [|[b0 b1 b2 b3 b4 b5 b6 b7] d IH]; [constructor|].
  unfold Bytes.hex_EncodeToString; fold Bytes.hex_EncodeToString.
  unfold Bytes.to_list in *. cbn [list_ascii_of_string map].
  constructor; [apply hexdigit_ascii|]. constructor; [apply hexdigit_ascii|]. exact IH.
Qed.

Lemma validate_hex d :
  Shim.validateCompositeKeyAttribute (Bytes.hex_EncodeToString d) = true.
Proof. apply validate_ascii, hex_to_list. Qed.



Lemma appendAttributes_fold ck attrs :
  Forall (fun a => Shim.validateCompositeKeyAttribute a = true) attrs ->
  Shim.appendAttributes ck attrs
  = Some (fold_left (fun ck att => ck +:+ att +:+ String "000" "") attrs ck).
Proof.
  intros H. revert ck. induction H as [|a attrs Ha _ IH]; intros ck; [reflexivity|].
  cbn [Shim.appendAttributes fold_left]. rewrite Ha. apply IH.
Qed.

Lemma appendAttributes_Some ck attrs k :
  Shim.appendAttributes ck attrs = Some k ->
  Forall (fun a => Shim.validateCompositeKeyAttribute a = true) attrs.
Proof.
  revert ck. induction attrs as [|a attrs IH]; intros ck H; [constructor|].
  cbn [Shim.appendAttributes] in H.
  destruct (Shim.validateCompositeKeyAttribute a) eqn:Ha; [|discriminate].
  constructor; [exact Ha | eauto].
Qed.

Lemma CreateCompositeKey_valid t attrs :
  Shim.validateCompositeKeyAttribute t = true ->
  Forall (fun a => Shim.validateCompositeKeyAttribute a = true) attrs ->
  Shim.CreateCompositeKey t attrs = Some (compositeKey t attrs).
Proof.
  intros Ht Ha. unfold Shim.CreateCompositeKey, compositeKey. rewrite Ht.
  apply appendAttributes_fold, Ha.
Qed.

Lemma CreateCompositeKey_Some t attrs k :
  Shim.CreateCompositeKey t attrs = Some k ->
  k = compositeKey t attrs
  /\ Forall (fun a => Shim.validateCompositeKeyAttribute a = true) attrs.
Proof.
  unfold Shim.CreateCompositeKey. intros H.
  destruct (Shim.validateCompositeKeyAttribute t) eqn:Ht; [|discriminate].
  pose proof (appendAttributes_Some _ _ _ H) as Ha. split; [|exact Ha].
  rewrite (appendAttributes_fold _ _ Ha) in H. unfold compositeKey. congruence.
Qed.

Lemma CreateCompositeKey_1 t a :
  Shim.validateCompositeKeyAttribute t = true ->
  Shim.CreateCompositeKey t [a]
  = if Shim.validateCompositeKeyAttribute a then Some (compositeKey t [a]) else None.
Proof.
  intros Ht. destruct (Shim.validateCompositeKeyAttribute a) eqn:Ha.
  - apply CreateCompositeKey_valid; [done|]. by repeat constructor.
  - unfold Shim.CreateCompositeKey. rewrite Ht. cbn. by rewrite Ha.
Qed.

Lemma verify_ok_iff ctx c client recipient blob l :
  Shim.validateCompositeKeyAttribute (ID c) = true ->
  verifyTransferConditions ctx (Some c) client recipient blob l = (Ok (), l)
  <-> CHECK1 client c = true /\ CHECK2 l c recipient = true
      /\ CHECK3 l c recipient blob = true.
Proof.
  intros Hv.
  unfold verifyTransferConditions, CHECK1, CHECK2, CHECK3, digestOf, forTransferKey, forAcquireKey.
  unfold deref, orError, bind, wrapf, ret, throw, Stub.GetPrivateDataHash, Stub.CreateCompositeKey, orError, ret, throw.
  rewrite !CreateCompositeKey_1 by reflexivity. rewrite Hv.
  destruct (String.eqb_spec client (OwnerOrg c)) as [->|Hne]; cbn.
  2:{ split; [intros [=] | intros (?&?&?); congruence]. }
  destruct (private l !! (buildCollectionName (OwnerOrg c), ID c)) as [a|]; cbn.
  2:{ split; [intros [=] | intros (?&?&?); congruence]. }
  destruct (private l !! (buildCollectionName recipient, ID c)) as [b|]; cbn.
  2:{ split; [intros [=] | intros (?&?&?); congruence]. }
  destruct (String.eqb (SHA256.Sum256 a) (SHA256.Sum256 b)); cbn.
  2:{ split; [intros [=] | intros (?&?&?); congruence]. }
  destruct (private l !! (buildCollectionName (OwnerOrg c), compositeKey typeCommodityForTransfer [ID c])) as [x|]; cbn.
  2:{ split; [intros [=] | intros (?&?&?); congruence]. }
  destruct (private l !! (buildCollectionName recipient, compositeKey typeCommodityKey [ID c])) as [y|]; cbn.
  2:{ split; [intros [=] | intros (?&?&?); congruence]. }
  destruct (String.eqb (SHA256.Sum256 blob) (SHA256.Sum256 x)); cbn.
  2:{ split; [intros [=] | intros (?&?&?); congruence]. }
  destruct (String.eqb (SHA256.Sum256 blob) (SHA256.Sum256 y)); cbn.
  2:{ split; [intros [=] | intros (?&?&?); congruence]. }
  split; auto.
Qed.

Lemma CreateCompositeKey_2 t a b :
  Shim.validateCompositeKeyAttribute t = true ->
  Shim.CreateCompositeKey t [a; b]
  = if Shim.validateCompositeKeyAttribute a && Shim.validateCompositeKeyAttribute b
    then Some (compositeKey t [a; b]) else None.
Proof.
  intros Ht. destruct (Shim.validateCompositeKeyAttribute a) eqn:Ha,
    (Shim.validateCompositeKeyAttribute b) eqn:Hb; cbn [andb].
  - apply CreateCompositeKey_valid; [done|]. by repeat constructor.
  - unfold Shim.CreateCompositeKey. rewrite Ht. cbn. by rewrite Ha, Hb.
  - unfold Shim.CreateCompositeKey. rewrite Ht. cbn. by rewrite Ha.
  - unfold Shim.CreateCompositeKey. rewrite Ht. cbn. by rewrite Ha.
Qed.

Lemma verify_frame ctx p client recipient blob l r l' :
  verifyTransferConditions ctx p client recipient blob l = (r, l') -> l' = l.
Proof.
  unfold verifyTransferConditions.
  unfold deref, orError, bind, wrapf, ret, throw, Stub.GetPrivateDataHash, Stub.CreateCompositeKey, orError, ret, throw.
  intros H. repeat (case_match; simplify_eq; cbn in * ); done.
Qed.

Lemma transferCommodityState_Ok ctx c client recipient tk l l' :
  transferCommodityState ctx (Some c) client recipient tk l = (Ok (), l') <->
  (Shim.validateCompositeKeyAttribute (ID c) = true
   /\ Shim.validateCompositeKeyAttribute (GetTxID ctx) = true
   /\ is_Some (Time.ptypes_Timestamp (GetTxTimestamp ctx))
   /\ l' = after_transfer ctx c client recipient "{}" l).
Proof.
  unfold transferCommodityState.
  unfold deref, Marshal_Commodity, setCommodityStateBasedEndorsement, orError, bind, wrapf, ret, throw,
    Stub.PutState, Stub.DelPrivateData, Stub.PutPrivateData, Stub.SetStateValidationParameter,
    Stub.CreateCompositeKey, orError, ret, throw.
  rewrite !CreateCompositeKey_1, !CreateCompositeKey_2 by reflexivity.
  rewrite MarshalDocument_Commodity.
  cbn.
  destruct (Shim.validateCompositeKeyAttribute (ID c)) eqn:Hid; cbn.
  2:{ split; [intros [=] | intros (?&?&?&?); congruence]. }
  destruct (Shim.validateCompositeKeyAttribute (GetTxID ctx)) eqn:Htx; cbn.
  2:{ split; [intros [=] | intros (?&?&?&?); congruence]. }
  destruct (Time.ptypes_Timestamp (GetTxTimestamp ctx)) as [t|] eqn:Ht; cbn.
  2:{ split; [intros [=] | intros (?&?&[? ?]&?); congruence]. }
  rewrite Marshal_receipt. cbn. rewrite <- !app_assoc. cbn.
  split.
  - intros [= <-]. repeat split; eauto.
  - intros (_&_&_&->). reflexivity.
Qed.

Lemma ReadCommodity_doc ctx id c l :
  world l !! id = Some (Commodity_doc c) ->
  ReadCommodity ctx id l = (Ok (Some c), l).
Proof.
  intros H. unfold ReadCommodity, bind, Stub.GetState, Unmarshal_Commodity. rewrite H.
  rewrite decode_Commodity_doc. reflexivity.
Qed.

Lemma ReadCommodity_frame ctx id l r l' :
  ReadCommodity ctx id l = (r, l') -> l' = l.
Proof.
  unfold ReadCommodity, bind, Stub.GetState, Unmarshal_Commodity, orError, throw, ret.
  intros H. repeat (case_match; simplify_eq); done.
Qed.

Lemma TransferCommodity_unfold ctx id recipient l c blob :
  world l !! id = Some (Commodity_doc c) ->
  GetTransient ctx !! "Commodity_transferKey" = Some blob ->
  TransferCommodity ctx id recipient l =
  match decode_Agreement blob with
  | None => (Err (Wrapf "failed to unmarshal price JSON" ErrJSON), l)
  | Some a =>
      match verifyTransferConditions ctx (Some c) (clientMSPID ctx) recipient blob l with
      | (Err e, l1) => (Err (Wrapf "failed transfer verification" e), l1)
      | (Ok _, l1) =>
          match transferCommodityState ctx (Some c) (clientMSPID ctx) recipient (TransferKey a) l1 with
          | (Err e, l2) => (Err (Wrapf "failed commodity transfer" e), l2)
          | (Ok _, l2) => (Ok (), l2)
          end
      end
  end.
Proof.
  intros Hw Hb. unfold TransferCommodity, getClientOrgID, Unmarshal_Agreement.
  unfold bind at 1. unfold ret at 1. unfold bind at 1. rewrite Hb. cbn [orError]. unfold ret at 1.
  unfold bind at 1. unfold wrapf at 1.
  destruct (decode_Agreement blob) as [a|]; cbn [orError]; [|reflexivity].
  unfold ret at 1. unfold bind at 1. unfold wrapf at 1. rewrite (ReadCommodity_doc _ _ _ _ Hw).
  unfold bind at 1. unfold wrapf at 1.
  destruct (verifyTransferConditions _ _ _ _ _ _) as [[u|e] l1]; [|reflexivity].
  unfold bind at 1. unfold wrapf at 1.
  destruct (transferCommodityState _ _ _ _ _ _) as [[u'|e] l2]; [|reflexivity].
  destruct u'. reflexivity.
Qed.

Ltac unfold_monad :=
  unfold ReadCommodity, deref, Marshal_Commodity, Unmarshal_Commodity, Unmarshal_Agreement,
    setCommodityStateBasedEndorsement, getClientImplicitCollectionNameAndVerifyClientOrg,
    verifyClientOrgMatchesPeerOrg, getClientOrgID,
    Stub.GetState, Stub.PutState, Stub.DelPrivateData, Stub.PutPrivateData,
    Stub.GetPrivateData, Stub.GetPrivateDataHash, Stub.GetHistoryForKey,
    Stub.GetPrivateDataByPartialCompositeKey,
    Stub.SetStateValidationParameter, Stub.CreateCompositeKey,
    orError, bind, wrapf, ret, throw in *.

Ltac crunch := repeat (case_match; simplify_eq; cbn in * ).

Lemma decodeAgreements_frame items acc l r l' :
  decodeAgreements items acc l = (r, l') -> l' = l.
Proof.
  revert acc. induction items as [|x items IH]; intros acc H; cbn in H.
  - unfold ret in H. by simplify_eq.
  - unfold bind, Unmarshal_Agreement, orError, ret, throw in H.
    destruct (decode_Agreement x.2); [eauto | by simplify_eq].
Qed.

Lemma decodeHistory_frame items acc l r l' :
  decodeHistory items acc l = (r, l') -> l' = l.
Proof.
  revert acc. induction items as [|x items IH]; intros acc H; cbn in H.
  - unfold ret in H. by simplify_eq.
  - unfold bind, Unmarshal_Commodity, orError, ret, throw in H.
    destruct (decode_Commodity _); [|by simplify_eq].
    destruct (Time.ptypes_Timestamp _); [eauto | by simplify_eq].
Qed.

Lemma read_only_frame ctx i l e l' :
  read_only i = true -> invoke ctx i l = (e, l') -> l' = l.
Proof.
  destruct i; try discriminate; intros _; cbn [invoke]; unfold outcome.
  - (* VerifyCommodityProperties *)
    unfold VerifyCommodityProperties; unfold_monad. intros H. crunch; done.
  - unfold GetCommodityHashId; unfold_monad. intros H. crunch; done.
  - unfold ReadCommodity; unfold_monad. intros H. crunch; done.
  - unfold GetCommodityPrivateProperties; unfold_monad. intros H. crunch; done.
  - unfold GetCommodityUpstreamKey, getTransferKey; unfold_monad. intros H. crunch; done.
  - unfold GetCommodityDownstreamKey, getTransferKey; unfold_monad. intros H. crunch; done.
  - unfold QueryCommodityPutAgreements, queryAgreementsByType; unfold_monad. intros H.
    crunch; try done; match goal with H : decodeAgreements _ _ _ = _ |- _ => by apply decodeAgreements_frame in H end.
  - unfold QueryCommodityGetAgreements, queryAgreementsByType; unfold_monad. intros H.
    crunch; try done; match goal with H : decodeAgreements _ _ _ = _ |- _ => by apply decodeAgreements_frame in H end.
  - unfold QueryCommodityHistory; unfold_monad. intros H.
    crunch; try done; match goal with H : decodeHistory _ _ _ = _ |- _ => by apply decodeHistory_frame in H end.
Qed.

Lemma CreateAsset_Ok ctx target desc l id l' :
  CreateAsset ctx target desc l = (Ok id, l') <->
  exists B, GetTransient ctx !! "commodity_properties" = Some B
    /\ peerMSPID ctx <> "" /\ clientMSPID ctx = peerMSPID ctx
    /\ id = Bytes.hex_EncodeToString (SHA256.Sum256 B)
    /\ l' = after_create ctx target desc B l.
Proof.
  unfold CreateAsset; unfold_monad.
  destruct (GetTransient ctx !! "commodity_properties") as [B|]; cbn.
  2:{ split; [intros [=] | intros (?&?&?); congruence]. }
  destruct (String.eqb_spec (peerMSPID ctx) ""); cbn.
  { split; [intros [=] | intros (?&?&?&?); congruence]. }
  destruct (String.eqb_spec (clientMSPID ctx) (peerMSPID ctx)); cbn.
  2:{ split; [intros [=] | intros (?&?&?&?&?); congruence]. }
  rewrite MarshalDocument_Commodity. cbn. rewrite <- !app_assoc. cbn.
  split.
  - intros [= <- <-]. exists B. done.
  - intros (B' & [= <-] & _ & _ & -> & ->). done.
Qed.

Lemma ChangePublicDescription_doc ctx id desc l c :
  world l !! id = Some (Commodity_doc c) ->
  ChangePublicDescription ctx id desc l =
  if String.eqb (clientMSPID ctx) (OwnerOrg c)
  then Stub.PutState ctx id (Commodity_doc (described c desc)) l
  else (Err (ErrCannotUpdateDescription (clientMSPID ctx) (OwnerOrg c)), l).
Proof.
  intros Hw. unfold ChangePublicDescription; unfold_monad. rewrite Hw.
  rewrite decode_Commodity_doc. cbn.
  destruct (String.eqb (clientMSPID ctx) (OwnerOrg c)); cbn; [|reflexivity].
  rewrite MarshalDocument_Commodity. reflexivity.
Qed.

Lemma ChangePublicDescription_None ctx id desc l r l' :
  world l !! id = None ->
  ChangePublicDescription ctx id desc l = (r, l') -> l' = l /\ exists e, r = Err e.
Proof.
  intros Hw. unfold ChangePublicDescription; unfold_monad. rewrite Hw. cbn.
  intros [= <- <-]. eauto.
Qed.

Lemma AgreeToPut_world ctx id l r l' :
  AgreeToPut ctx id l = (r, l') -> world l' = world l.
Proof.
  unfold AgreeToPut, agreeToTransfer; unfold_monad. intros H. crunch; done.
Qed.

Lemma AgreeToGet_world ctx id l r l' :
  AgreeToGet ctx id l = (r, l') -> world l' = world l.
Proof.
  unfold AgreeToGet, agreeToTransfer; unfold_monad. intros H. crunch; done.
Qed.

Lemma TransferCommodity_None ctx id recipient l r l' :
  world l !! id = None ->
  TransferCommodity ctx id recipient l = (r, l') -> l' = l /\ exists e, r = Err e.
Proof.
  intros Hw H. unfold TransferCommodity in H; unfold_monad.
  destruct (GetTransient ctx !! "Commodity_transferKey"); cbn in H;
    [destruct (decode_Agreement _); cbn in H; [rewrite Hw in H; cbn in H|]|];
    simplify_eq; eauto.
Qed.

Lemma TransferCommodity_no_blob ctx id recipient l :
  GetTransient ctx !! "Commodity_transferKey" = None ->
  TransferCommodity ctx id recipient l
  = (Err (ErrTransientKeyNotFound "Commodity_transferKey"), l).
Proof.
  intros Hb. unfold TransferCommodity; unfold_monad. rewrite Hb. reflexivity.
Qed.

Lemma Commodity_doc_inj c c' : Commodity_doc c = Commodity_doc c' -> c = c'.
Proof. destruct c, c'. unfold Commodity_doc. cbn. intros [=]. congruence. Qed.

Lemma TransferCommodity_Ok ctx id recipient l l' :
  consistent l ->
  TransferCommodity ctx id recipient l = (Ok (), l') <->
  exists c blob,
    world l !! id = Some (Commodity_doc c)
    /\ GetTransient ctx !! "Commodity_transferKey" = Some blob
    /\ is_Some (decode_Agreement blob)
    /\ CHECK1 (clientMSPID ctx) c = true
    /\ CHECK2 l c recipient = true
    /\ CHECK3 l c recipient blob = true
    /\ Shim.validateCompositeKeyAttribute (GetTxID ctx) = true
    /\ is_Some (Time.ptypes_Timestamp (GetTxTimestamp ctx))
    /\ l' = after_transfer ctx c (OwnerOrg c) recipient "{}" l.
Proof.
  intros Hc. split.
  - intros H.
    destruct (world l !! id) as [j|] eqn:Hw.
    2:{ apply TransferCommodity_None in H as [_ [e ?]]; [congruence | done]. }
    destruct (Hc _ _ Hw) as (c & -> & Hid & Hv).
    destruct (GetTransient ctx !! "Commodity_transferKey") as [blob|] eqn:Hb.
    2:{ rewrite TransferCommodity_no_blob in H by done. congruence. }
    rewrite (TransferCommodity_unfold _ _ _ _ _ _ Hw Hb) in H.
    destruct (decode_Agreement blob) as [a|] eqn:Ha; [|congruence].
    destruct (verifyTransferConditions _ _ _ _ _ _) as [[[]|e] l1] eqn:Hverify; [|congruence].
    pose proof (verify_frame _ _ _ _ _ _ _ _ Hverify) as ->.
    rewrite <- Hid in Hv.
    apply verify_ok_iff in Hverify as (H1 & H2 & H3); [|done].
    destruct (transferCommodityState _ _ _ _ _ _) as [[[]|e] l2] eqn:Hstate; [|congruence].
    apply transferCommodityState_Ok in Hstate as (_ & Htx & Hts & ->).
    injection H as <-.
    exists c, blob. repeat split; try done. 
    unfold CHECK1 in H1. apply String.eqb_eq in H1. by rewrite H1.
  - intros (c & blob & Hw & Hb & [a Ha] & H1 & H2 & H3 & Htx & Hts & ->).
    destruct (Hc _ _ Hw) as (c0 & Heq & Hid & Hv). apply Commodity_doc_inj in Heq as <-.
    rewrite <- Hid in Hv.
    rewrite (TransferCommodity_unfold _ _ _ _ _ _ Hw Hb), Ha.
    pose proof (proj2 (verify_ok_iff ctx c (clientMSPID ctx) recipient blob l Hv)) as Hverify.
    rewrite Hverify by done.
    pose proof H1 as H1'. unfold CHECK1 in H1'. apply String.eqb_eq in H1'.
    pose proof (proj2 (transferCommodityState_Ok ctx c (clientMSPID ctx) recipient (TransferKey a) l _)
      (conj Hv (conj Htx (conj Hts eq_refl)))) as ->.
    by rewrite H1'.
Qed.

Lemma TransferCommodity_fails ctx id recipient l c blob :
  world l !! id = Some (Commodity_doc c) ->
  GetTransient ctx !! "Commodity_transferKey" = Some blob ->
  Shim.validateCompositeKeyAttribute (ID c) = true ->
  CHECK1 (clientMSPID ctx) c && CHECK2 l c recipient && CHECK3 l c recipient blob = false ->
  exists e, TransferCommodity ctx id recipient l = (Err e, l).
Proof.
  intros Hw Hb Hv Hchecks.
  rewrite (TransferCommodity_unfold _ _ _ _ _ _ Hw Hb).
  destruct (decode_Agreement blob) as [a|]; [|eauto].
  destruct (verifyTransferConditions _ _ _ _ _ _) as [[[]|e] l1] eqn:Hverify.
  - pose proof (verify_frame _ _ _ _ _ _ _ _ Hverify) as ->.
    apply verify_ok_iff in Hverify as (H1 & H2 & H3); [|done].
    rewrite H1, H2, H3 in Hchecks. discriminate.
  - pose proof (verify_frame _ _ _ _ _ _ _ _ Hverify) as ->. eauto.
Qed.

Lemma consistent_same l l' : world l' = world l -> consistent l -> consistent l'.
Proof. intros Hw Hc k j. rewrite Hw. apply Hc. Qed.

Lemma consistent_insert l l' c :
  world l' = <[ID c := Commodity_doc c]> (world l) ->
  Shim.validateCompositeKeyAttribute (ID c) = true ->
  consistent l -> consistent l'.
Proof.
  intros Hw Hv Hc k j. rewrite Hw. destruct (decide (ID c = k)) as [<-|Hne].
  - rewrite lookup_insert_eq. intros [= <-]. eauto.
  - rewrite lookup_insert_ne by done. apply Hc.
Qed.

Lemma invoke_consistent ctx i l l' :
  consistent l -> invoke ctx i l = (None, l') -> consistent l'.
Proof.
  intros Hc H.
  destruct (read_only i) eqn:Hro.
  { apply read_only_frame in H as ->; done. }
  destruct i; try discriminate; cbn [invoke] in H; unfold outcome in H.
  - destruct (CreateAsset _ _ _ _) as [[id|e] l1] eqn:Hrun; simplify_eq.
    apply CreateAsset_Ok in Hrun as (B & _ & _ & _ & -> & ->).
    eapply (consistent_insert _ _ (created ctx target publicDescription B)); [reflexivity| |done].
    apply validate_hex.
  - destruct (ChangePublicDescription _ _ _ _) as [[[]|e] l1] eqn:Hrun; simplify_eq.
    destruct (world l !! commodityID) as [j|] eqn:Hw.
    2:{ apply ChangePublicDescription_None in Hrun as [_ [? ?]]; [congruence|done]. }
    destruct (Hc _ _ Hw) as (c & -> & Hid & Hv).
    rewrite (ChangePublicDescription_doc _ _ _ _ _ Hw) in Hrun.
    destruct (String.eqb _ _); [|congruence].
    unfold Stub.PutState in Hrun. injection Hrun as <-.
    eapply (consistent_insert _ _ (described c newDescription)); cbn; [by rewrite Hid|by rewrite Hid|done].
  - destruct (AgreeToPut _ _ _) as [[[]|e] l1] eqn:Hrun; simplify_eq.
    eapply consistent_same; [eapply AgreeToPut_world|]; eauto.
  - destruct (AgreeToGet _ _ _) as [[[]|e] l1] eqn:Hrun; simplify_eq.
    eapply consistent_same; [eapply AgreeToGet_world|]; eauto.
  - destruct (TransferCommodity _ _ _ _) as [[[]|e] l1] eqn:Hrun; simplify_eq.
    apply TransferCommodity_Ok in Hrun as (c & blob & Hw & _ & _ & _ & _ & _ & _ & _ & ->); [|done].
    destruct (Hc _ _ Hw) as (c0 & Heq & Hid & Hv). apply Commodity_doc_inj in Heq as <-.
    eapply (consistent_insert _ _ (handed_over c downStreamOrgID)); cbn; [reflexivity|by rewrite Hid|done].
Qed.

Lemma genesis_consistent : consistent genesis.
Proof. intros k j. cbn. by rewrite lookup_empty. Qed.

Lemma reachable_consistent l : reachable l -> consistent l.
Proof.
  induction 1 as [|ctx i l l' _ IH H]; [apply genesis_consistent|].
  eapply invoke_consistent; eauto.
Qed.

(** Composite keys start with U+0000, which no attribute may hold. *)
Lemma fold_left_head (attrs : list string) (ck : string) :
  (exists s, ck = String "000" s) ->
  exists s, fold_left (fun ck att => ck +:+ att +:+ String "000" "") attrs ck
            = String "000" s.
Proof.
  revert ck. induction attrs as [|a attrs IH]; intros ck [s ->]; cbn; [eauto|].
  apply IH. eauto.
Qed.

Lemma compositeKey_head t attrs : exists s, compositeKey t attrs = String "000" s.
Proof. unfold compositeKey. apply fold_left_head. cbn. eauto. Qed.

Lemma valid_not_compositeKey k t attrs :
  Shim.validateCompositeKeyAttribute k = true -> k <> compositeKey t attrs.
Proof.
  intros Hv ->. destruct (compositeKey_head t attrs) as [s Hs].
  rewrite Hs, validate_NUL in Hv. discriminate.
Qed.

Lemma keys_distinct id tx :
  forTransferKey id <> forAcquireKey id
  /\ forTransferKey id <> getReceiptKey id tx
  /\ forTransferKey id <> putReceiptKey tx id
  /\ forAcquireKey id <> getReceiptKey id tx
  /\ forAcquireKey id <> putReceiptKey tx id
  /\ getReceiptKey id tx <> putReceiptKey tx id.
Proof.
  unfold forTransferKey, forAcquireKey, getReceiptKey, putReceiptKey, compositeKey.
  cbn. repeat split; intros [=].
Qed.

Lemma after_transfer_private ctx c owner recipient r l :
  Shim.validateCompositeKeyAttribute (ID c) = true ->
  let p := private (after_transfer ctx c owner recipient r l) in
  p !! (buildCollectionName owner, forTransferKey (ID c)) = None
  /\ p !! (buildCollectionName recipient, forAcquireKey (ID c)) = None
  /\ p !! (buildCollectionName owner, ID c) = None
  /\ p !! (buildCollectionName recipient, getReceiptKey (ID c) (GetTxID ctx)) = Some r
  /\ p !! (buildCollectionName owner, putReceiptKey (GetTxID ctx) (ID c)) = Some r.
Proof.
  intros Hv p. subst p. cbn [private after_transfer].
  destruct (keys_distinct (ID c) (GetTxID ctx)) as (H1 & H2 & H3 & H4 & H5 & H6).
  pose proof (valid_not_compositeKey (ID c) typeCommodityGetReceipt [ID c; GetTxID ctx] Hv) as H7.
  pose proof (valid_not_compositeKey (ID c) typeCommodityPutReceipt [GetTxID ctx; ID c] Hv) as H8.
  fold (getReceiptKey (ID c) (GetTxID ctx)) in H7. fold (putReceiptKey (GetTxID ctx) (ID c)) in H8.
  repeat split.
  - rewrite !lookup_insert_ne by congruence.
    rewrite lookup_delete. case_decide; [done|]. by rewrite lookup_delete_eq.
  - rewrite !lookup_insert_ne by congruence. by rewrite lookup_delete_eq.
  - rewrite !lookup_insert_ne by congruence.
    rewrite lookup_delete. case_decide; [done|].
    rewrite lookup_delete. case_decide; [done|]. by rewrite lookup_delete_eq.
  - rewrite lookup_insert. case_decide; [done|]. by rewrite lookup_insert_eq.
  - by rewrite lookup_insert_eq.
Qed.


(* ===================================================================== *)
(** ** The concrete transactions are committed ones *)
(* ===================================================================== *)

Lemma committed ctx i l :
  reachable l -> (invoke ctx i l).1 = None -> reachable (Scenario.after l ctx i).
Proof.
  intros Hl He. eapply reachable_commit; [exact Hl|].
  unfold Scenario.after. rewrite <- He. apply surjective_pairing.
Qed.

Lemma reachable_l1 : reachable Scenario.l1.
Proof. apply committed; [constructor | by vm_compute]. Qed.
Lemma reachable_l2 : reachable Scenario.l2.
Proof. apply committed; [apply reachable_l1 | by vm_compute]. Qed.
Lemma reachable_l3 : reachable Scenario.l3.
Proof. apply committed; [apply reachable_l2 | by vm_compute]. Qed.
Lemma reachable_l4 : reachable Scenario.l4.
Proof. apply committed; [apply reachable_l3 | by vm_compute]. Qed.
Lemma reachable_m3 : reachable Scenario.m3.
Proof. apply committed; [apply committed; [apply reachable_l1|]|]; by vm_compute. Qed.
Lemma reachable_k2 : reachable Scenario.k2.
Proof. apply committed; [apply reachable_l1 | by vm_compute]. Qed.


Lemma committed_invoke ctx i l :
  (invoke ctx i l).1 = None -> invoke ctx i l = (None, Scenario.after l ctx i).
Proof.
  unfold Scenario.after. destruct (invoke ctx i l) as [o l']. cbn. by intros ->.
Qed.

Lemma committed_CreateAsset ctx target publicDescription l B :
  GetTransient ctx !! "commodity_properties" = Some B ->
  peerMSPID ctx <> "" ->
  clientMSPID ctx = peerMSPID ctx ->
  CreateAsset ctx target publicDescription l
  = (Ok (Bytes.hex_EncodeToString (SHA256.Sum256 B)),
     Scenario.after l ctx (InvCreateAsset target publicDescription)).
Proof.
  intros Hb Hp Hcp.
  assert (H : CreateAsset ctx target publicDescription l
              = (Ok (Bytes.hex_EncodeToString (SHA256.Sum256 B)),
                 after_create ctx target publicDescription B l))
    by (apply CreateAsset_Ok; exists B; done).
  unfold Scenario.after, invoke, outcome. rewrite H. reflexivity.
Qed.

Lemma failed_TransferCommodity ctx id d l c blob e :
  world l !! id = Some (Commodity_doc c) ->
  GetTransient ctx !! "Commodity_transferKey" = Some blob ->
  is_Some (decode_Agreement blob) ->
  (verifyTransferConditions ctx (Some c) (clientMSPID ctx) d blob l).1 = Err e ->
  TransferCommodity ctx id d l = (Err (Wrapf "failed transfer verification" e), l).
Proof.
  intros Hw Hb [a Ha] He. rewrite (TransferCommodity_unfold _ _ _ _ _ _ Hw Hb), Ha.
  destruct (verifyTransferConditions _ _ _ _ _ _) as [r l'] eqn:H.
  apply verify_frame in H as ->. cbn in He. by rewrite He.
Qed.

Lemma committed_TransferCommodity ctx id d l :
  (invoke ctx (InvTransferCommodity id d) l).1 = None ->
  TransferCommodity ctx id d l
  = (Ok (), Scenario.after l ctx (InvTransferCommodity id d)).
Proof.
  unfold Scenario.after, invoke, outcome.
  destruct (TransferCommodity _ _ _ _) as [[[]|e] l']; cbn; [reflexivity | discriminate].
Qed.


(* ===================================================================== *)
(** ** The claims of the specification *)
(* ===================================================================== *)

(** C1 (amended).  On a ledger the contract has produced, for a commodity
    on it, a disclosed commitment blob in the transient map and a valid
    transaction id and timestamp: [TransferCommodity] succeeds if and only
    if the disclosed blob decodes as an agreement and CHECK1, CHECK2 and
    CHECK3 all hold; and whenever one of the three checks fails, the call
    returns an error and leaves the ledger as it was, its list of writes
    included. *)
Theorem TransferCommodity_succeeds_iff ctx id recipient l c blob :
  reachable l ->
  world l !! id = Some (Commodity_doc c) ->
  GetTransient ctx !! "Commodity_transferKey" = Some blob ->
  Shim.validateCompositeKeyAttribute (GetTxID ctx) = true ->
  is_Some (Time.ptypes_Timestamp (GetTxTimestamp ctx)) ->
  ((exists l', TransferCommodity ctx id recipient l = (Ok (), l'))
   <-> (is_Some (decode_Agreement blob)
        /\ CHECK1 (clientMSPID ctx) c = true
        /\ CHECK2 l c recipient = true
        /\ CHECK3 l c recipient blob = true))
  /\ (CHECK1 (clientMSPID ctx) c && CHECK2 l c recipient
      && CHECK3 l c recipient blob = false ->
      exists e, TransferCommodity ctx id recipient l = (Err e, l)).
Proof.
  intros Hr Hw Hb Htx Hts. pose proof (reachable_consistent _ Hr) as Hc.
  destruct (Hc _ _ Hw) as (c0 & Heq & Hid & Hv). apply Commodity_doc_inj in Heq as <-.
  rewrite <- Hid in Hv.
  split; [split|].
  - intros [l' H]. apply TransferCommodity_Ok in H; [|done].
    destruct H as (c' & blob' & Hw' & Hb' & Ha & H1 & H2 & H3 & _).
    assert (c' = c) as -> by (apply Commodity_doc_inj; congruence).
    assert (blob' = blob) as -> by congruence. done.
  - intros (Ha & H1 & H2 & H3). eexists. apply TransferCommodity_Ok; [done|].
    exists c, blob. repeat split; done.
  - intros Hfail. eapply TransferCommodity_fails; eauto.
Qed.

Lemma TransferCommodity_succeeds_iff_witness :
  (exists l', TransferCommodity Scenario.transfer_by_A Scenario.id "OrgB" Scenario.l3
              = (Ok (), l'))
  <-> (is_Some (decode_Agreement Scenario.T1)
       /\ CHECK1 "OrgA" Scenario.crate = true
       /\ CHECK2 Scenario.l3 Scenario.crate "OrgB" = true
       /\ CHECK3 Scenario.l3 Scenario.crate "OrgB" Scenario.T1 = true).
Proof.
  apply (TransferCommodity_succeeds_iff Scenario.transfer_by_A Scenario.id "OrgB"
           Scenario.l3 Scenario.crate Scenario.T1).
  - apply reachable_l3.
  - vm_compute. reflexivity.
  - vm_compute. reflexivity.
  - vm_compute. reflexivity.
  - vm_compute. eauto.
Defined.

(** C1, as stated, fails: OrgA and OrgB have agreed on a term that is no
    JSON text; the three checks hold, and the transfer that discloses the
    term returns an error. *)
Lemma TransferCommodity_checks_not_sufficient :
  reachable Scenario.m3
  /\ world Scenario.m3 !! Scenario.id = Some (Commodity_doc Scenario.crate)
  /\ GetTransient Scenario.transfer_secret !! "Commodity_transferKey"
     = Some Scenario.secret
  /\ CHECK1 (clientMSPID Scenario.transfer_secret) Scenario.crate = true
  /\ CHECK2 Scenario.m3 Scenario.crate "OrgB" = true
  /\ CHECK3 Scenario.m3 Scenario.crate "OrgB" Scenario.secret = true
  /\ TransferCommodity Scenario.transfer_secret Scenario.id "OrgB" Scenario.m3
     = (Err (Wrapf "failed to unmarshal price JSON" ErrJSON), Scenario.m3).
Proof.
  assert (Hw : world Scenario.m3 !! Scenario.id = Some (Commodity_doc Scenario.crate))
    by (vm_compute; reflexivity).
  assert (Hb : GetTransient Scenario.transfer_secret !! "Commodity_transferKey"
               = Some Scenario.secret) by (vm_compute; reflexivity).
  split; [apply reachable_m3|]. do 2 (split; [assumption|]).
  do 3 (split; [vm_compute; reflexivity|]).
  rewrite (TransferCommodity_unfold _ _ _ _ _ _ Hw Hb).
  replace (decode_Agreement Scenario.secret) with (@None Agreement) by (vm_compute; reflexivity).
  reflexivity.
Qed.

(** C2.  On a ledger the contract has produced, after a successful
    [TransferCommodity commodityID recipientOrg] on a commodity [c]: the
    caller was the owner; the public record has ownerOrg = recipientOrg and
    source = the previous ownerOrg; the owner-side commitment in the former
    owner's partition, the recipient-side commitment in the recipient's
    partition and the former owner's attribute blob are absent; the
    authorization policy of the commodity is exactly {recipientOrg}; and the
    writes of the call are those of [transfer_writes], of which exactly two
    put a receipt: one under the getter key in the recipient's partition,
    one under the putter key in the former owner's partition, where they
    are found afterwards. *)
Theorem TransferCommodity_postcondition ctx commodityID recipientOrg l l' c :
  reachable l ->
  world l !! commodityID = Some (Commodity_doc c) ->
  TransferCommodity ctx commodityID recipientOrg l = (Ok (), l') ->
  clientMSPID ctx = OwnerOrg c
  /\ (exists c', world l' !! commodityID = Some (Commodity_doc c')
                 /\ OwnerOrg c' = recipientOrg /\ Source c' = OwnerOrg c)
  /\ private l' !! (buildCollectionName (OwnerOrg c), forTransferKey commodityID) = None
  /\ private l' !! (buildCollectionName recipientOrg, forAcquireKey commodityID) = None
  /\ private l' !! (buildCollectionName (OwnerOrg c), commodityID) = None
  /\ policies l' !! commodityID = Some {[ recipientOrg ]}
  /\ exists r,
       writes l' = (writes l ++ transfer_writes ctx c (OwnerOrg c) recipientOrg r)%list
       /\ private l' !! (buildCollectionName recipientOrg,
                         getReceiptKey commodityID (GetTxID ctx)) = Some r
       /\ private l' !! (buildCollectionName (OwnerOrg c),
                         putReceiptKey (GetTxID ctx) commodityID) = Some r.
Proof.
  intros Hr Hw H. pose proof (reachable_consistent _ Hr) as Hc.
  apply TransferCommodity_Ok in H; [|done].
  destruct H as (c' & blob & Hw' & _ & _ & H1 & _ & _ & _ & _ & ->).
  assert (c' = c) as -> by (apply Commodity_doc_inj; congruence).
  destruct (Hc _ _ Hw) as (c0 & Heq & Hid & Hv). apply Commodity_doc_inj in Heq as <-.
  rewrite <- Hid in Hv |- *.
  destruct (after_transfer_private ctx c (OwnerOrg c) recipientOrg "{}" l Hv)
    as (P1 & P2 & P3 & P4 & P5).
  split; [by apply String.eqb_eq|].
  split; [exists (handed_over c recipientOrg); cbn; by rewrite lookup_insert_eq|].
  do 3 (split; [assumption|]).
  split.
  { cbn. rewrite lookup_insert_eq. f_equal. apply (right_id_L ∅ (∪)). }
  exists "{}". done.
Qed.

Lemma TransferCommodity_postcondition_witness :
  clientMSPID Scenario.transfer_by_A = OwnerOrg Scenario.crate
  /\ (exists c', world Scenario.l4 !! Scenario.id = Some (Commodity_doc c')
                 /\ OwnerOrg c' = "OrgB" /\ Source c' = OwnerOrg Scenario.crate)
  /\ private Scenario.l4
       !! (buildCollectionName (OwnerOrg Scenario.crate), forTransferKey Scenario.id) = None
  /\ private Scenario.l4 !! (buildCollectionName "OrgB", forAcquireKey Scenario.id) = None
  /\ private Scenario.l4 !! (buildCollectionName (OwnerOrg Scenario.crate), Scenario.id) = None
  /\ policies Scenario.l4 !! Scenario.id = Some {[ "OrgB" ]}
  /\ exists r,
       writes Scenario.l4
       = (writes Scenario.l3
          ++ transfer_writes Scenario.transfer_by_A Scenario.crate
               (OwnerOrg Scenario.crate) "OrgB" r)%list
       /\ private Scenario.l4
            !! (buildCollectionName "OrgB",
                getReceiptKey Scenario.id (GetTxID Scenario.transfer_by_A)) = Some r
       /\ private Scenario.l4
            !! (buildCollectionName (OwnerOrg Scenario.crate),
                putReceiptKey (GetTxID Scenario.transfer_by_A) Scenario.id) = Some r.
Proof.
  apply (TransferCommodity_postcondition Scenario.transfer_by_A Scenario.id "OrgB"
           Scenario.l3 Scenario.l4 Scenario.crate).
  - apply reachable_l3.
  - vm_compute. reflexivity.
  - apply committed_TransferCommodity. vm_compute. reflexivity.
Defined.

(** C10.  On a ledger the contract has produced, a successful
    [TransferCommodity] leaves the id, target, publicDescription and
    detailedInformation of the public record (and its objectType) as they
    were. *)
Theorem TransferCommodity_frame ctx commodityID recipientOrg l l' c :
  reachable l ->
  world l !! commodityID = Some (Commodity_doc c) ->
  TransferCommodity ctx commodityID recipientOrg l = (Ok (), l') ->
  exists c', world l' !! commodityID = Some (Commodity_doc c')
    /\ ID c' = ID c
    /\ Target c' = Target c
    /\ PublicDescription c' = PublicDescription c
    /\ DetailedInformation c' = DetailedInformation c
    /\ ObjectType c' = ObjectType c.
Proof.
  intros Hr Hw H. pose proof (reachable_consistent _ Hr) as Hc.
  apply TransferCommodity_Ok in H; [|done].
  destruct H as (c' & blob & Hw' & _ & _ & _ & _ & _ & _ & _ & ->).
  assert (c' = c) as -> by (apply Commodity_doc_inj; congruence).
  destruct (Hc _ _ Hw) as (c0 & Heq & Hid & Hv). apply Commodity_doc_inj in Heq as <-.
  exists (handed_over c recipientOrg). cbn. rewrite Hid, lookup_insert_eq. done.
Qed.

Lemma TransferCommodity_frame_witness :
  exists c', world Scenario.l4 !! Scenario.id = Some (Commodity_doc c')
    /\ ID c' = ID Scenario.crate
    /\ Target c' = Target Scenario.crate
    /\ PublicDescription c' = PublicDescription Scenario.crate
    /\ DetailedInformation c' = DetailedInformation Scenario.crate
    /\ ObjectType c' = ObjectType Scenario.crate.
Proof.
  apply (TransferCommodity_frame Scenario.transfer_by_A Scenario.id "OrgB"
           Scenario.l3 Scenario.l4 Scenario.crate).
  - apply reachable_l3.
  - vm_compute. reflexivity.
  - apply committed_TransferCommodity. vm_compute. reflexivity.
Defined.

(** C3 (the code departs from it).  [json.Marshal] encodes no field of
    [receipt], since both have lower-case names: whatever the transfer key
    and the timestamp, the bytes of a receipt are an empty object.  In the
    scenario the disclosed term carries the transfer key 1234 and the
    transaction has a valid timestamp, and both receipts of the transfer are
    [{}]. *)
Theorem receipt_holds_no_value :
  (forall r : receipt, GoJSON.Marshal (receipt_fields r) = Some "{}")
  /\ TransferKey <$> decode_Agreement Scenario.T1 = Some 1234
  /\ is_Some (Time.ptypes_Timestamp (GetTxTimestamp Scenario.transfer_by_A))
  /\ invoke Scenario.transfer_by_A (InvTransferCommodity Scenario.id "OrgB") Scenario.l3
     = (None, Scenario.l4)
  /\ private Scenario.l4
       !! (buildCollectionName "OrgB", getReceiptKey Scenario.id "tx4") = Some "{}"
  /\ private Scenario.l4
       !! (buildCollectionName "OrgA", putReceiptKey "tx4" Scenario.id) = Some "{}".
Proof.
  split; [intros r; reflexivity|].
  split; [vm_compute; reflexivity|].
  split; [vm_compute; eauto|].
  split.
  { apply committed_invoke. vm_compute. reflexivity. }
  split; vm_compute; reflexivity.
Qed.

(** C4.  For every attribute blob [B] in the transient map of a client
    that calls on a peer of its own organization, and every ledger (the id
    may already be present: nothing is looked up before the record is
    written), [CreateAsset] returns the hex-encoded SHA-256 digest of [B],
    and [ReadCommodity] of that id then yields a record whose id is that
    digest and whose ownerOrg and source are the organization of the
    caller. *)
Theorem CreateAsset_content_address ctx target publicDescription l B :
  GetTransient ctx !! "commodity_properties" = Some B ->
  peerMSPID ctx <> "" ->
  clientMSPID ctx = peerMSPID ctx ->
  exists l',
    CreateAsset ctx target publicDescription l
    = (Ok (Bytes.hex_EncodeToString (SHA256.Sum256 B)), l')
    /\ forall ctx', exists c,
         ReadCommodity ctx' (Bytes.hex_EncodeToString (SHA256.Sum256 B)) l'
         = (Ok (Some c), l')
         /\ ID c = Bytes.hex_EncodeToString (SHA256.Sum256 B)
         /\ OwnerOrg c = clientMSPID ctx
         /\ Source c = clientMSPID ctx.
Proof.
  intros Hb Hp Hcp. exists (after_create ctx target publicDescription B l). split.
  - apply CreateAsset_Ok. exists B. done.
  - intros ctx'. exists (created ctx target publicDescription B). split; [|done].
    apply ReadCommodity_doc. cbn. by rewrite lookup_insert_eq.
Qed.

Lemma CreateAsset_content_address_witness :
  exists l',
    CreateAsset Scenario.create_by_B "OrgC" "the same crate" Scenario.l1
    = (Ok (Bytes.hex_EncodeToString (SHA256.Sum256 Scenario.X)), l')
    /\ forall ctx', exists c,
         ReadCommodity ctx' (Bytes.hex_EncodeToString (SHA256.Sum256 Scenario.X)) l'
         = (Ok (Some c), l')
         /\ ID c = Bytes.hex_EncodeToString (SHA256.Sum256 Scenario.X)
         /\ OwnerOrg c = clientMSPID Scenario.create_by_B
         /\ Source c = clientMSPID Scenario.create_by_B.
Proof.
  apply (CreateAsset_content_address Scenario.create_by_B "OrgC" "the same crate"
           Scenario.l1 Scenario.X).
  - vm_compute. reflexivity.
  - vm_compute. discriminate.
  - reflexivity.
Defined.

Lemma VerifyCommodityProperties_doc ctx id l c blob h :
  world l !! id = Some (Commodity_doc c) ->
  GetTransient ctx !! "Commodity_properties" = Some blob ->
  digestOf l (buildCollectionName (OwnerOrg c)) id = Some h ->
  VerifyCommodityProperties ctx id l =
  if negb (String.eqb h (SHA256.Sum256 blob))
  then (Err (ErrPropertiesHashMismatch (SHA256.Sum256 blob) blob h), l)
  else if negb (String.eqb (Bytes.hex_EncodeToString h) id)
  then (Err (ErrAltered (SHA256.Sum256 blob) blob h id), l)
  else (Ok true, l).
Proof.
  intros Hw Hb Hh. unfold VerifyCommodityProperties; unfold_monad.
  rewrite Hb. cbn. rewrite Hw, decode_Commodity_doc. cbn.
  unfold digestOf in Hh. rewrite Hh. cbn.
  destruct (String.eqb h (SHA256.Sum256 blob)); cbn; [|reflexivity].
  destruct (String.eqb (Bytes.hex_EncodeToString h) id); reflexivity.
Qed.

(** C5.  [VerifyCommodityProperties] called with the blob a commodity was
    just created from returns true; called on a commodity with a blob whose
    digest differs from the digest of the owner's attribute record it fails
    with the digest-mismatch error; called with a blob whose digest is that
    digest, while the hex form of the digest is not the commodity id, it
    fails with the other, id-mismatch error.  (A Go result [(false, err)]
    is [Err err].) *)
Theorem VerifyCommodityProperties_round_trip :
  (forall ctx target publicDescription l B commodityID l' ctx',
      GetTransient ctx !! "commodity_properties" = Some B ->
      CreateAsset ctx target publicDescription l = (Ok commodityID, l') ->
      GetTransient ctx' !! "Commodity_properties" = Some B ->
      VerifyCommodityProperties ctx' commodityID l' = (Ok true, l'))
  /\ (forall ctx commodityID l c blob h,
      world l !! commodityID = Some (Commodity_doc c) ->
      GetTransient ctx !! "Commodity_properties" = Some blob ->
      digestOf l (buildCollectionName (OwnerOrg c)) commodityID = Some h ->
      SHA256.Sum256 blob <> h ->
      VerifyCommodityProperties ctx commodityID l
      = (Err (ErrPropertiesHashMismatch (SHA256.Sum256 blob) blob h), l))
  /\ (forall ctx commodityID l c blob h,
      world l !! commodityID = Some (Commodity_doc c) ->
      GetTransient ctx !! "Commodity_properties" = Some blob ->
      digestOf l (buildCollectionName (OwnerOrg c)) commodityID = Some h ->
      SHA256.Sum256 blob = h ->
      Bytes.hex_EncodeToString h <> commodityID ->
      VerifyCommodityProperties ctx commodityID l
      = (Err (ErrAltered (SHA256.Sum256 blob) blob h commodityID), l)
        /\ ErrAltered (SHA256.Sum256 blob) blob h commodityID
           <> ErrPropertiesHashMismatch (SHA256.Sum256 blob) blob h).
Proof.
  split; [|split].
  - intros ctx target d l B id l' ctx' Hb Hcreate Hb'.
    apply CreateAsset_Ok in Hcreate as (B' & HB' & _ & _ & -> & ->).
    assert (B' = B) as -> by congruence.
    rewrite (VerifyCommodityProperties_doc ctx' _ _ (created ctx target d B) B
               (SHA256.Sum256 B)); cbn.
    + by rewrite !String.eqb_refl.
    + by rewrite lookup_insert_eq.
    + done.
    + unfold digestOf. cbn. by rewrite lookup_insert_eq.
  - intros ctx id l c blob h Hw Hb Hh Hne.
    rewrite (VerifyCommodityProperties_doc _ _ _ _ _ _ Hw Hb Hh).
    destruct (String.eqb_spec h (SHA256.Sum256 blob)); [congruence | reflexivity].
  - intros ctx id l c blob h Hw Hb Hh Heq Hne. split; [|discriminate].
    rewrite (VerifyCommodityProperties_doc _ _ _ _ _ _ Hw Hb Hh).
    rewrite Heq, String.eqb_refl. cbn.
    destruct (String.eqb_spec (Bytes.hex_EncodeToString h) id); [congruence | reflexivity].
Qed.

Lemma VerifyCommodityProperties_round_trip_witness :
  VerifyCommodityProperties Scenario.verify_X Scenario.id Scenario.l1
  = (Ok true, Scenario.l1)
  /\ VerifyCommodityProperties Scenario.verify_Y Scenario.id Scenario.l1
     = (Err (ErrPropertiesHashMismatch (SHA256.Sum256 Scenario.Y) Scenario.Y
               (SHA256.Sum256 Scenario.X)), Scenario.l1)
  /\ VerifyCommodityProperties Scenario.verify_Y Scenario.id Scenario.k2
     = (Err (ErrAltered (SHA256.Sum256 Scenario.Y) Scenario.Y
               (SHA256.Sum256 Scenario.Y) Scenario.id), Scenario.k2).
Proof.
  destruct VerifyCommodityProperties_round_trip as (H1 & H2 & H3).
  split; [|split].
  - apply (H1 Scenario.create_by_A "OrgB" "a crate" genesis Scenario.X).
    + vm_compute. reflexivity.
    + apply committed_CreateAsset; [vm_compute; reflexivity | vm_compute; discriminate | reflexivity].
    + vm_compute. reflexivity.
  - apply (H2 Scenario.verify_Y Scenario.id Scenario.l1 Scenario.crate).
    + vm_compute. reflexivity.
    + vm_compute. reflexivity.
    + vm_compute. reflexivity.
    + vm_compute. discriminate.
  - apply (H3 Scenario.verify_Y Scenario.id Scenario.k2 Scenario.crate).
    + vm_compute. reflexivity.
    + vm_compute. reflexivity.
    + vm_compute. reflexivity.
    + reflexivity.
    + vm_compute. discriminate.
Defined.

(** C6 (amended).  [buildCollectionName] maps every organization id
    [orgID] to ["_implicit_org_<orgID>"], with a leading underscore, and
    maps different ids to different names. *)
Theorem buildCollectionName_spec :
  (forall orgID, buildCollectionName orgID = "_implicit_org_" +:+ orgID)
  /\ (forall a b, buildCollectionName a = buildCollectionName b -> a = b).
Proof.
  split; [reflexivity|]. intros a b H. unfold buildCollectionName in H. cbn in H.
  by injection H.
Qed.

Lemma buildCollectionName_spec_witness :
  buildCollectionName "Org1MSP" = "_implicit_org_Org1MSP" /\ "Org1MSP" = "Org1MSP".
Proof.
  split.
  - apply (proj1 buildCollectionName_spec "Org1MSP").
  - apply (proj2 buildCollectionName_spec "Org1MSP" "Org1MSP"). reflexivity.
Defined.

(** C6, as stated, fails: the name of the partition of Org1MSP is not
    ["implicit_org_Org1MSP"]. *)
Lemma buildCollectionName_has_underscore :
  buildCollectionName "Org1MSP" <> "implicit_org_" +:+ "Org1MSP".
Proof. vm_compute. discriminate. Qed.

(** C7.  For every commodity [ReadCommodity] returns and every caller
    whose organization is not its ownerOrg, [ChangePublicDescription]
    returns the error "a client from ... cannot update the description of a
    commodity owned by ...", an authorization error, and leaves the ledger
    as it was, its list of writes included. *)
Theorem ChangePublicDescription_non_owner ctx commodityID newDescription l c :
  ReadCommodity ctx commodityID l = (Ok (Some c), l) ->
  clientMSPID ctx <> OwnerOrg c ->
  ChangePublicDescription ctx commodityID newDescription l
  = (Err (ErrCannotUpdateDescription (clientMSPID ctx) (OwnerOrg c)), l)
  /\ error_kind (ErrCannotUpdateDescription (clientMSPID ctx) (OwnerOrg c))
     = Some AuthorizationError.
Proof.
  intros Hread Hne. split; [|reflexivity].
  unfold ChangePublicDescription, getClientOrgID.
  unfold bind at 1. unfold ret at 1. unfold bind at 1. unfold wrapf. rewrite Hread.
  unfold bind, deref, orError, ret, throw.
  destruct (String.eqb_spec (clientMSPID ctx) (OwnerOrg c)); [congruence | reflexivity].
Qed.

Lemma ChangePublicDescription_non_owner_witness :
  ChangePublicDescription Scenario.describe_by_B Scenario.id "mine" Scenario.l1
  = (Err (ErrCannotUpdateDescription (clientMSPID Scenario.describe_by_B)
            (OwnerOrg Scenario.crate)), Scenario.l1)
  /\ error_kind (ErrCannotUpdateDescription (clientMSPID Scenario.describe_by_B)
                   (OwnerOrg Scenario.crate))
     = Some AuthorizationError.
Proof.
  apply (ChangePublicDescription_non_owner Scenario.describe_by_B Scenario.id "mine"
           Scenario.l1 Scenario.crate).
  - apply ReadCommodity_doc. vm_compute. reflexivity.
  - vm_compute. discriminate.
Defined.




(** C9 (amended).  In the scenario (OrgA creates a commodity from [X],
    agrees to put it with [T1], OrgB agrees to get it with [X] and [T1],
    OrgA transfers it to OrgB disclosing [T1]) every step is committed, the
    id is the hex form of the SHA-256 digest of [X], the record read
    afterwards is owned by OrgB, and a second transfer by OrgA that reuses
    [T1] fails at CHECK1, with the authorization error "a client from OrgA
    cannot transfer a commodity owned by OrgB", leaving the ledger as it
    was. *)
Theorem second_transfer_fails_authorization :
  invoke Scenario.create_by_A (InvCreateAsset "OrgB" "a crate") genesis
  = (None, Scenario.l1)
  /\ CreateAsset Scenario.create_by_A "OrgB" "a crate" genesis
     = (Ok (Bytes.hex_EncodeToString (SHA256.Sum256 Scenario.X)), Scenario.l1)
  /\ invoke Scenario.put_by_A (InvAgreeToPut Scenario.id) Scenario.l1
     = (None, Scenario.l2)
  /\ invoke Scenario.get_by_B (InvAgreeToGet Scenario.id) Scenario.l2
     = (None, Scenario.l3)
  /\ invoke Scenario.transfer_by_A (InvTransferCommodity Scenario.id "OrgB") Scenario.l3
     = (None, Scenario.l4)
  /\ (exists c, ReadCommodity Scenario.transfer_again Scenario.id Scenario.l4
                = (Ok (Some c), Scenario.l4) /\ OwnerOrg c = "OrgB")
  /\ TransferCommodity Scenario.transfer_again Scenario.id "OrgB" Scenario.l4
     = (Err (Wrapf "failed transfer verification" (ErrCannotTransfer "OrgA" "OrgB")),
        Scenario.l4)
  /\ error_kind (Wrapf "failed transfer verification" (ErrCannotTransfer "OrgA" "OrgB"))
     = Some AuthorizationError.
Proof.
  split; [apply committed_invoke; vm_compute; reflexivity|].
  split; [apply committed_CreateAsset;
          [vm_compute; reflexivity | vm_compute; discriminate | reflexivity]|].
  do 3 (split; [apply committed_invoke; vm_compute; reflexivity|]).
  split.
  { exists (handed_over Scenario.crate "OrgB"). split; [|reflexivity].
    apply ReadCommodity_doc. vm_compute. reflexivity. }
  split; [|reflexivity].
  apply (failed_TransferCommodity _ _ _ _ (handed_over Scenario.crate "OrgB") Scenario.T1).
  - vm_compute. reflexivity.
  - vm_compute. reflexivity.
  - vm_compute. eauto.
  - vm_compute. reflexivity.
Qed.

(** C9, as stated, fails: the second transfer does not fail with a
    not-found error for the deleted commitments; its error is the
    authorization error of CHECK1. *)
Lemma second_transfer_not_NotFound :
  reachable Scenario.l4
  /\ exists e,
       TransferCommodity Scenario.transfer_again Scenario.id "OrgB" Scenario.l4
       = (Err e, Scenario.l4)
       /\ error_kind e = Some AuthorizationError
       /\ error_kind e <> Some NotFoundError.
Proof.
  split; [apply reachable_l4|].
  exists (Wrapf "failed transfer verification" (ErrCannotTransfer "OrgA" "OrgB")).
  split; [|split; [reflexivity | discriminate]].
  apply (failed_TransferCommodity _ _ _ _ (handed_over Scenario.crate "OrgB") Scenario.T1).
  - vm_compute. reflexivity.
  - vm_compute. reflexivity.
  - vm_compute. eauto.
  - vm_compute. reflexivity.
Qed.

(* ===================================================================== *)
(** ** Further properties of the entry points *)
(* ===================================================================== *)

Lemma verifyClientOrgMatchesPeerOrg_ok ctx l :
  peerMSPID ctx <> "" -> clientMSPID ctx = peerMSPID ctx ->
  verifyClientOrgMatchesPeerOrg ctx (clientMSPID ctx) l = (Ok (), l).
Proof.
  intros Hp Hcp. unfold verifyClientOrgMatchesPeerOrg, bind, ret, throw.
  destruct (String.eqb_spec (peerMSPID ctx) ""); [done|].
  destruct (String.eqb_spec (clientMSPID ctx) (peerMSPID ctx)); [reflexivity | done].
Qed.

Lemma verifyClientOrgMatchesPeerOrg_other ctx l :
  peerMSPID ctx <> "" -> clientMSPID ctx <> peerMSPID ctx ->
  verifyClientOrgMatchesPeerOrg ctx (clientMSPID ctx) l
  = (Err (ErrClientNotPeerOrg (clientMSPID ctx) (peerMSPID ctx)), l).
Proof.
  intros Hp Hcp. unfold verifyClientOrgMatchesPeerOrg, bind, ret, throw.
  destruct (String.eqb_spec (peerMSPID ctx) ""); [done|].
  destruct (String.eqb_spec (clientMSPID ctx) (peerMSPID ctx)); [done | reflexivity].
Qed.

Lemma agreeToTransfer_run ctx id t tk l :
  Shim.validateCompositeKeyAttribute t = true ->
  Shim.validateCompositeKeyAttribute id = true ->
  GetTransient ctx !! "commodity_transferKey" = Some tk ->
  agreeToTransfer ctx id t l
  = Stub.PutPrivateData (buildCollectionName (clientMSPID ctx)) (compositeKey t [id]) tk l.
Proof.
  intros Ht Hid Hk. unfold agreeToTransfer; unfold_monad. rewrite Hk. cbn.
  rewrite CreateCompositeKey_1, Hid by done. reflexivity.
Qed.

Lemma getTransferKey_run ctx id t l :
  peerMSPID ctx <> "" -> clientMSPID ctx = peerMSPID ctx ->
  Shim.validateCompositeKeyAttribute t = true ->
  Shim.validateCompositeKeyAttribute id = true ->
  getTransferKey ctx id t l
  = match private l !! (buildCollectionName (clientMSPID ctx), compositeKey t [id]) with
    | Some v => (Ok v, l)
    | None => (Err (ErrKeyDoesNotExist id), l)
    end.
Proof.
  intros Hp Hcp Ht Hid. unfold getTransferKey, getClientImplicitCollectionNameAndVerifyClientOrg.
  unfold bind at 1. unfold bind at 1. unfold getClientOrgID at 1. unfold ret at 1.
  unfold bind at 1. rewrite verifyClientOrgMatchesPeerOrg_ok by done.
  unfold_monad. rewrite CreateCompositeKey_1, Hid by done. cbn.
  destruct (private l !! _); reflexivity.
Qed.

(** X1.  When the owner of a commodity, on a peer of its own organization,
    calls [AgreeToPut] with a transfer term in the transient map, the call
    succeeds with a single write: the term, byte for byte, under the
    owner-side key of the commodity in the owner's collection; the public
    state and the policies are untouched, the digest of the stored record is
    the SHA-256 of the term, and [GetCommodityUpstreamKey] called by the
    owner returns the term. *)
Theorem AgreeToPut_then_GetCommodityUpstreamKey ctx commodityID l c term :
  ReadCommodity ctx commodityID l = (Ok (Some c), l) ->
  peerMSPID ctx <> "" ->
  clientMSPID ctx = peerMSPID ctx ->
  clientMSPID ctx = OwnerOrg c ->
  GetTransient ctx !! "commodity_transferKey" = Some term ->
  Shim.validateCompositeKeyAttribute commodityID = true ->
  exists l',
    AgreeToPut ctx commodityID l = (Ok (), l')
    /\ writes l' = (writes l ++ [WPutPrivateData (buildCollectionName (OwnerOrg c))
                                   (forTransferKey commodityID) term])%list
    /\ world l' = world l /\ policies l' = policies l
    /\ digestOf l' (buildCollectionName (OwnerOrg c)) (forTransferKey commodityID)
       = Some (SHA256.Sum256 term)
    /\ forall ctx', clientMSPID ctx' = OwnerOrg c -> peerMSPID ctx' = OwnerOrg c ->
         GetCommodityUpstreamKey ctx' commodityID l' = (Ok term, l').
Proof.
  intros Hread Hp Hcp Hown Hk Hid.
  eexists. split.
  { unfold AgreeToPut. unfold bind at 1. rewrite Hread.
    unfold bind at 1. unfold getClientOrgID at 1. unfold ret at 1.
    unfold bind at 1. rewrite verifyClientOrgMatchesPeerOrg_ok by done.
    unfold bind, deref, orError, ret.
    rewrite Hown, String.eqb_refl. cbn [negb].
    rewrite (agreeToTransfer_run ctx commodityID typeCommodityForTransfer term) by (reflexivity || done).
    unfold Stub.PutPrivateData. rewrite Hown. reflexivity. }
  cbn. repeat split.
  - unfold digestOf. cbn. by rewrite lookup_insert_eq.
  - intros ctx' Hc' Hp'. unfold GetCommodityUpstreamKey.
    rewrite getTransferKey_run; try (reflexivity || done).
    + rewrite Hc'. cbn. unfold forTransferKey. by rewrite lookup_insert_eq.
    + rewrite Hp', <- Hown, Hcp. done.
    + congruence.
Qed.

(** X2.  [AgreeToPut] on a peer of the caller's organization fails and
    writes nothing when the commodity does not exist ("... does not
    exist"), when the caller is not the owner ("a client from ... cannot
    update a commodity owned by ..."), and when the owner supplies no
    "commodity_transferKey" transient field. *)
Theorem AgreeToPut_rejects ctx commodityID l :
  peerMSPID ctx <> "" ->
  clientMSPID ctx = peerMSPID ctx ->
  (world l !! commodityID = None ->
   AgreeToPut ctx commodityID l = (Err (ErrDoesNotExist commodityID), l))
  /\ (forall c, ReadCommodity ctx commodityID l = (Ok (Some c), l) ->
      clientMSPID ctx <> OwnerOrg c ->
      AgreeToPut ctx commodityID l
      = (Err (ErrCannotUpdate (clientMSPID ctx) (OwnerOrg c)), l))
  /\ (forall c, ReadCommodity ctx commodityID l = (Ok (Some c), l) ->
      clientMSPID ctx = OwnerOrg c ->
      GetTransient ctx !! "commodity_transferKey" = None ->
      AgreeToPut ctx commodityID l
      = (Err (ErrTransientKeyNotFound "commodity_transferKey"), l)).
Proof.
  intros Hp Hcp. split; [|split].
  - intros Hw. unfold AgreeToPut, ReadCommodity, Stub.GetState, bind. rewrite Hw. reflexivity.
  - intros c Hread Hne. unfold AgreeToPut. unfold bind at 1. rewrite Hread.
    unfold bind at 1. unfold getClientOrgID at 1. unfold ret at 1.
    unfold bind at 1. rewrite verifyClientOrgMatchesPeerOrg_ok by done.
    unfold bind, deref, orError, ret, throw.
    destruct (String.eqb_spec (clientMSPID ctx) (OwnerOrg c)); [done | reflexivity].
  - intros c Hread Hown Hk. unfold AgreeToPut. unfold bind at 1. rewrite Hread.
    unfold bind at 1. unfold getClientOrgID at 1. unfold ret at 1.
    unfold bind at 1. rewrite verifyClientOrgMatchesPeerOrg_ok by done.
    unfold bind, deref, orError, ret, throw.
    destruct (String.eqb_spec (clientMSPID ctx) (OwnerOrg c)); [|done]. cbn [negb].
    unfold agreeToTransfer; unfold_monad. rewrite Hk. reflexivity.
Qed.



(** X5.  Every failure of [CreateAsset] happens before its first write and
    is one of three: the "commodity_properties" transient field is missing,
    the MSP id of the peer is not set, or the client is not of the peer's
    organization; the ledger is as it was. *)
Theorem CreateAsset_fails_before_writing ctx target publicDescription l e l' :
  CreateAsset ctx target publicDescription l = (Err e, l') ->
  l' = l
  /\ ((GetTransient ctx !! "commodity_properties" = None
       /\ e = ErrTransientKeyNotFound "commodity_properties")
      \/ (peerMSPID ctx = ""
          /\ e = Wrapf "failed getting peer's orgID" ErrPeerMSPIDNotSet)
      \/ (clientMSPID ctx <> peerMSPID ctx
          /\ e = ErrClientNotPeerOrg (clientMSPID ctx) (peerMSPID ctx))).
Proof.
  unfold CreateAsset; unfold_monad.
  destruct (GetTransient ctx !! "commodity_properties") as [B|]; cbn.
  2:{ intros [= <- <-]. auto. }
  destruct (String.eqb_spec (peerMSPID ctx) ""); cbn.
  { intros [= <- <-]. auto. }
  destruct (String.eqb_spec (clientMSPID ctx) (peerMSPID ctx)); cbn.
  2:{ intros [= <- <-]. auto. }
  rewrite MarshalDocument_Commodity. cbn. intros [=].
Qed.


(** X6.  A client that calls on a peer of another organization is
    refused, whatever the ledger holds and before anything is read or
    written, by [AgreeToGet], [GetCommodityPrivateProperties],
    [GetCommodityUpstreamKey], [GetCommodityDownstreamKey],
    [QueryCommodityPutAgreements] and [QueryCommodityGetAgreements]. *)
Theorem private_access_requires_own_peer ctx i l :
  checks_peer_first i = true ->
  peerMSPID ctx <> "" ->
  clientMSPID ctx <> peerMSPID ctx ->
  invoke ctx i l = (Some (ErrClientNotPeerOrg (clientMSPID ctx) (peerMSPID ctx)), l).
Proof.
  intros Hi Hp Hcp.
  destruct i; try discriminate; cbn [invoke];
    unfold AgreeToGet, GetCommodityPrivateProperties, GetCommodityUpstreamKey,
      GetCommodityDownstreamKey, getTransferKey, QueryCommodityPutAgreements,
      QueryCommodityGetAgreements, queryAgreementsByType,
      getClientImplicitCollectionNameAndVerifyClientOrg;
    repeat (unfold bind at 1); unfold getClientOrgID, ret at 1;
    rewrite verifyClientOrgMatchesPeerOrg_other by done; reflexivity.
Qed.

(** X7.  The nine entry points that are queries ([ReadCommodity],
    [VerifyCommodityProperties], [GetCommodityHashId], the private getters,
    the agreement queries and the history query) leave the ledger exactly
    as it was, whether they succeed or fail. *)
Theorem queries_write_nothing ctx i l :
  read_only i = true -> (invoke ctx i l).2 = l.
Proof.
  intros Hi. destruct (invoke ctx i l) as [e l'] eqn:H.
  by apply read_only_frame in H.
Qed.

(** X8.  After [CreateAsset] from a blob, [GetCommodityHashId] called with
    the same blob returns the id [CreateAsset] returned, and
    [GetCommodityPrivateProperties] called by the creator returns the blob;
    neither changes the ledger. *)
Theorem GetCommodityHashId_after_CreateAsset ctx target publicDescription l B id l' ctx' :
  GetTransient ctx !! "commodity_properties" = Some B ->
  CreateAsset ctx target publicDescription l = (Ok id, l') ->
  GetTransient ctx' !! "Commodity_properties" = Some B ->
  GetCommodityHashId ctx' l' = (Ok id, l')
  /\ (forall ctx'', clientMSPID ctx'' = clientMSPID ctx ->
        peerMSPID ctx'' = peerMSPID ctx ->
        GetCommodityPrivateProperties ctx'' id l' = (Ok B, l')).
Proof.
  intros HB Hcreate HB'.
  apply CreateAsset_Ok in Hcreate as (B0 & HB0 & Hp & Hcp & -> & ->).
  assert (B0 = B) as -> by congruence.
  split.
  - unfold GetCommodityHashId. unfold bind at 1. rewrite HB'. unfold orError at 1, ret at 1.
    unfold bind at 1. unfold wrapf at 1.
    rewrite (ReadCommodity_doc ctx' _ (created ctx target publicDescription B)).
    + unfold bind, deref, orError, ret. cbn. by rewrite String.eqb_refl.
    + cbn. by rewrite lookup_insert_eq.
  - intros ctx'' Hc Hp'.
    unfold GetCommodityPrivateProperties, getClientImplicitCollectionNameAndVerifyClientOrg.
    unfold bind at 1. unfold bind at 1. unfold getClientOrgID at 1. unfold ret at 1.
    unfold bind at 1. rewrite verifyClientOrgMatchesPeerOrg_ok by congruence.
    unfold_monad. cbn. rewrite Hc. by rewrite lookup_insert_eq.
Qed.



Lemma ChangePublicDescription_others ctx id d l r l' :
  ChangePublicDescription ctx id d l = (r, l') ->
  private l' = private l /\ policies l' = policies l.
Proof.
  unfold ChangePublicDescription; unfold_monad. intros H. crunch; done.
Qed.

Lemma AgreeToPut_others ctx id l r l' :
  AgreeToPut ctx id l = (r, l') ->
  policies l' = policies l
  /\ forall coll k, coll <> buildCollectionName (clientMSPID ctx) ->
       private l' !! (coll, k) = private l !! (coll, k).
Proof.
  unfold AgreeToPut, agreeToTransfer; unfold_monad. intros H.
  crunch; (split; [done|]); intros coll k Hne; try done;
    rewrite lookup_insert_ne; congruence.
Qed.

Lemma AgreeToGet_others ctx id l r l' :
  AgreeToGet ctx id l = (r, l') ->
  policies l' = policies l
  /\ forall coll k, coll <> buildCollectionName (clientMSPID ctx) ->
       private l' !! (coll, k) = private l !! (coll, k).
Proof.
  unfold AgreeToGet, agreeToTransfer; unfold_monad. intros H.
  crunch; (split; [done|]); intros coll k Hne; try done;
    rewrite ?lookup_insert_ne; congruence.
Qed.

(** X11.  Every entry point but [TransferCommodity] leaves the private
    collections of the organizations other than the caller's as they were,
    whether it succeeds or fails. *)
Theorem private_writes_stay_home ctx i l e l' :
  (forall c d, i <> InvTransferCommodity c d) ->
  invoke ctx i l = (e, l') ->
  forall coll k, coll <> buildCollectionName (clientMSPID ctx) ->
    private l' !! (coll, k) = private l !! (coll, k).
Proof.
  intros Hi H coll k Hne.
  destruct (read_only i) eqn:Hro.
  { by apply read_only_frame in H as ->. }
  destruct i; try discriminate; cbn [invoke] in H; unfold outcome in H.
  - destruct (CreateAsset _ _ _ _) as [[id|e0] l1] eqn:Hrun; simplify_eq.
    + apply CreateAsset_Ok in Hrun as (B & _ & _ & _ & -> & ->). cbn.
      rewrite lookup_insert_ne; congruence.
    + by apply CreateAsset_fails_before_writing in Hrun as [-> _].
  - destruct (ChangePublicDescription _ _ _ _) as [[[]|e0] l1] eqn:Hrun; simplify_eq;
      apply ChangePublicDescription_others in Hrun as [-> _]; done.
  - destruct (AgreeToPut _ _ _) as [[[]|e0] l1] eqn:Hrun; simplify_eq;
      apply AgreeToPut_others in Hrun as [_ Hrun]; auto.
  - destruct (AgreeToGet _ _ _) as [[[]|e0] l1] eqn:Hrun; simplify_eq;
      apply AgreeToGet_others in Hrun as [_ Hrun]; auto.
  - by destruct (Hi commodityID downStreamOrgID).
Qed.


Lemma invoke_policy ctx i l l' :
  consistent l -> policy_follows_owner l ->
  invoke ctx i l = (None, l') -> policy_follows_owner l'.
Proof.
  intros Hc Hpol H.
  destruct (read_only i) eqn:Hro.
  { by apply read_only_frame in H as ->. }
  destruct i; try discriminate; cbn [invoke] in H; unfold outcome in H.
  - destruct (CreateAsset _ _ _ _) as [[id|e0] l1] eqn:Hrun; simplify_eq.
    apply CreateAsset_Ok in Hrun as (B & _ & _ & _ & -> & ->).
    intros k c. cbn [world policies after_create].
    destruct (decide (ID (created ctx target publicDescription B) = k)) as [<-|Hne].
    + rewrite !lookup_insert_eq. intros Heq.
      assert (c = created ctx target publicDescription B) as ->
        by (apply Commodity_doc_inj; congruence).
      f_equal. apply (right_id_L ∅ (∪)).
    + rewrite !lookup_insert_ne by done. apply Hpol.
  - destruct (ChangePublicDescription _ _ _ _) as [[[]|e0] l1] eqn:Hrun; simplify_eq.
    pose proof (ChangePublicDescription_others _ _ _ _ _ _ Hrun) as [_ Hp].
    destruct (world l !! commodityID) as [j|] eqn:Hw.
    2:{ apply ChangePublicDescription_None in Hrun as [_ [? ?]]; [congruence|done]. }
    destruct (Hc _ _ Hw) as (c0 & -> & Hid & Hv).
    rewrite (ChangePublicDescription_doc _ _ _ _ _ Hw) in Hrun.
    destruct (String.eqb _ _); [|congruence].
    unfold Stub.PutState in Hrun. injection Hrun as <-.
    intros k c. cbn [world policies].
    destruct (decide (commodityID = k)) as [<-|Hne].
    + rewrite lookup_insert_eq. intros Heq.
      assert (c = described c0 newDescription) as ->
        by (apply Commodity_doc_inj; congruence).
      cbn. by apply Hpol.
    + rewrite lookup_insert_ne by done. apply Hpol.
  - destruct (AgreeToPut _ _ _) as [[[]|e0] l1] eqn:Hrun; simplify_eq.
    pose proof (AgreeToPut_world _ _ _ _ _ Hrun) as Hw.
    apply AgreeToPut_others in Hrun as [Hp _].
    intros k c. rewrite Hw, Hp. apply Hpol.
  - destruct (AgreeToGet _ _ _) as [[[]|e0] l1] eqn:Hrun; simplify_eq.
    pose proof (AgreeToGet_world _ _ _ _ _ Hrun) as Hw.
    apply AgreeToGet_others in Hrun as [Hp _].
    intros k c. rewrite Hw, Hp. apply Hpol.
  - destruct (TransferCommodity _ _ _ _) as [[[]|e0] l1] eqn:Hrun; simplify_eq.
    apply TransferCommodity_Ok in Hrun as (c0 & blob & Hw & _ & _ & _ & _ & _ & _ & _ & ->); [|done].
    intros k c. cbn [world policies after_transfer].
    destruct (decide (ID c0 = k)) as [<-|Hne].
    + rewrite !lookup_insert_eq. intros Heq.
      assert (c = handed_over c0 downStreamOrgID) as ->
        by (apply Commodity_doc_inj; congruence).
      f_equal. apply (right_id_L ∅ (∪)).
    + rewrite !lookup_insert_ne by done. apply Hpol.
Qed.

(** X12.  On every ledger the contract has produced, the state-based
    endorsement policy of each public record is exactly {ownerOrg} of that
    record. *)
Theorem policy_is_the_owner l k c :
  reachable l ->
  world l !! k = Some (Commodity_doc c) ->
  policies l !! k = Some {[ OwnerOrg c ]}.
Proof.
  intros Hr. revert k c. change (policy_follows_owner l).
  induction Hr as [|ctx i l l' Hr IH H].
  - intros k c. cbn. by rewrite lookup_empty.
  - eapply invoke_policy; eauto using reachable_consistent.
Qed.

Lemma buildCollectionName_inj a b :
  buildCollectionName a = buildCollectionName b -> a = b.
Proof. unfold buildCollectionName. cbn. by intros [=]. Qed.

(** X13.  After a successful transfer on a ledger the contract has
    produced: when the recipient is another organization, the recipient's
    attribute record has the digest the former owner's record had; when the
    owner transfers to itself, its only attribute record is deleted and
    [VerifyCommodityProperties] fails from then on with "commodity private
    properties hash does not exist". *)
Theorem attribute_digest_after_transfer ctx commodityID recipientOrg l l' c :
  reachable l ->
  world l !! commodityID = Some (Commodity_doc c) ->
  TransferCommodity ctx commodityID recipientOrg l = (Ok (), l') ->
  (recipientOrg <> OwnerOrg c ->
     is_Some (digestOf l (buildCollectionName (OwnerOrg c)) commodityID)
     /\ digestOf l' (buildCollectionName recipientOrg) commodityID
        = digestOf l (buildCollectionName (OwnerOrg c)) commodityID)
  /\ (recipientOrg = OwnerOrg c ->
      forall ctx' blob,
        GetTransient ctx' !! "Commodity_properties" = Some blob ->
        VerifyCommodityProperties ctx' commodityID l'
        = (Err (ErrPropertiesHashDoesNotExist commodityID), l')).
Proof.
  intros Hr Hw H. pose proof (reachable_consistent _ Hr) as Hc.
  apply TransferCommodity_Ok in H; [|done].
  destruct H as (c' & blob & Hw' & _ & _ & _ & H2 & _ & _ & _ & ->).
  assert (c' = c) as -> by (apply Commodity_doc_inj; congruence).
  destruct (Hc _ _ Hw) as (c0 & Heq & Hid & Hv). apply Commodity_doc_inj in Heq as <-.
  rewrite <- Hid in Hv |- *.
  split.
  - intros Hne. unfold CHECK2 in H2.
    destruct (digestOf l (buildCollectionName (OwnerOrg c)) (ID c)) as [a|] eqn:Ha; [|done].
    destruct (digestOf l (buildCollectionName recipientOrg) (ID c)) as [b|] eqn:Hb; [|done].
    apply String.eqb_eq in H2 as ->. split; [eauto|]. rewrite <- Hb.
    unfold digestOf. cbn [private after_transfer]. f_equal.
    pose proof (valid_not_compositeKey (ID c) typeCommodityGetReceipt [ID c; GetTxID ctx] Hv).
    pose proof (valid_not_compositeKey (ID c) typeCommodityPutReceipt [GetTxID ctx; ID c] Hv).
    pose proof (valid_not_compositeKey (ID c) typeCommodityKey [ID c] Hv).
    pose proof (valid_not_compositeKey (ID c) typeCommodityForTransfer [ID c] Hv).
    rewrite !lookup_insert_ne by (unfold putReceiptKey, getReceiptKey; congruence).
    rewrite !lookup_delete_ne; [done| | |]; unfold forAcquireKey, forTransferKey; try congruence.
    intros Hpair. apply (f_equal fst) in Hpair. cbn [fst] in Hpair.
    apply buildCollectionName_inj in Hpair. congruence.
  - intros -> ctx' blob' Hb'.
    destruct (after_transfer_private ctx c (OwnerOrg c) (OwnerOrg c) "{}" l Hv)
      as (_ & _ & P3 & _).
    unfold VerifyCommodityProperties. unfold bind at 1. rewrite Hb'.
    unfold orError at 1, ret at 1. unfold bind at 1. unfold wrapf at 1.
    rewrite (ReadCommodity_doc ctx' _ (handed_over c (OwnerOrg c))).
    2:{ cbn [world after_transfer]. by rewrite lookup_insert_eq. }
    unfold bind at 1. unfold deref, orError at 1, ret at 1.
    unfold bind at 1. unfold Stub.GetPrivateDataHash at 1. cbn [OwnerOrg handed_over].
    rewrite P3. reflexivity.
Qed.

(** X14.  The checks of a transfer run in order and the first failure is
    reported, with no write: a caller that is not the owner gets "a client
    from ... cannot transfer a commodity owned by ..." whatever the private
    data; the owner whose recipient has stored no attribute copy gets
    "commodity private properties hash does not exist". *)
Theorem TransferCommodity_first_failure ctx commodityID recipientOrg l c blob :
  world l !! commodityID = Some (Commodity_doc c) ->
  GetTransient ctx !! "Commodity_transferKey" = Some blob ->
  is_Some (decode_Agreement blob) ->
  (clientMSPID ctx <> OwnerOrg c ->
   TransferCommodity ctx commodityID recipientOrg l
   = (Err (Wrapf "failed transfer verification"
             (ErrCannotTransfer (clientMSPID ctx) (OwnerOrg c))), l))
  /\ (clientMSPID ctx = OwnerOrg c ->
      is_Some (private l !! (buildCollectionName (OwnerOrg c), ID c)) ->
      private l !! (buildCollectionName recipientOrg, ID c) = None ->
      TransferCommodity ctx commodityID recipientOrg l
      = (Err (Wrapf "failed transfer verification"
                (ErrPropertiesHashDoesNotExist (ID c))), l)).
Proof.
  intros Hw Hb Ha. split.
  - intros Hne. apply (failed_TransferCommodity _ _ _ _ c blob); try done.
    unfold verifyTransferConditions, bind, deref, orError, ret, throw.
    destruct (String.eqb_spec (clientMSPID ctx) (OwnerOrg c)); [done | reflexivity].
  - intros Hown [a Hpa] Hpb. apply (failed_TransferCommodity _ _ _ _ c blob); try done.
    unfold verifyTransferConditions; unfold_monad. cbn.
    rewrite Hown, String.eqb_refl. cbn. rewrite Hpa. cbn. rewrite Hpb. reflexivity.
Qed.

(** X15.  [transferCommodityState] converts the transaction timestamp
    after the public record, the policy and the three deletions are
    issued: a transfer that passes every check in a transaction whose
    timestamp [ptypes.Timestamp] refuses returns "failed commodity
    transfer" with those five writes issued and the public record already
    handed over; only the host's dropping the writes of a failed call undoes
    them. *)
Theorem TransferCommodity_fails_after_writing ctx commodityID recipientOrg l c blob :
  reachable l ->
  world l !! commodityID = Some (Commodity_doc c) ->
  GetTransient ctx !! "Commodity_transferKey" = Some blob ->
  is_Some (decode_Agreement blob) ->
  CHECK1 (clientMSPID ctx) c = true ->
  CHECK2 l c recipientOrg = true ->
  CHECK3 l c recipientOrg blob = true ->
  Shim.validateCompositeKeyAttribute (GetTxID ctx) = true ->
  Time.ptypes_Timestamp (GetTxTimestamp ctx) = None ->
  exists l',
    TransferCommodity ctx commodityID recipientOrg l
    = (Err (Wrapf "failed commodity transfer" ErrTimestamp), l')
    /\ writes l'
       = (writes l
          ++ take 5 (transfer_writes ctx c (OwnerOrg c) recipientOrg EmptyString))%list
    /\ world l' !! commodityID = Some (Commodity_doc (handed_over c recipientOrg)).
Proof.
  intros Hr Hw Hb [a Ha] H1 H2 H3 Htx Hts.
  pose proof (reachable_consistent _ Hr) as Hc.
  destruct (Hc _ _ Hw) as (c0 & Heq & Hid & Hv). apply Commodity_doc_inj in Heq as <-.
  subst commodityID.
  rewrite (TransferCommodity_unfold _ _ _ _ _ _ Hw Hb), Ha.
  rewrite (proj2 (verify_ok_iff ctx c (clientMSPID ctx) recipientOrg blob l Hv)) by done.
  apply String.eqb_eq in H1. rewrite H1.
  unfold transferCommodityState.
  unfold deref, Marshal_Commodity, setCommodityStateBasedEndorsement, orError, bind, wrapf, ret, throw,
    Stub.PutState, Stub.DelPrivateData, Stub.PutPrivateData, Stub.SetStateValidationParameter,
    Stub.CreateCompositeKey, orError, ret, throw.
  rewrite !CreateCompositeKey_1, !CreateCompositeKey_2 by reflexivity.
  rewrite MarshalDocument_Commodity. cbn. rewrite Hv, Htx. cbn. rewrite Hts. cbn.
  eexists. split; [reflexivity|]. cbn. rewrite <- !app_assoc. cbn.
  split; [reflexivity|]. by rewrite lookup_insert_eq.
Qed.

Lemma decodeAgreements_spec items acc l :
  decodeAgreements items acc l
  = match mapM decode_Agreement (items.*2) with
    | Some decoded => (Ok (acc ++ decoded)%list, l)
    | None => (Err ErrJSON, l)
    end.
Proof.
  revert acc. induction items as [|x items IH]; intros acc; cbn.
  - unfold ret. by rewrite app_nil_r.
  - unfold bind, Unmarshal_Agreement, orError, ret, throw.
    destruct (decode_Agreement x.2) as [a|]; cbn; [|reflexivity].
    rewrite IH. destruct (mapM decode_Agreement items.*2); cbn; [|reflexivity].
    by rewrite <- app_assoc.
Qed.


Lemma queryAgreementsByType_pending ctx t l :
  peerMSPID ctx <> "" -> clientMSPID ctx = peerMSPID ctx ->
  queryAgreementsByType ctx t l
  = decodeAgreements (pending l (buildCollectionName (clientMSPID ctx)) t) [] l.
Proof.
  intros Hp Hcp. unfold queryAgreementsByType, getClientImplicitCollectionNameAndVerifyClientOrg.
  unfold bind at 1. unfold bind at 1. unfold getClientOrgID at 1. unfold ret at 1.
  unfold bind at 1. rewrite verifyClientOrgMatchesPeerOrg_ok by done.
  reflexivity.
Qed.

Lemma pending_elem l collection t k v :
  (k, v) ∈ pending l collection t <->
  private l !! (collection, k) = Some v
  /\ String.prefix (Shim.compositeKeyNamespace +:+ t +:+ String "000" EmptyString) k = true.
Proof.
  unfold pending. rewrite merge_sort_Permutation, list_elem_of_omap. split.
  - intros ([[c k'] v'] & Hin & Hf). apply elem_of_map_to_list in Hin.
    destruct (String.eqb_spec c collection) as [->|]; cbn in Hf; [|done].
    destruct (String.prefix _ k') eqn:Hpre; [|done]. by simplify_eq.
  - intros [Hl Hpre]. exists ((collection, k), v). split; [by apply elem_of_map_to_list|].
    by rewrite String.eqb_refl, Hpre.
Qed.

(** X16.  When [QueryCommodityPutAgreements] succeeds on a peer of the
    caller's organization, every agreement it returns is the decoding of a
    record of the caller's own collection stored under an owner-side
    composite key, and the ledger is as it was. *)
Theorem QueryCommodityPutAgreements_own_commitments ctx l agreements l' :
  peerMSPID ctx <> "" ->
  clientMSPID ctx = peerMSPID ctx ->
  QueryCommodityPutAgreements ctx l = (Ok agreements, l') ->
  l' = l
  /\ Forall (fun a => exists k v,
               private l !! (buildCollectionName (clientMSPID ctx), k) = Some v
               /\ String.prefix (compositeKey typeCommodityForTransfer []) k = true
               /\ decode_Agreement v = Some a) agreements.
Proof.
  intros Hp Hcp. unfold QueryCommodityPutAgreements.
  rewrite queryAgreementsByType_pending, decodeAgreements_spec by done.
  destruct (mapM _ _) as [decoded|] eqn:Hm; [|done]. intros [= <- <-]. split; [done|].
  apply mapM_Some in Hm. cbn. apply Forall_forall. intros a Ha.
  apply list_elem_of_lookup in Ha as [i Hi].
  destruct (Forall2_lookup_r _ _ _ i a Hm Hi) as (v & Hv & Hdec).
  apply list_lookup_fmap_Some in Hv as ([k v'] & -> & Hkv). cbn in Hdec.
  apply list_elem_of_lookup_2 in Hkv. apply pending_elem in Hkv as [Hl Hpre].
  exists k, v'. done.
Qed.

(** X17.  [agreeToTransfer] stores the term as it is and
    [queryAgreementsByType] decodes every stored term: one owner-side term
    that [json.Unmarshal] refuses makes [QueryCommodityPutAgreements] fail
    for that organization. *)
Theorem QueryCommodityPutAgreements_undecodable ctx l commodityID term :
  peerMSPID ctx <> "" ->
  clientMSPID ctx = peerMSPID ctx ->
  private l !! (buildCollectionName (clientMSPID ctx), forTransferKey commodityID)
  = Some term ->
  decode_Agreement term = None ->
  QueryCommodityPutAgreements ctx l = (Err ErrJSON, l).
Proof.
  intros Hp Hcp Hl Hdec. unfold QueryCommodityPutAgreements.
  rewrite queryAgreementsByType_pending, decodeAgreements_spec by done.
  destruct (mapM _ _) as [decoded|] eqn:Hm; [|done]. exfalso.
  assert (Hin : (forTransferKey commodityID, term)
                ∈ pending l (buildCollectionName (clientMSPID ctx)) typeCommodityForTransfer).
  { apply pending_elem. split; [done|]. destruct commodityID; vm_compute; reflexivity. }
  apply mapM_Some in Hm. apply list_elem_of_lookup in Hin as [i Hi].
  assert (Hv : (pending l (buildCollectionName (clientMSPID ctx)) typeCommodityForTransfer).*2 !! i
               = Some term) by (rewrite list_lookup_fmap, Hi; done).
  destruct (Forall2_lookup_l _ _ _ i term Hm Hv) as (a & _ & Ha). congruence.
Qed.



Lemma decodeHistory_spec items acc l results l' :
  decodeHistory items acc l = (Ok results, l') ->
  l' = l /\ exists rs, results = (acc ++ rs)%list /\ Forall2 history_entry items rs.
Proof.
  revert acc. induction items as [|v items IH]; intros acc; cbn.
  - unfold ret. intros [= <- <-]. split; [done|]. exists []. by rewrite app_nil_r.
  - unfold bind, Unmarshal_Commodity, orError, ret, throw.
    destruct (decode_Commodity (km_Value v)) as [p|] eqn:Hd; [|done].
    destruct (Time.ptypes_Timestamp (km_Timestamp v)) as [t|] eqn:Ht; [|done].
    intros H. apply IH in H as (-> & rs & -> & Hrs). split; [done|].
    eexists (_ :: rs). rewrite <- app_assoc. split; [reflexivity|].
    constructor; [|done]. done.
Qed.

(** X19.  When [QueryCommodityHistory] succeeds it returns one result per
    version of the key, in the order of the iterator, each with the
    transaction id, the decoded record and the converted timestamp of its
    version, and the ledger is as it was. *)
Theorem QueryCommodityHistory_entries ctx assetID l results l' :
  QueryCommodityHistory ctx assetID l = (Ok results, l') ->
  l' = l
  /\ Forall2 history_entry (default [] (versions l !! assetID)) results.
Proof.
  unfold QueryCommodityHistory, bind, Stub.GetHistoryForKey. intros H.
  apply decodeHistory_spec in H as (-> & rs & -> & Hrs). done.
Qed.

(** X20.  [QueryCommodityHistory] fails as a whole, with the timestamp
    error, as soon as one version of the key (all of them decodable) carries
    a timestamp [ptypes.Timestamp] refuses. *)
Theorem QueryCommodityHistory_bad_timestamp ctx assetID l v :
  v ∈ default [] (versions l !! assetID) ->
  (forall w, w ∈ default [] (versions l !! assetID) ->
             is_Some (decode_Commodity (km_Value w))) ->
  Time.ptypes_Timestamp (km_Timestamp v) = None ->
  QueryCommodityHistory ctx assetID l = (Err ErrTimestamp, l).
Proof.
  unfold QueryCommodityHistory, bind, Stub.GetHistoryForKey.
  generalize (default [] (versions l !! assetID)) as items.
  generalize (@nil QueryResult) as acc.
  intros acc items. revert acc. induction items as [|w items IH]; intros acc Hin Hdec Ht.
  - by apply elem_of_nil in Hin.
  - cbn. unfold bind, Unmarshal_Commodity, orError, ret, throw.
    destruct (Hdec w) as [p Hp]; [left|]. rewrite Hp.
    apply elem_of_cons in Hin as [<-|Hin].
    + by rewrite Ht.
    + destruct (Time.ptypes_Timestamp (km_Timestamp w)); [|done].
      apply IH; [done| |done]. intros w' Hw'. apply Hdec. by right.
Qed.

(** X21.  [agreeToTransfer] keeps its promise "to avoid collisions between
    private commodity properties and transferKeys": whatever its outcome, no
    private record whose key can be a commodity id (a valid composite-key
    attribute) is changed, and neither is the public state or a policy. *)
Theorem agreeToTransfer_keeps_attributes ctx commodityID transferType l r l' :
  agreeToTransfer ctx commodityID transferType l = (r, l') ->
  world l' = world l /\ policies l' = policies l
  /\ forall collection key,
       Shim.validateCompositeKeyAttribute key = true ->
       private l' !! (collection, key) = private l !! (collection, key).
Proof.
  unfold agreeToTransfer; unfold_monad. intros H.
  destruct (GetTransient ctx !! "commodity_transferKey") as [tk|]; cbn in H; [|by simplify_eq].
  destruct (Shim.CreateCompositeKey transferType [commodityID]) as [k|] eqn:Hk;
    cbn in H; [|by simplify_eq].
  injection H as <- <-. cbn. repeat split. intros coll key Hv.
  apply CreateCompositeKey_Some in Hk as [-> _].
  rewrite lookup_insert_ne; [done|]. intros [= _ Heq]. symmetry in Heq.
  by apply valid_not_compositeKey in Heq.
Qed.



Lemma content_addressed_insert l l' c :
  world l' = <[ID c := Commodity_doc c]> (world l) ->
  well_shaped (ID c) c ->
  content_addressed l -> content_addressed l'.
Proof.
  intros Hw Hs Hc k j. rewrite Hw. destruct (decide (ID c = k)) as [<-|Hne].
  - rewrite lookup_insert_eq. intros [= <-]. eauto.
  - rewrite lookup_insert_ne by done. apply Hc.
Qed.

Lemma invoke_content_addressed ctx i l l' :
  content_addressed l -> invoke ctx i l = (None, l') -> content_addressed l'.
Proof.
  intros Hc H.
  destruct (read_only i) eqn:Hro.
  { by apply read_only_frame in H as ->. }
  destruct i; try discriminate; cbn [invoke] in H; unfold outcome in H.
  - destruct (CreateAsset _ _ _ _) as [[id|e] l1] eqn:Hrun; simplify_eq.
    apply CreateAsset_Ok in Hrun as (B & _ & _ & _ & -> & ->).
    eapply (content_addressed_insert _ _ (created ctx target publicDescription B));
      [reflexivity| |done].
    repeat split; eauto.
  - destruct (ChangePublicDescription _ _ _ _) as [[[]|e] l1] eqn:Hrun; simplify_eq.
    destruct (world l !! commodityID) as [j|] eqn:Hw.
    2:{ apply ChangePublicDescription_None in Hrun as [_ [? ?]]; [congruence|done]. }
    destruct (Hc _ _ Hw) as (c & -> & Hid & HB & Hot & Hdi).
    rewrite (ChangePublicDescription_doc _ _ _ _ _ Hw) in Hrun.
    destruct (String.eqb _ _); [|congruence].
    unfold Stub.PutState in Hrun. injection Hrun as <-.
    eapply (content_addressed_insert _ _ (described c newDescription)); cbn;
      [by rewrite Hid| |done].
    unfold well_shaped. cbn. by rewrite Hid.
  - destruct (AgreeToPut _ _ _) as [[[]|e] l1] eqn:Hrun; simplify_eq.
    apply AgreeToPut_world in Hrun. intros k j. rewrite Hrun. apply Hc.
  - destruct (AgreeToGet _ _ _) as [[[]|e] l1] eqn:Hrun; simplify_eq.
    apply AgreeToGet_world in Hrun. intros k j. rewrite Hrun. apply Hc.
  - destruct (TransferCommodity _ _ _ _) as [[[]|e] l1] eqn:Hrun; simplify_eq.
    assert (Hcons : consistent l).
    { intros k j Hkj. destruct (Hc _ _ Hkj) as (c & -> & Hid & [B HB] & _).
      exists c. repeat split; [done|]. rewrite HB. apply validate_hex. }
    apply TransferCommodity_Ok in Hrun as (c & blob & Hw & _ & _ & _ & _ & _ & _ & _ & ->); [|done].
    destruct (Hc _ _ Hw) as (c0 & Heq & Hid & HB & Hot & Hdi).
    apply Commodity_doc_inj in Heq as <-.
    eapply (content_addressed_insert _ _ (handed_over c downStreamOrgID)); cbn;
      [reflexivity| |done].
    unfold well_shaped. cbn. by rewrite Hid.
Qed.

(** X22.  On every ledger the contract has produced, every value of the
    public state is the document of a commodity stored under its own id,
    that id is the hex form of the SHA-256 digest of some blob, the object
    type is "Commodity" and the detailed information is empty. *)
Theorem public_records_are_content_addressed l k j :
  reachable l ->
  world l !! k = Some j ->
  exists c B,
    j = Commodity_doc c
    /\ ID c = k
    /\ k = Bytes.hex_EncodeToString (SHA256.Sum256 B)
    /\ ObjectType c = "Commodity"
    /\ DetailedInformation c = EmptyString.
Proof.
  intros Hr Hw.
  assert (Hc : content_addressed l).
  { clear Hw. induction Hr as [|ctx i l l' Hr IH H].
    - intros k' j'. cbn. by rewrite lookup_empty.
    - eapply invoke_content_addressed; eauto. }
  destruct (Hc _ _ Hw) as (c & -> & Hid & [B HB] & Hot & Hdi). exists c, B. done.
Qed.

(* ===================================================================== *)
(** ** The further properties at concrete transactions *)
(* ===================================================================== *)

Lemma reachable_s3 : reachable Cases.s3.
Proof. apply committed; [apply reachable_l2 | by vm_compute]. Qed.
Lemma reachable_late1 : reachable Cases.late1.
Proof. apply committed; [constructor | by vm_compute]. Qed.

Lemma query_result {A} (m : M A) (l : Ledger) (v : A) :
  (m l).2 = l -> (m l).1 = Ok v -> m l = (Ok v, l).
Proof. destruct (m l) as [r l']. cbn. by intros -> ->. Qed.

Lemma ReadCommodity_crate ctx :
  ReadCommodity ctx Scenario.id Scenario.l1 = (Ok (Some Scenario.crate), Scenario.l1).
Proof. apply ReadCommodity_doc. vm_compute. reflexivity. Qed.

Lemma AgreeToPut_then_GetCommodityUpstreamKey_witness :
  exists l',
    AgreeToPut Scenario.put_by_A Scenario.id Scenario.l1 = (Ok (), l')
    /\ writes l' = (writes Scenario.l1
                    ++ [WPutPrivateData (buildCollectionName (OwnerOrg Scenario.crate))
                          (forTransferKey Scenario.id) Scenario.T1])%list
    /\ world l' = world Scenario.l1 /\ policies l' = policies Scenario.l1
    /\ digestOf l' (buildCollectionName (OwnerOrg Scenario.crate))
         (forTransferKey Scenario.id) = Some (SHA256.Sum256 Scenario.T1)
    /\ forall ctx', clientMSPID ctx' = OwnerOrg Scenario.crate ->
         peerMSPID ctx' = OwnerOrg Scenario.crate ->
         GetCommodityUpstreamKey ctx' Scenario.id l' = (Ok Scenario.T1, l').
Proof.
  apply (AgreeToPut_then_GetCommodityUpstreamKey Scenario.put_by_A Scenario.id
           Scenario.l1 Scenario.crate Scenario.T1).
  - apply ReadCommodity_crate.
  - vm_compute. discriminate.
  - reflexivity.
  - reflexivity.
  - vm_compute. reflexivity.
  - vm_compute. reflexivity.
Defined.

Lemma AgreeToPut_rejects_witness :
  AgreeToPut Cases.put_by_B Scenario.id genesis
  = (Err (ErrDoesNotExist Scenario.id), genesis)
  /\ AgreeToPut Cases.put_by_B Scenario.id Scenario.l1
     = (Err (ErrCannotUpdate (clientMSPID Cases.put_by_B) (OwnerOrg Scenario.crate)),
        Scenario.l1)
  /\ AgreeToPut Cases.bare_A Scenario.id Scenario.l1
     = (Err (ErrTransientKeyNotFound "commodity_transferKey"), Scenario.l1).
Proof.
  assert (HB : peerMSPID Cases.put_by_B <> EmptyString) by (vm_compute; discriminate).
  assert (HA : peerMSPID Cases.bare_A <> EmptyString) by (vm_compute; discriminate).
  destruct (AgreeToPut_rejects Cases.put_by_B Scenario.id genesis HB eq_refl) as (G1 & _).
  destruct (AgreeToPut_rejects Cases.put_by_B Scenario.id Scenario.l1 HB eq_refl)
    as (_ & G2 & _).
  destruct (AgreeToPut_rejects Cases.bare_A Scenario.id Scenario.l1 HA eq_refl)
    as (_ & _ & G3).
  split; [|split].
  - apply G1. vm_compute. reflexivity.
  - apply (G2 Scenario.crate); [apply ReadCommodity_crate | vm_compute; discriminate].
  - apply (G3 Scenario.crate);
      [apply ReadCommodity_crate | reflexivity | vm_compute; reflexivity].
Defined.



Lemma CreateAsset_fails_before_writing_witness :
  genesis = genesis
  /\ ((GetTransient Cases.foreign !! "commodity_properties" = None
       /\ ErrClientNotPeerOrg "OrgB" "OrgA" = ErrTransientKeyNotFound "commodity_properties")
      \/ (peerMSPID Cases.foreign = EmptyString
          /\ ErrClientNotPeerOrg "OrgB" "OrgA"
             = Wrapf "failed getting peer's orgID" ErrPeerMSPIDNotSet)
      \/ (clientMSPID Cases.foreign <> peerMSPID Cases.foreign
          /\ ErrClientNotPeerOrg "OrgB" "OrgA"
             = ErrClientNotPeerOrg (clientMSPID Cases.foreign) (peerMSPID Cases.foreign))).
Proof.
  apply (CreateAsset_fails_before_writing Cases.foreign "OrgC" "a crate" genesis
           (ErrClientNotPeerOrg "OrgB" "OrgA") genesis).
  vm_compute. reflexivity.
Defined.

Lemma private_access_requires_own_peer_witness :
  invoke Cases.foreign (InvGetCommodityPrivateProperties Scenario.id) Scenario.l1
  = (Some (ErrClientNotPeerOrg (clientMSPID Cases.foreign) (peerMSPID Cases.foreign)),
     Scenario.l1).
Proof.
  apply (private_access_requires_own_peer Cases.foreign
           (InvGetCommodityPrivateProperties Scenario.id) Scenario.l1).
  - reflexivity.
  - vm_compute. discriminate.
  - vm_compute. discriminate.
Defined.

Lemma queries_write_nothing_witness :
  (invoke Scenario.verify_Y (InvVerifyCommodityProperties Scenario.id) Scenario.l1).2
  = Scenario.l1.
Proof.
  apply (queries_write_nothing Scenario.verify_Y
           (InvVerifyCommodityProperties Scenario.id) Scenario.l1).
  reflexivity.
Defined.

Lemma GetCommodityHashId_after_CreateAsset_witness :
  GetCommodityHashId Scenario.verify_X Scenario.l1 = (Ok Scenario.id, Scenario.l1)
  /\ (forall ctx'', clientMSPID ctx'' = clientMSPID Scenario.create_by_A ->
        peerMSPID ctx'' = peerMSPID Scenario.create_by_A ->
        GetCommodityPrivateProperties ctx'' Scenario.id Scenario.l1
        = (Ok Scenario.X, Scenario.l1)).
Proof.
  apply (GetCommodityHashId_after_CreateAsset Scenario.create_by_A "OrgB" "a crate"
           genesis Scenario.X Scenario.id Scenario.l1 Scenario.verify_X).
  - vm_compute. reflexivity.
  - apply committed_CreateAsset; [vm_compute; reflexivity | vm_compute; discriminate | reflexivity].
  - vm_compute. reflexivity.
Defined.



Lemma private_writes_stay_home_witness :
  private (Scenario.after Scenario.l2 Scenario.get_by_B (InvAgreeToGet Scenario.id))
    !! (buildCollectionName "OrgA", Scenario.id)
  = private Scenario.l2 !! (buildCollectionName "OrgA", Scenario.id).
Proof.
  apply (private_writes_stay_home Scenario.get_by_B (InvAgreeToGet Scenario.id)
           Scenario.l2
           (invoke Scenario.get_by_B (InvAgreeToGet Scenario.id) Scenario.l2).1).
  - intros c d. discriminate.
  - apply surjective_pairing.
  - vm_compute. discriminate.
Defined.

Lemma policy_is_the_owner_witness :
  policies Scenario.l4 !! Scenario.id
  = Some {[ OwnerOrg (handed_over Scenario.crate "OrgB") ]}.
Proof.
  apply (policy_is_the_owner Scenario.l4 Scenario.id (handed_over Scenario.crate "OrgB")).
  - apply reachable_l4.
  - vm_compute. reflexivity.
Defined.

Lemma attribute_digest_after_transfer_witness :
  ("OrgB" <> OwnerOrg Scenario.crate ->
     is_Some (digestOf Scenario.l3 (buildCollectionName (OwnerOrg Scenario.crate))
                Scenario.id)
     /\ digestOf Scenario.l4 (buildCollectionName "OrgB") Scenario.id
        = digestOf Scenario.l3 (buildCollectionName (OwnerOrg Scenario.crate)) Scenario.id)
  /\ ((OwnerOrg Scenario.crate = OwnerOrg Scenario.crate ->
       forall ctx' blob,
         GetTransient ctx' !! "Commodity_properties" = Some blob ->
         VerifyCommodityProperties ctx' Scenario.id Cases.s4
         = (Err (ErrPropertiesHashDoesNotExist Scenario.id), Cases.s4))).
Proof.
  split.
  - apply (attribute_digest_after_transfer Scenario.transfer_by_A Scenario.id "OrgB"
             Scenario.l3 Scenario.l4 Scenario.crate).
    + apply reachable_l3.
    + vm_compute. reflexivity.
    + apply committed_TransferCommodity. vm_compute. reflexivity.
  - apply (attribute_digest_after_transfer Scenario.transfer_by_A Scenario.id
             (OwnerOrg Scenario.crate) Cases.s3 Cases.s4 Scenario.crate).
    + apply reachable_s3.
    + vm_compute. reflexivity.
    + apply (committed_TransferCommodity Scenario.transfer_by_A Scenario.id "OrgA" Cases.s3).
      vm_compute. reflexivity.
Defined.

Lemma TransferCommodity_first_failure_witness :
  TransferCommodity Scenario.transfer_again Scenario.id "OrgB" Scenario.l4
  = (Err (Wrapf "failed transfer verification"
            (ErrCannotTransfer (clientMSPID Scenario.transfer_again)
               (OwnerOrg (handed_over Scenario.crate "OrgB")))), Scenario.l4)
  /\ TransferCommodity Scenario.transfer_by_A Scenario.id "OrgB" Scenario.l2
     = (Err (Wrapf "failed transfer verification"
               (ErrPropertiesHashDoesNotExist (ID Scenario.crate))), Scenario.l2).
Proof.
  assert (H4 : world Scenario.l4 !! Scenario.id
               = Some (Commodity_doc (handed_over Scenario.crate "OrgB")))
    by (vm_compute; reflexivity).
  assert (H2 : world Scenario.l2 !! Scenario.id = Some (Commodity_doc Scenario.crate))
    by (vm_compute; reflexivity).
  assert (Hb : GetTransient Scenario.transfer_again !! "Commodity_transferKey"
               = Some Scenario.T1) by (vm_compute; reflexivity).
  assert (Ha : is_Some (decode_Agreement Scenario.T1)) by (vm_compute; eauto).
  destruct (TransferCommodity_first_failure Scenario.transfer_again Scenario.id "OrgB"
              Scenario.l4 _ Scenario.T1 H4 Hb Ha) as [G1 _].
  destruct (TransferCommodity_first_failure Scenario.transfer_by_A Scenario.id "OrgB"
              Scenario.l2 _ Scenario.T1 H2 Hb Ha) as [_ G2].
  split.
  - apply G1. vm_compute. discriminate.
  - apply G2; [reflexivity | vm_compute; eauto | vm_compute; reflexivity].
Defined.

Lemma TransferCommodity_fails_after_writing_witness :
  exists l',
    TransferCommodity Cases.transfer_late Scenario.id "OrgB" Scenario.l3
    = (Err (Wrapf "failed commodity transfer" ErrTimestamp), l')
    /\ writes l'
       = (writes Scenario.l3
          ++ take 5 (transfer_writes Cases.transfer_late Scenario.crate
                       (OwnerOrg Scenario.crate) "OrgB" EmptyString))%list
    /\ world l' !! Scenario.id = Some (Commodity_doc (handed_over Scenario.crate "OrgB")).
Proof.
  apply (TransferCommodity_fails_after_writing Cases.transfer_late Scenario.id "OrgB"
           Scenario.l3 Scenario.crate Scenario.T1).
  - apply reachable_l3.
  - vm_compute. reflexivity.
  - vm_compute. reflexivity.
  - vm_compute. eauto.
  - vm_compute. reflexivity.
  - vm_compute. reflexivity.
  - vm_compute. reflexivity.
  - vm_compute. reflexivity.
  - vm_compute. reflexivity.
Defined.

Lemma QueryCommodityPutAgreements_frame ctx l :
  (QueryCommodityPutAgreements ctx l).2 = l.
Proof.
  pose proof (read_only_frame ctx InvQueryCommodityPutAgreements l) as H.
  cbn [invoke] in H. destruct (QueryCommodityPutAgreements ctx l) as [[v|e] l'];
    (eapply H; [reflexivity|]); reflexivity.
Qed.

Lemma QueryCommodityHistory_frame ctx k l : (QueryCommodityHistory ctx k l).2 = l.
Proof.
  pose proof (read_only_frame ctx (InvQueryCommodityHistory k) l) as H.
  cbn [invoke] in H. destruct (QueryCommodityHistory ctx k l) as [[v|e] l'];
    (eapply H; [reflexivity|]); reflexivity.
Qed.

Lemma QueryCommodityPutAgreements_own_commitments_witness :
  Scenario.l2 = Scenario.l2
  /\ Forall (fun a => exists k v,
               private Scenario.l2
                 !! (buildCollectionName (clientMSPID Scenario.put_by_A), k) = Some v
               /\ String.prefix (compositeKey typeCommodityForTransfer []) k = true
               /\ decode_Agreement v = Some a) [Cases.agreement_T1].
Proof.
  apply (QueryCommodityPutAgreements_own_commitments Scenario.put_by_A Scenario.l2
           [Cases.agreement_T1] Scenario.l2).
  - vm_compute. discriminate.
  - reflexivity.
  - apply query_result; [apply QueryCommodityPutAgreements_frame | vm_compute; reflexivity].
Defined.

Lemma QueryCommodityPutAgreements_undecodable_witness :
  QueryCommodityPutAgreements Scenario.put_secret Scenario.m2 = (Err ErrJSON, Scenario.m2).
Proof.
  apply (QueryCommodityPutAgreements_undecodable Scenario.put_secret Scenario.m2
           Scenario.id Scenario.secret).
  - vm_compute. discriminate.
  - reflexivity.
  - vm_compute. reflexivity.
  - vm_compute. reflexivity.
Defined.

Lemma QueryCommodityHistory_entries_witness :
  Scenario.l4 = Scenario.l4
  /\ Forall2 history_entry (default [] (versions Scenario.l4 !! Scenario.id))
       Cases.history_l4.
Proof.
  apply (QueryCommodityHistory_entries Scenario.verify_X Scenario.id Scenario.l4
           Cases.history_l4 Scenario.l4).
  apply query_result; [apply QueryCommodityHistory_frame | vm_compute; reflexivity].
Defined.

Lemma QueryCommodityHistory_bad_timestamp_witness :
  QueryCommodityHistory Scenario.verify_X Scenario.id Cases.late1
  = (Err ErrTimestamp, Cases.late1).
Proof.
  assert (Hv : default [] (versions Cases.late1 !! Scenario.id)
               = [ {| km_TxId := "tx1"; km_Timestamp := Cases.late;
                      km_Value := Commodity_doc Scenario.crate |} ])
    by (vm_compute; reflexivity).
  apply (QueryCommodityHistory_bad_timestamp Scenario.verify_X Scenario.id Cases.late1
           {| km_TxId := "tx1"; km_Timestamp := Cases.late;
              km_Value := Commodity_doc Scenario.crate |}).
  - rewrite Hv. apply list_elem_of_singleton. reflexivity.
  - rewrite Hv. intros w Hw. apply list_elem_of_singleton in Hw as ->.
    vm_compute. eauto.
  - vm_compute. reflexivity.
Defined.

Lemma agreeToTransfer_keeps_attributes_witness :
  world (agreeToTransfer Scenario.put_by_A Scenario.id typeCommodityForTransfer Scenario.l1).2
  = world Scenario.l1
  /\ policies (agreeToTransfer Scenario.put_by_A Scenario.id typeCommodityForTransfer
                 Scenario.l1).2
     = policies Scenario.l1
  /\ forall collection key,
       Shim.validateCompositeKeyAttribute key = true ->
       private (agreeToTransfer Scenario.put_by_A Scenario.id typeCommodityForTransfer
                  Scenario.l1).2 !! (collection, key)
       = private Scenario.l1 !! (collection, key).
Proof.
  apply (agreeToTransfer_keeps_attributes Scenario.put_by_A Scenario.id
           typeCommodityForTransfer Scenario.l1
           (agreeToTransfer Scenario.put_by_A Scenario.id typeCommodityForTransfer
              Scenario.l1).1).
  apply surjective_pairing.
Defined.

Lemma public_records_are_content_addressed_witness :
  exists c B,
    Commodity_doc (handed_over Scenario.crate "OrgB") = Commodity_doc c
    /\ ID c = Scenario.id
    /\ Scenario.id = Bytes.hex_EncodeToString (SHA256.Sum256 B)
    /\ ObjectType c = "Commodity"
    /\ DetailedInformation c = EmptyString.
Proof.
  apply (public_records_are_content_addressed Scenario.l4 Scenario.id
           (Commodity_doc (handed_over Scenario.crate "OrgB"))).
  - apply reachable_l4.
  - vm_compute. reflexivity.
Defined.

(* ===================================================================== *)
(** ** Test vectors for the library models *)
(* ===================================================================== *)

Example sha256_abc :
  Bytes.hex_EncodeToString (SHA256.Sum256 "abc")
  = "ba7816bf8f01cfea414140de5dae2223b00361a396177a9cb410ff61f20015ad".
Proof. vm_compute. reflexivity. Qed.

Example sha256_empty :
  Bytes.hex_EncodeToString (SHA256.Sum256 "")
  = "e3b0c44298fc1c149afbf4c8996fb92427ae41e4649b934ca495991b7852b855".
Proof. vm_compute. reflexivity. Qed.

Example sha256_two_blocks :
  Bytes.hex_EncodeToString
    (SHA256.Sum256 "abcdbcdecdefdefgefghfghighijhijkijkljklmklmnlmnomnopnopq")
  = "248d6a61d20638b8e5c026930c3e6039a33ce45964ff2167f6ecedd419db06c1".
Proof. vm_compute. reflexivity. Qed.

Example parse_agreement :
  JSON.parse (Bytes.requote " { 'commodity' : 'crate', 'transferKey' : 42 } ")
  = Some (JObject [("commodity", JString "crate"); ("transferKey", JNumber "42")]).
Proof. vm_compute. reflexivity. Qed.

Example parse_rejects_text : JSON.parse Scenario.secret = None.
Proof. vm_compute. reflexivity. Qed.

Example parse_rejects_leading_zero : JSON.parse "01" = None.
Proof. vm_compute. reflexivity. Qed.

Example decode_agreement_null : decode_Agreement "null" = Some zero_Agreement.
Proof. vm_compute. reflexivity. Qed.

Example decode_agreement_fold_case :
  decode_Agreement (Bytes.requote "{'TRANSFERKEY':7,'unknown':[1,2]}")
  = Some {| Agreement_ID := ""; TransferKey := 7; TransferID := "" |}.
Proof. vm_compute. reflexivity. Qed.

Example decode_agreement_wrong_type :
  decode_Agreement (Bytes.requote "{'transferKey':'7'}") = None.
Proof. vm_compute. reflexivity. Qed.

Example decode_agreement_fraction : decode_Agreement (Bytes.requote "{'transferKey':7.5}") = None.
Proof. vm_compute. reflexivity. Qed.

(** An exported field is encoded with its value: the transfer key of an
    [Agreement] reaches the text, that of a [receipt] does not. *)
Example marshal_agreement :
  GoJSON.Marshal
    (Agreement_fields {| Agreement_ID := "crate"; TransferKey := 1234; TransferID := "T1" |})
  = Some (Bytes.requote "{'commodity':'crate','transferKey':1234,'transfer_id':'T1'}").
Proof. vm_compute. reflexivity. Qed.

Example marshal_exported_time :
  GoJSON.Marshal [ field "Timestamp" (Some "timestamp")
                     (GoTime {| unix := 1700000000; nsec := 120000000 |}) ]
  = Some (Bytes.requote "{'timestamp':'2023-11-14T22:13:20.12Z'}").
Proof. vm_compute. reflexivity. Qed.

Example marshal_escapes :
  GoJSON.Marshal [ field "Text" None (GoString (Bytes.requote "a<b 'c' \")) ]
  = Some (Bytes.requote "{'Text':'a\u003cb \'c\' \\'}").
Proof. vm_compute. reflexivity. Qed.

Example rfc3339_leap_day :
  Time.RFC3339Nano {| unix := 951782400; nsec := 0 |} = Some "2000-02-29T00:00:00Z".
Proof. vm_compute. reflexivity. Qed.

Example timestamp_out_of_range :
  Time.ptypes_Timestamp {| seconds := 253402300800; nanos := 0 |} = None.
Proof. vm_compute. reflexivity. Qed.

Example composite_key_of_receipt :
  Shim.CreateCompositeKey "GR" ["ab"; "tx"]
  = Some (String "000" ("GR" +:+ String "000" ("ab" +:+ String "000" ("tx" +:+ String "000" "")))).
Proof. vm_compute. reflexivity. Qed.

Example composite_key_rejects_nul :
  Shim.CreateCompositeKey "GR" [String "000" "ab"] = None.
Proof. vm_compute. reflexivity. Qed.

Example composite_key_rejects_invalid_utf8 :
  Shim.CreateCompositeKey "GR" [String "255" ""] = None.
Proof. vm_compute. reflexivity. Qed.

Example scenario_id_length : String.length Scenario.id = 64%nat.
Proof. vm_compute. reflexivity. Qed.

Example scenario_agreements_of_B :
  (QueryCommodityGetAgreements Scenario.get_by_B Scenario.l3).1
  = Ok [ {| Agreement_ID := "crate"; TransferKey := 1234; TransferID := "T1" |} ].
Proof. vm_compute. reflexivity. Qed.

Example sha256_constants :
  length SHA256.K = 64%nat /\ nth 0 SHA256.K 0 = 0x428a2f98
  /\ nth 63 SHA256.K 0 = 0xc67178f2 /\ nth 0 SHA256.H0 0 = 0x6a09e667
  /\ nth 7 SHA256.H0 0 = 0x5be0cd19.
Proof. vm_compute. repeat split; reflexivity. Qed.
